(** * PingJob: the REST route layer of [server/routes.ts]

    A shallow embedding of [registerRoutes]: every handler registered on
    the Express application, the middlewares defined in the file
    ([isAuthenticated], the two multer configurations) and the order in
    which Express tries the registrations.

    The data-access collaborator ([./storage]), the zod schemas
    ([@shared/schema]), the file system and the clock are not part of the
    file; they are the fields of the class [Collaborators], and what is
    proved of a handler is proved for all of their implementations.  Only
    what storage alone decides, the status transition of a company and
    the row a new job is stored as, is proved on the reference
    implementation [Sample].

    The session and body-parsing middlewares of the application, the
    routes of [setupAuth], the static files under [/uploads] and
    Express's own answers (its 404, its error handler) lie outside
    [routes.ts]; a request enters the model as the handlers see it, and
    leaves it as a response, as an error passed to [next], or
    unmatched.

    The pure parts of the client's [JobCard] component (the age of a
    posting, the skill badges, the location line) are embedded in the
    module [JobCard], and related to the routes the card calls. *)

From Stdlib Require Import String Ascii List ZArith Lia Bool Arith.
From Stdlib Require Import DecimalString DecimalPos.
#[local] Set Warnings "-register-all".
Import ListNotations.
Open Scope string_scope.
Open Scope Z_scope.

(** ** JavaScript values *)

Module JS.

(** Numbers.  The handlers only produce numbers with [parseInt], [.length]
    and integer literals, so a number is an integer or [NaN]; fractions,
    infinities and the rounding of integers above 2^53 are not modelled. *)
Inductive num : Type :=
| NaN
| Int (z : Z).

(** The values that travel through the handlers: request bodies, query
    parameters, storage results, response bodies.  A string is the
    sequence of its code units, those below 256; an object is the list of
    its own properties, distinct names in insertion order. *)
Inductive val : Type :=
| VUndef
| VNull
| VBool (b : bool)
| VNum (n : num)
| VStr (s : string)
| VArr (l : list val)
| VObj (props : list (string * val)).

(** What a [throw] carries: an error object with its message.
    [ZodError] is the only class the handlers test with [instanceof]; its
    [errors] property is the list of issues. *)
Inductive exn : Type :=
| ZodError (message : string) (issues : val)
| Error (message : string)
| TypeError (message : string).

Definition result (A : Type) : Type := (A + exn)%type.

Definition isZodError (e : exn) : bool :=
  match e with ZodError _ _ => true | _ => false end.

(** [error.message] *)
Definition message_of (e : exn) : val :=
  match e with
  | ZodError m _ | Error m | TypeError m => VStr m
  end.

(** [error.errors] *)
Definition errors_of (e : exn) : val :=
  match e with
  | ZodError _ issues => issues
  | _ => VUndef
  end.

Definition isNaN (n : num) : bool :=
  match n with NaN => true | Int _ => false end.

(** ToBoolean *)
Definition truthy (v : val) : bool :=
  match v with
  | VUndef | VNull => false
  | VBool b => b
  | VNum NaN => false
  | VNum (Int z) => negb (z =? 0)
  | VStr s => negb (String.eqb s "")
  | VArr _ | VObj _ => true
  end.

(** [a || b] *)
Definition or_else (a b : val) : val := if truthy a then a else b.

Definition nullish (v : val) : bool :=
  match v with VUndef | VNull => true | _ => false end.

(** [v === "lit"] and [v === true] *)
Definition is_str (v : val) (lit : string) : bool :=
  match v with VStr s => String.eqb s lit | _ => false end.

Definition is_true (v : val) : bool :=
  match v with VBool true => true | _ => false end.

(** Own-property lookup and assignment on the property list; reading a
    property the object does not have gives [undefined]. *)
Fixpoint own (k : string) (props : list (string * val)) : option val :=
  match props with
  | [] => None
  | (k', v) :: rest => if String.eqb k k' then Some v else own k rest
  end.

Definition lookup (k : string) (props : list (string * val)) : val :=
  match own k props with
  | Some v => v
  | None => VUndef
  end.

Fixpoint set (k : string) (v : val) (props : list (string * val))
  : list (string * val) :=
  match props with
  | [] => [(k, v)]
  | (k', v') :: rest =>
      if String.eqb k k' then (k', v) :: rest else (k', v') :: set k v rest
  end.

Definition len (s : string) : Z := Z.of_nat (String.length s).

Definition string_of_Z (z : Z) : string :=
  NilZero.string_of_int (Z.to_int z).

Definition string_of_index (i : nat) : string :=
  NilZero.string_of_uint (Nat.to_uint i).

Definition num_to_string (n : num) : string :=
  match n with NaN => "NaN" | Int z => string_of_Z z end.

(** ToString, as a template literal or [parseInt] applies it. *)
Fixpoint to_string (v : val) : string :=
  match v with
  | VUndef => "undefined"
  | VNull => "null"
  | VBool true => "true"
  | VBool false => "false"
  | VNum n => num_to_string n
  | VStr s => s
  | VArr l =>
      (fix join (l : list val) : string :=
         match l with
         | [] => ""
         | x :: rest =>
             let sx := match x with
                       | VUndef | VNull => ""
                       | _ => to_string x
                       end in
             match rest with
             | [] => sx
             | _ :: _ => sx ++ "," ++ join rest
             end
         end) l
  | VObj _ => "[object Object]"
  end.

(** ToNumber on the values that are not strings ([+] never applies it to
    one: a string operand makes [+] a concatenation). *)
Definition to_number (v : val) : num :=
  match v with
  | VNull => Int 0
  | VBool true => Int 1
  | VBool false => Int 0
  | VNum n => n
  | _ => NaN
  end.

Definition num_add (a b : num) : num :=
  match a, b with
  | Int x, Int y => Int (x + y)
  | _, _ => NaN
  end.

(** [a + b] *)
Definition js_add (a b : val) : val :=
  let prim v := match v with VArr _ | VObj _ => VStr (to_string v) | _ => v end in
  match prim a, prim b with
  | VStr x, y => VStr (x ++ to_string y)
  | x, VStr y => VStr (to_string x ++ y)
  | x, y => VNum (num_add (to_number x) (to_number y))
  end.

(** Comparisons of a number with an integer literal; false on [NaN]. *)
Definition num_gt (n : num) (k : Z) : bool :=
  match n with NaN => false | Int z => k <? z end.

Definition num_ge (n : num) (k : Z) : bool :=
  match n with NaN => false | Int z => k <=? z end.

Definition num_lt (n : num) (k : Z) : bool :=
  match n with NaN => false | Int z => z <? k end.

(** [Math.min(n, k)] *)
Definition num_min (n : num) (k : Z) : num :=
  match n with NaN => NaN | Int z => Int (Z.min z k) end.

(** White space as [trim] and [parseInt] see it, on the code units below
    256: TAB, LF, VT, FF, CR, SP and NBSP. *)
Definition is_ws (c : ascii) : bool :=
  let n := nat_of_ascii c in
  ((9 <=? n) && (n <=? 13) || (n =? 32) || (n =? 160))%nat.

Fixpoint trimStart (s : string) : string :=
  match s with
  | EmptyString => EmptyString
  | String c rest => if is_ws c then trimStart rest else s
  end.

Fixpoint trimEnd (s : string) : string :=
  match s with
  | EmptyString => EmptyString
  | String c rest =>
      match trimEnd rest with
      | EmptyString => if is_ws c then EmptyString else String c EmptyString
      | t => String c t
      end
  end.

Definition trim (s : string) : string := trimEnd (trimStart s).

(** The value of a digit in the given radix (10 or 16). *)
Definition digit_of (radix : Z) (c : ascii) : option Z :=
  let n := Z.of_nat (nat_of_ascii c) in
  if (48 <=? n) && (n <=? 57) then Some (n - 48)
  else if (radix =? 16) && (97 <=? n) && (n <=? 102) then Some (n - 87)
  else if (radix =? 16) && (65 <=? n) && (n <=? 70) then Some (n - 55)
  else None.

(** The longest prefix of digits, read left to right; [None] when the
    prefix is empty. *)
Fixpoint digits (radix : Z) (acc : option Z) (s : string) : option Z :=
  match s with
  | EmptyString => acc
  | String c rest =>
      match digit_of radix c with
      | None => acc
      | Some d =>
          digits radix
            (Some (radix * match acc with Some a => a | None => 0 end + d))
            rest
      end
  end.

(** [parseInt(s)] with no radix argument: leading white space, an optional
    sign, an optional [0x] prefix, then the digits up to the first
    character that is not one. *)
Definition parseInt_string (s : string) : num :=
  let s0 := trimStart s in
  let '(sign, s1) :=
    match s0 with
    | String "-" rest => (-1, rest)
    | String "+" rest => (1, rest)
    | _ => (1, s0)
    end in
  let '(radix, s2) :=
    match s1 with
    | String "0" (String "x" rest) => (16, rest)
    | String "0" (String "X" rest) => (16, rest)
    | _ => (10, s1)
    end in
  match digits radix None s2 with
  | None => NaN
  | Some n => Int (sign * n)
  end.

Definition parseInt (v : val) : num := parseInt_string (to_string v).

(** [s.toLowerCase()] on the ASCII letters. *)
Definition lower_ascii (c : ascii) : ascii :=
  let n := nat_of_ascii c in
  if ((65 <=? n) && (n <=? 90))%nat then ascii_of_nat (n + 32) else c.

Fixpoint toLowerCase (s : string) : string :=
  match s with
  | EmptyString => EmptyString
  | String c rest => String (lower_ascii c) (toLowerCase rest)
  end.

End JS.

Import JS.

(** ** The collaborators *)

(** The methods of [storage] that the routes call. *)
Inductive method : Type :=
| getJobsByCompany | getClientVendors | getUserByEmail
| searchCompanies | searchJobs
| getUserProfile | updateUserProfile
| getUserExperiences | addExperience | updateExperience | deleteExperience
| getUserEducation | addEducation | updateEducation | deleteEducation
| getUserSkills | addSkill | deleteSkill
| getCompanies | getPendingCompanies | getCompany | createCompany
| updateCompanyStatus | updateCompany
| getJobs | getJob | createJob | updateJob | deleteJob
| addVendor | getPendingVendors | updateVendorStatus
| getUserJobApplications | getJobApplications | createJobApplication
| updateJobApplicationStatus | deleteJobApplication
| getUserConnections | getConnectionRequests | createConnection
| updateConnectionStatus
| getConversations | getUserMessages | createMessage | markMessageAsRead
| getGroups | getUserGroups | createGroup | joinGroup
| getCountries | getStatesByCountry | getCitiesByState
| getCategories | createCategory.

(** The schemas imported from [@shared/schema]; [partial s] is
    [s.partial()]. *)
Inductive schema : Type :=
| insertExperienceSchema | insertEducationSchema | insertSkillSchema
| insertCompanySchema | insertJobSchema | insertJobApplicationSchema
| insertConnectionSchema | insertMessageSchema | insertGroupSchema
| insertVendorSchema
| partial (s : schema).

(** Everything [routes.ts] imports and does not define, over a state [W]
    of the outside world (the database, the upload directories, the
    clock).  [storage m args] is the settled promise of
    [storage.m(...args)]: [inl v] when it resolves with [v], [inr e] when
    it rejects with [e].  [schema_parse s v] is [s.parse(v)], which returns
    the validated value or throws. *)
Class Collaborators (W : Type) : Type := {
  storage : method -> list val -> W -> result val * W;
  schema_parse : schema -> val -> result val;
  renameSync : string -> string -> W -> result unit * W;
  date_now : W -> Z
}.

(** ** Requests and responses *)

Inductive http_method : Type := GET | POST | PUT | PATCH | DELETE.

(** A query parameter as the query-string parser delivers it: one string,
    or the list of strings of a repeated key.  Requests whose query string
    builds nested objects (bracketed keys) are outside the model. *)
Inductive qparam : Type :=
| QStr (s : string)
| QArr (l : list string).

Definition qval (q : qparam) : val :=
  match q with
  | QStr s => VStr s
  | QArr l => VArr (map VStr l)
  end.

(** One uploaded file part of a multipart request, with the name and the
    path multer gives the stored copy. *)
Record file : Type := {
  fieldname : string;
  originalname : string;
  size : Z;
  filename : string;
  fpath : string
}.

(** A request as the handlers see it once the application's own
    middlewares (session, body parsers: [setupAuth] and the server's entry
    file) have run.  [rpath] is the list of the segments of the URL path;
    [rsession_user] is [req.session?.user]; [rbody] is [req.body]. *)
Record request : Type := {
  rmethod : http_method;
  rpath : list string;
  rquery : list (string * qparam);
  rbody : val;
  rsession_user : val;
  rupload : option file
}.

Record response : Type := {
  status : Z;
  body : val
}.

(** [res.status(code).json(b)]; [res.json(b)] is [respond 200 b]. *)
Definition respond (code : Z) (b : val) : response :=
  {| status := code; body := b |}.

(** [{ message: m }] *)
Definition msg (m : string) : val := VObj [("message", VStr m)].

(** ** The handler monad

    A handler runs against the world and may throw; the calls it makes
    to [storage] are recorded in order. *)

Definition call : Type := (method * list val)%type.

Record state (W : Type) : Type := {
  world : W;
  calls : list call
}.
Arguments world {W} _.
Arguments calls {W} _.

Definition M (W A : Type) : Type := state W -> result A * state W.

Section Monad.
Context {W : Type}.

Definition ret {A} (a : A) : M W A := fun s => (inl a, s).

Definition throw {A} (e : exn) : M W A := fun s => (inr e, s).

Definition bind {A B} (m : M W A) (k : A -> M W B) : M W B :=
  fun s =>
    match m s with
    | (inl a, s') => k a s'
    | (inr e, s') => (inr e, s')
    end.

(** A computation that only returns or throws. *)
Definition lift {A} (r : result A) : M W A := fun s => (r, s).

(** [try { body } catch (error) { handler }], for the handlers of this
    file, whose [catch] blocks only build a response. *)
Definition try_catch {A} (m : M W A) (handler : exn -> A) : M W A :=
  fun s =>
    match m s with
    | (inl a, s') => (inl a, s')
    | (inr e, s') => (inl (handler e), s')
    end.

(** [await Promise.all([p1, p2])]: both calls are issued, in the order of
    the array, before either is awaited; the result is the pair of their
    values, or a rejection when one of them rejects.  The model lets the
    first call finish before the second starts, which is all two reads
    can show.  (When both reject JavaScript reports the one that settles
    first; the handlers ignore the error, and the model reports the
    first.) *)
Definition promise_all2 {A B} (p1 : M W A) (p2 : M W B) : M W (A * B) :=
  fun s =>
    match p1 s with
    | (r1, s1) =>
        match p2 s1 with
        | (r2, s2) =>
            match r1, r2 with
            | inl a, inl b => (inl (a, b), s2)
            | inr e, _ => (inr e, s2)
            | _, inr e => (inr e, s2)
            end
        end
    end.

End Monad.

Declare Scope handler_scope.
Delimit Scope handler_scope with handler.
Notation "'let*' x ':=' c 'in' k" := (bind c (fun x => k))
  (at level 10, x pattern, c at level 100, k at level 200) : handler_scope.

(** [await storage.m(...args)] *)
Definition call_storage {W} `{Collaborators W} (m : method) (args : list val)
  : M W val :=
  fun s =>
    let '(r, w) := storage m args (world s) in
    (r, {| world := w; calls := calls s ++ [(m, args)] |}).

(** [s.parse(v)] *)
Definition parse {W} `{Collaborators W} (s : schema) (v : val) : M W val :=
  lift (schema_parse s v).

(** ** Property access, method calls and object literals *)

(** [v.k] for the property names the handlers read ([id], [email],
    [status], [isActive], [length], ...): reading a property of
    [undefined] or [null] throws; arrays and strings have a [length];
    an object has its own properties; anything else gives [undefined]. *)
Definition get (v : val) (k : string) : result val :=
  match v with
  | VUndef | VNull =>
      inr (TypeError ("Cannot read properties of " ++ to_string v))
  | VObj props => inl (lookup k props)
  | VArr l =>
      inl (if String.eqb k "length" then VNum (Int (Z.of_nat (length l)))
           else VUndef)
  | VStr s => inl (if String.eqb k "length" then VNum (Int (len s)) else VUndef)
  | VBool _ | VNum _ => inl VUndef
  end.

(** [v?.k] *)
Definition opt_get (v : val) (k : string) : result val :=
  if nullish v then inl VUndef else get v k.

(** [v.trim()]: only a string has the method. *)
Definition str_trim (v : val) : result string :=
  match v with
  | VStr s => inl (trim s)
  | _ => inr (TypeError "trim is not a function")
  end.

(** [l.filter(p)] over a list, [p] possibly throwing. *)
Fixpoint filter_result (p : val -> result bool) (l : list val)
  : result (list val) :=
  match l with
  | [] => inl []
  | x :: rest =>
      match p x with
      | inr e => inr e
      | inl b =>
          match filter_result p rest with
          | inr e => inr e
          | inl kept => inl (if b then x :: kept else kept)
          end
      end
  end.

(** [v.filter(p)]: only an array has the method. *)
Definition array_filter (p : val -> result bool) (v : val) : result val :=
  match v with
  | VArr l =>
      match filter_result p l with
      | inl kept => inl (VArr kept)
      | inr e => inr e
      end
  | _ => inr (TypeError "filter is not a function")
  end.

Fixpoint indexed (i : nat) (l : list val) : list (string * val) :=
  match l with
  | [] => []
  | x :: rest => (string_of_index i, x) :: indexed (S i) rest
  end.

Fixpoint chars (s : string) : list val :=
  match s with
  | EmptyString => []
  | String c rest => VStr (String c EmptyString) :: chars rest
  end.

(** The properties [{ ...v }] copies. *)
Definition spread (v : val) : list (string * val) :=
  match v with
  | VObj props => props
  | VArr l => indexed 0 l
  | VStr s => indexed 0 (chars s)
  | _ => []
  end.

(** The properties of [{ ...v, k1: v1, ..., kn: vn }], and the object. *)
Definition extend_props (v : val) (more : list (string * val))
  : list (string * val) :=
  fold_left (fun props kv => set (fst kv) (snd kv) props) more (spread v).

Definition extend (v : val) (more : list (string * val)) : val :=
  VObj (extend_props v more).

(** [req.params.k] and [req.query.k] *)
Definition params : Type := list (string * string).

Fixpoint param (ps : params) (k : string) : val :=
  match ps with
  | [] => VUndef
  | (k', v) :: rest => if String.eqb k k' then VStr v else param rest k
  end.

Fixpoint query_lookup (q : list (string * qparam)) (k : string) : val :=
  match q with
  | [] => VUndef
  | (k', v) :: rest => if String.eqb k k' then qval v else query_lookup rest k
  end.

Definition query (req : request) (k : string) : val :=
  query_lookup (rquery req) k.

(** ** [path.extname] and the upload filters *)

Fixpoint drop_trailing_slashes (s : string) : string :=
  match s with
  | EmptyString => EmptyString
  | String c rest =>
      match drop_trailing_slashes rest with
      | EmptyString => if Ascii.eqb c "/" then EmptyString
                       else String c EmptyString
      | t => String c t
      end
  end.

(** The part after the last ["/"]. *)
Fixpoint basename_from (cur : string) (s : string) : string :=
  match s with
  | EmptyString => cur
  | String c rest =>
      if Ascii.eqb c "/" then basename_from rest rest else basename_from cur rest
  end.

Definition basename (s : string) : string :=
  let t := drop_trailing_slashes s in basename_from t t.

(** The suffix starting at the last ["."], if there is one. *)
Fixpoint last_dot_suffix (s : string) : option string :=
  match s with
  | EmptyString => None
  | String c rest =>
      match last_dot_suffix rest with
      | Some t => Some t
      | None => if Ascii.eqb c "." then Some s else None
      end
  end.

(** [path.extname(p)]: from the last dot of the last segment to its end;
    empty when there is no dot, when the only dot opens the segment, and
    for the segment [".."]. *)
Definition extname (p : string) : string :=
  let b := basename p in
  match last_dot_suffix b with
  | None => ""
  | Some ext =>
      if (String.length ext =? String.length b)%nat then ""
      else if String.eqb b ".." then ""
      else ext
  end.

(** The [fileFilter] of [upload] (resumes) and of [imageUpload]. *)
Definition allowed_documents : list string := [".pdf"; ".doc"; ".docx"].
Definition allowed_images : list string := [".jpg"; ".jpeg"; ".png"; ".gif"].

Definition fileFilter (allowedTypes : list string) (reject : string) (f : file)
  : result bool :=
  let ext := toLowerCase (extname (originalname f)) in
  if existsb (String.eqb ext) allowedTypes then inl true
  else inr (Error reject).

Record uploader : Type := {
  allowedTypes : list string;
  rejection : string;
  fileSize : Z
}.

Definition upload : uploader :=
  {| allowedTypes := allowed_documents;
     rejection := "Only PDF, DOC, and DOCX files are allowed";
     fileSize := 5 * 1024 * 1024 |}.

Definition imageUpload : uploader :=
  {| allowedTypes := allowed_images;
     rejection := "Only JPG, JPEG, PNG, and GIF images are allowed";
     fileSize := 2 * 1024 * 1024 |}.

(** [u.single(field)]: sets [req.file] when the request carries a file in
    the expected field that the filter accepts and that fits the size
    limit; a request without a file passes; any refusal is handed to
    [next(err)]. *)
Definition single (u : uploader) (field : string) (req : request)
  : result (option file) :=
  match rupload req with
  | None => inl None
  | Some f =>
      if negb (String.eqb (fieldname f) field) then
        inr (Error "Unexpected field")
      else
        match fileFilter (allowedTypes u) (rejection u) f with
        | inr e => inr e
        | inl _ =>
            if fileSize u <? size f then inr (Error "File too large")
            else inl (Some f)
        end
  end.

(** [isAuthenticated]: [None] is [next()], with [req.user] set to the
    session's user. *)
Definition isAuthenticated (req : request) : option response :=
  if truthy (rsession_user req) then None
  else Some (respond 401 (msg "Authentication required")).

(** ** The handlers, in the order [registerRoutes] registers them *)

Section Handlers.
Context {W : Type} `{Collaborators W}.
Local Open Scope handler_scope.

Definition handler : Type := params -> request -> M W response.

(** [req.user], which [isAuthenticated] sets before calling the handler. *)
Definition user (req : request) : val := rsession_user req.

(** [Date.now()] and [fs.renameSync(from, to)] *)
Definition now : M W Z := fun s => (inl (date_now (world s)), s).

Definition rename (from to : string) : M W unit :=
  fun s =>
    let '(r, w) := renameSync from to (world s) in
    (r, {| world := w; calls := calls s |}).

(** [job => job.isActive === true] and [job => job.status !== 'closed'] *)
Definition isActive_true (job : val) : result bool :=
  match get job "isActive" with
  | inl a => inl (is_true a)
  | inr e => inr e
  end.

Definition status_not_closed (job : val) : result bool :=
  match get job "status" with
  | inl a => inl (negb (is_str a "closed"))
  | inr e => inr e
  end.

Definition empty_search : val :=
  VObj [("companies", VArr []); ("jobs", VArr [])].

(** GET /api/companies/:id/details *)
Definition get_api_companies_id_details : handler := fun ps req =>
  try_catch
    (let companyId := parseInt (param ps "id") in
     if isNaN companyId then ret (respond 400 (msg "Invalid company ID"))
     else
       let* jobs := call_storage getJobsByCompany [VNum companyId] in
       let* openJobs := lift (array_filter isActive_true jobs) in
       let* vendors := call_storage getClientVendors [VNum companyId] in
       ret (respond 200 (VObj [("openJobs", openJobs); ("vendors", vendors)])))
    (fun _ => respond 500 (msg "Failed to fetch company details")).

(** GET /api/test-db-connection *)
Definition get_api_test_db_connection : handler := fun ps req =>
  try_catch
    (let* result := call_storage getUserByEmail [VStr "test@example.com"] in
     let* email := lift (opt_get result "email") in
     ret (respond 200
            (VObj [("status", VStr "success");
                   ("userFound", VBool (truthy result));
                   ("userEmail", or_else email (VStr "not found"))])))
    (fun error =>
       respond 500 (VObj [("status", VStr "error");
                          ("error", message_of error)])).

(** GET /api/search *)
Definition get_api_search : handler := fun ps req =>
  try_catch
    (let q := or_else (query req "q") (query req "query") in
     let* short :=
       if negb (truthy q) then ret true
       else let* t := lift (str_trim q) in ret (len t <? 3) in
     if short then ret (respond 200 empty_search)
     else
       let* (companies, jobs) :=
         promise_all2
           (call_storage searchCompanies [q; VNum (Int 10)])
           (call_storage searchJobs [q; VObj []; VNum (Int 10)]) in
       ret (respond 200
              (VObj [("companies", or_else companies (VArr []));
                     ("jobs", or_else jobs (VArr []))])))
    (fun _ => respond 500 (msg "Search failed")).

(** GET /api/profile/:id *)
Definition get_api_profile_id : handler := fun ps req =>
  try_catch
    (let* profile := call_storage getUserProfile [param ps "id"] in
     if negb (truthy profile) then ret (respond 404 (msg "Profile not found"))
     else ret (respond 200 profile))
    (fun _ => respond 500 (msg "Failed to fetch profile")).

(** PUT /api/profile *)
Definition put_api_profile : handler := fun ps req =>
  try_catch
    (let* userId := lift (get (user req) "id") in
     let updateData := rbody req in
     let* u := call_storage updateUserProfile [userId; updateData] in
     ret (respond 200 u))
    (fun _ => respond 500 (msg "Failed to update profile")).

(** GET /api/experiences *)
Definition get_api_experiences : handler := fun ps req =>
  try_catch
    (let* userId := lift (get (user req) "id") in
     let* experiences := call_storage getUserExperiences [userId] in
     ret (respond 200 experiences))
    (fun _ => respond 500 (msg "Failed to fetch experiences")).

(** POST /api/experiences *)
Definition post_api_experiences : handler := fun ps req =>
  try_catch
    (let* userId := lift (get (user req) "id") in
     let* validatedData :=
       parse insertExperienceSchema (extend (rbody req) [("userId", userId)]) in
     let* experience := call_storage addExperience [validatedData] in
     ret (respond 200 experience))
    (fun _ => respond 500 (msg "Failed to add experience")).

(** PUT /api/experiences/:id *)
Definition put_api_experiences_id : handler := fun ps req =>
  try_catch
    (let id := parseInt (param ps "id") in
     let* experience := call_storage updateExperience [VNum id; rbody req] in
     ret (respond 200 experience))
    (fun _ => respond 500 (msg "Failed to update experience")).

(** DELETE /api/experiences/:id *)
Definition delete_api_experiences_id : handler := fun ps req =>
  try_catch
    (let id := parseInt (param ps "id") in
     let* _ := call_storage deleteExperience [VNum id] in
     ret (respond 200 (msg "Experience deleted successfully")))
    (fun _ => respond 500 (msg "Failed to delete experience")).

(** GET /api/education *)
Definition get_api_education : handler := fun ps req =>
  try_catch
    (let* userId := lift (get (user req) "id") in
     let* education := call_storage getUserEducation [userId] in
     ret (respond 200 education))
    (fun _ => respond 500 (msg "Failed to fetch education")).

(** POST /api/education *)
Definition post_api_education : handler := fun ps req =>
  try_catch
    (let* userId := lift (get (user req) "id") in
     let* validatedData :=
       parse insertEducationSchema (extend (rbody req) [("userId", userId)]) in
     let* education := call_storage addEducation [validatedData] in
     ret (respond 200 education))
    (fun _ => respond 500 (msg "Failed to add education")).

(** PUT /api/education/:id *)
Definition put_api_education_id : handler := fun ps req =>
  try_catch
    (let id := parseInt (param ps "id") in
     let* education := call_storage updateEducation [VNum id; rbody req] in
     ret (respond 200 education))
    (fun _ => respond 500 (msg "Failed to update education")).

(** DELETE /api/education/:id *)
Definition delete_api_education_id : handler := fun ps req =>
  try_catch
    (let id := parseInt (param ps "id") in
     let* _ := call_storage deleteEducation [VNum id] in
     ret (respond 200 (msg "Education deleted successfully")))
    (fun _ => respond 500 (msg "Failed to delete education")).

(** GET /api/skills *)
Definition get_api_skills : handler := fun ps req =>
  try_catch
    (let* userId := lift (get (user req) "id") in
     let* skills := call_storage getUserSkills [userId] in
     ret (respond 200 skills))
    (fun _ => respond 500 (msg "Failed to fetch skills")).

(** POST /api/skills *)
Definition post_api_skills : handler := fun ps req =>
  try_catch
    (let* userId := lift (get (user req) "id") in
     let* validatedData :=
       parse insertSkillSchema (extend (rbody req) [("userId", userId)]) in
     let* skill := call_storage addSkill [validatedData] in
     ret (respond 200 skill))
    (fun _ => respond 500 (msg "Failed to add skill")).

(** DELETE /api/skills/:id *)
Definition delete_api_skills_id : handler := fun ps req =>
  try_catch
    (let id := parseInt (param ps "id") in
     let* _ := call_storage deleteSkill [VNum id] in
     ret (respond 200 (msg "Skill deleted successfully")))
    (fun _ => respond 500 (msg "Failed to delete skill")).

(** GET /api/companies/all, first registration *)
Definition get_api_companies_all : handler := fun ps req =>
  try_catch
    (let* companies := call_storage getCompanies [VNum (Int 50000)] in
     ret (respond 200 companies))
    (fun _ => respond 500 (msg "Failed to fetch all companies")).

(** GET /api/companies/all, second registration *)
Definition get_api_companies_all_second : handler := fun ps req =>
  try_catch
    (let* companies := call_storage getCompanies [VNum (Int 50000)] in
     ret (respond 200 companies))
    (fun _ => respond 500 (msg "Failed to fetch companies")).

(** GET /api/companies *)
Definition get_api_companies : handler := fun ps req =>
  try_catch
    (let q := query req "q" in
     let limit :=
       if truthy (query req "limit") then parseInt (query req "limit")
       else Int 0 in
     let* searching :=
       if truthy q && negb (is_str q "undefined") then
         let* l := lift (get q "length") in ret (num_ge (to_number l) 2)
       else ret false in
     if searching then
       let searchLimit :=
         if num_gt limit 100 then num_min limit 1000 else Int 100 in
       let* companies := call_storage searchCompanies [q; VNum searchLimit] in
       let* _ := lift (get companies "length") in
       ret (respond 200 companies)
     else if num_gt limit 0 then
       let actualLimit := if num_ge limit 50000 then Int 50000 else limit in
       let* companies := call_storage getCompanies [VNum actualLimit] in
       let* _ := lift (get companies "length") in
       ret (respond 200 companies)
     else
       let* companies := call_storage getCompanies [VNum (Int 100)] in
       ret (respond 200 companies))
    (fun _ => respond 500 (msg "Failed to fetch companies")).

(** GET /api/companies/pending *)
Definition get_api_companies_pending : handler := fun ps req =>
  try_catch
    (let* pendingCompanies := call_storage getPendingCompanies [] in
     ret (respond 200 pendingCompanies))
    (fun _ => respond 500 (msg "Failed to fetch pending companies")).

(** GET /api/companies/:id *)
Definition get_api_companies_id : handler := fun ps req =>
  try_catch
    (let id := parseInt (param ps "id") in
     if isNaN id then ret (respond 400 (msg "Invalid company ID"))
     else
       let* company := call_storage getCompany [VNum id] in
       if negb (truthy company) then
         ret (respond 404 (msg "Company not found"))
       else ret (respond 200 company))
    (fun _ => respond 500 (msg "Failed to fetch company")).

(** POST /api/upload/company-logo, first registration *)
Definition post_api_upload_company_logo : handler := fun ps req =>
  try_catch
    (match rupload req with
     | None => ret (respond 400 (msg "No file uploaded"))
     | Some f =>
         let* timestamp := now in
         let ext := extname (originalname f) in
         let filename := "company-logo-" ++ string_of_Z timestamp ++ ext in
         let logoUrl := "/logos/" ++ filename in
         let oldPath := fpath f in
         let newPath := "logos/" ++ filename in
         let* _ := rename oldPath newPath in
         ret (respond 200 (VObj [("logoUrl", VStr logoUrl)]))
     end)
    (fun _ => respond 500 (msg "Failed to upload logo")).

(** POST /api/companies *)
Definition post_api_companies : handler := fun ps req =>
  try_catch
    (let userId := VStr "admin-krupa" in
     let* validatedData :=
       parse insertCompanySchema (extend (rbody req) [("userId", userId)]) in
     let* company := call_storage createCompany [validatedData] in
     ret (respond 200 company))
    (fun _ => respond 500 (msg "Failed to create company")).

(** PATCH /api/companies/:id/status *)
Definition patch_api_companies_id_status : handler := fun ps req =>
  try_catch
    (let userId := VStr "admin-krupa" in
     let companyId := parseInt (param ps "id") in
     let* status := lift (get (rbody req) "status") in
     let* approvedBy := lift (get (rbody req) "approvedBy") in
     if isNaN companyId then ret (respond 400 (msg "Invalid company ID"))
     else
       let* company :=
         call_storage updateCompanyStatus
           [VNum companyId; status; or_else approvedBy userId] in
       ret (respond 200 company))
    (fun _ => respond 500 (msg "Failed to update company status")).

(** PUT /api/companies/:id/approve *)
Definition put_api_companies_id_approve : handler := fun ps req =>
  try_catch
    (let companyId := parseInt (param ps "id") in
     let userId := VStr "admin-krupa" in
     if isNaN companyId then ret (respond 400 (msg "Invalid company ID"))
     else
       let* company :=
         call_storage updateCompanyStatus
           [VNum companyId; VStr "approved"; userId] in
       ret (respond 200 company))
    (fun _ => respond 500 (msg "Failed to approve company")).

(** PUT /api/companies/:id/reject *)
Definition put_api_companies_id_reject : handler := fun ps req =>
  try_catch
    (let companyId := parseInt (param ps "id") in
     let userId := VStr "admin-krupa" in
     if isNaN companyId then ret (respond 400 (msg "Invalid company ID"))
     else
       let* company :=
         call_storage updateCompanyStatus
           [VNum companyId; VStr "rejected"; userId] in
       ret (respond 200 company))
    (fun _ => respond 500 (msg "Failed to reject company")).

(** GET /api/admin/stats *)
Definition get_api_admin_stats : handler := fun ps req =>
  try_catch
    (let* userEmail := lift (get (user req) "email") in
     if negb (is_str userEmail "krupas@vedsoft.com")
        && negb (is_str userEmail "krupashankar@gmail.com")
     then ret (respond 403 (msg "Access denied"))
     else
       let* jobs := call_storage getJobs [VObj []; VNum (Int 1000)] in
       let* open := lift (array_filter status_not_closed jobs) in
       let* activeJobs := lift (get open "length") in
       ret (respond 200
              (VObj [("activeJobs", activeJobs);
                     ("totalUsers", VNum (Int 0));
                     ("revenue", VNum (Int 0));
                     ("activeSessions", VNum (Int 0))])))
    (fun _ => respond 500 (msg "Failed to fetch stats")).

(** POST /api/vendors, first registration *)
Definition post_api_vendors : handler := fun ps req =>
  try_catch
    (let vendorData := extend (rbody req) [("createdBy", VStr "admin-krupa")] in
     let* vendor := call_storage addVendor [vendorData] in
     ret (respond 200 vendor))
    (fun _ => respond 500 (msg "Failed to add vendor")).

(** GET /api/companies/:id/vendors *)
Definition get_api_companies_id_vendors : handler := fun ps req =>
  try_catch
    (let companyId := parseInt (param ps "id") in
     if isNaN companyId then ret (respond 400 (msg "Invalid company ID"))
     else
       let* vendors := call_storage getClientVendors [VNum companyId] in
       ret (respond 200 vendors))
    (fun _ => respond 500 (msg "Failed to fetch vendors")).

(** PUT /api/companies/:id *)
Definition put_api_companies_id : handler := fun ps req =>
  try_catch
    (let id := parseInt (param ps "id") in
     let* company := call_storage updateCompany [VNum id; rbody req] in
     ret (respond 200 company))
    (fun _ => respond 500 (msg "Failed to update company")).

(** GET /api/jobs/:id, first registration *)
Definition get_api_jobs_id : handler := fun ps req =>
  try_catch
    (let jobId := parseInt (param ps "id") in
     let* job := call_storage getJob [VNum jobId] in
     if negb (truthy job) then
       ret (respond 404 (VObj [("error", VStr "Job not found")]))
     else ret (respond 200 job))
    (fun _ => respond 500 (VObj [("error", VStr "Failed to fetch job")])).

(** GET /api/jobs *)
Definition get_api_jobs : handler := fun ps req =>
  try_catch
    (let filters :=
       VObj [("jobType", query req "jobType");
             ("experienceLevel", query req "experienceLevel");
             ("location", query req "location");
             ("companyId",
              if truthy (query req "companyId")
              then VNum (parseInt (query req "companyId"))
              else VUndef)] in
     let limit :=
       if truthy (query req "limit") then parseInt (query req "limit")
       else Int 50 in
     if truthy (query req "search") then
       let* jobs := call_storage searchJobs [query req "search"; filters] in
       let* _ := lift (get jobs "length") in
       ret (respond 200 jobs)
     else
       let* jobs := call_storage getJobs [filters; VNum limit] in
       let* _ := lift (get jobs "length") in
       ret (respond 200 jobs))
    (fun _ => respond 500 (msg "Failed to fetch jobs")).

(** GET /api/jobs/:id, second registration *)
Definition get_api_jobs_id_second : handler := fun ps req =>
  try_catch
    (let id := parseInt (param ps "id") in
     let* job := call_storage getJob [VNum id] in
     if negb (truthy job) then ret (respond 404 (msg "Job not found"))
     else ret (respond 200 job))
    (fun _ => respond 500 (msg "Failed to fetch job")).

(** PUT /api/jobs/:id, first registration *)
Definition put_api_jobs_id : handler := fun ps req =>
  try_catch
    (let jobId := parseInt (param ps "id") in
     let* jobData := parse insertJobSchema (rbody req) in
     let* updatedJob := call_storage updateJob [VNum jobId; jobData] in
     ret (respond 200 updatedJob))
    (fun _ => respond 500 (VObj [("error", VStr "Failed to update job")])).

(** The job a POST /api/jobs body describes, before validation: the
    recruiter, the employment type mapped from [jobType], and the
    location generated from city, state and country. *)
Definition jobData_of (reqBody jobType : val) : val :=
  let userId := VStr "admin-krupa" in
  let jobData :=
    extend_props reqBody
      [("recruiterId", userId);
       ("employmentType", or_else jobType (VStr "full_time"))] in
  let city := lookup "city" jobData in
  let state := lookup "state" jobData in
  let country := lookup "country" jobData in
  if truthy city && truthy state && truthy country then
    VObj (set "location"
            (VStr (to_string city ++ ", " ++ to_string state ++ ", "
                   ++ to_string country))
            jobData)
  else VObj jobData.

(** POST /api/jobs *)
Definition post_api_jobs : handler := fun ps req =>
  try_catch
    (let* jobType := lift (get (rbody req) "jobType") in
     let jobData := jobData_of (rbody req) jobType in
     let* validatedData := parse insertJobSchema jobData in
     let* job := call_storage createJob [validatedData] in
     ret (respond 200 job))
    (fun error =>
       respond 500
         (VObj [("message", VStr "Failed to create job");
                ("error", message_of error);
                ("details", or_else (errors_of error) (VArr []))])).

(** PUT /api/jobs/:id, second registration *)
Definition put_api_jobs_id_second : handler := fun ps req =>
  try_catch
    (let id := parseInt (param ps "id") in
     let* job := call_storage updateJob [VNum id; rbody req] in
     ret (respond 200 job))
    (fun _ => respond 500 (msg "Failed to update job")).

(** DELETE /api/jobs/:id *)
Definition delete_api_jobs_id : handler := fun ps req =>
  try_catch
    (let id := parseInt (param ps "id") in
     let* _ := call_storage deleteJob [VNum id] in
     ret (respond 200 (msg "Job deleted successfully")))
    (fun _ => respond 500 (msg "Failed to delete job")).

(** GET /api/applications *)
Definition get_api_applications : handler := fun ps req =>
  try_catch
    (let* userId := lift (get (user req) "id") in
     let* applications := call_storage getUserJobApplications [userId] in
     let* _ := lift (get applications "length") in
     ret (respond 200 applications))
    (fun _ => respond 500 (msg "Failed to fetch applications")).

(** GET /api/jobs/:id/applications *)
Definition get_api_jobs_id_applications : handler := fun ps req =>
  try_catch
    (let jobId := parseInt (param ps "id") in
     let* applications := call_storage getJobApplications [VNum jobId] in
     ret (respond 200 applications))
    (fun _ => respond 500 (msg "Failed to fetch job applications")).

(** POST /api/applications *)
Definition post_api_applications : handler := fun ps req =>
  try_catch
    (let* userId := lift (get (user req) "id") in
     let resumeUrl :=
       match rupload req with
       | Some f => VStr ("/uploads/" ++ filename f)
       | None => VNull
       end in
     let* jobId := lift (get (rbody req) "jobId") in
     let* validatedData :=
       parse insertJobApplicationSchema
         (extend (rbody req)
            [("jobId", VNum (parseInt jobId));
             ("applicantId", userId);
             ("resumeUrl", resumeUrl)]) in
     let* application := call_storage createJobApplication [validatedData] in
     ret (respond 200 application))
    (fun error =>
       if isZodError error then
         respond 400 (VObj [("message", VStr "Invalid application data");
                            ("errors", errors_of error)])
       else respond 500 (msg "Failed to create application")).

(** PATCH /api/applications/:id/status *)
Definition patch_api_applications_id_status : handler := fun ps req =>
  try_catch
    (let id := parseInt (param ps "id") in
     let* status := lift (get (rbody req) "status") in
     let* application :=
       call_storage updateJobApplicationStatus [VNum id; status] in
     ret (respond 200 application))
    (fun _ => respond 500 (msg "Failed to update application status")).

(** DELETE /api/applications/:id *)
Definition delete_api_applications_id : handler := fun ps req =>
  try_catch
    (let id := parseInt (param ps "id") in
     let* _ := call_storage deleteJobApplication [VNum id] in
     ret (respond 200 (msg "Application withdrawn successfully")))
    (fun _ => respond 500 (msg "Failed to withdraw application")).

(** GET /api/connections *)
Definition get_api_connections : handler := fun ps req =>
  try_catch
    (let* userId := lift (get (user req) "id") in
     let* connections := call_storage getUserConnections [userId] in
     ret (respond 200 connections))
    (fun _ => respond 500 (msg "Failed to fetch connections")).

(** GET /api/connection-requests *)
Definition get_api_connection_requests : handler := fun ps req =>
  try_catch
    (let* userId := lift (get (user req) "id") in
     let* requests := call_storage getConnectionRequests [userId] in
     ret (respond 200 requests))
    (fun _ => respond 500 (msg "Failed to fetch connection requests")).

(** POST /api/connections *)
Definition post_api_connections : handler := fun ps req =>
  try_catch
    (let* userId := lift (get (user req) "id") in
     let* validatedData :=
       parse insertConnectionSchema
         (extend (rbody req) [("requesterId", userId)]) in
     let* connection := call_storage createConnection [validatedData] in
     ret (respond 200 connection))
    (fun _ => respond 500 (msg "Failed to create connection")).

(** PUT /api/connections/:id/status *)
Definition put_api_connections_id_status : handler := fun ps req =>
  try_catch
    (let id := parseInt (param ps "id") in
     let* status := lift (get (rbody req) "status") in
     let* connection := call_storage updateConnectionStatus [VNum id; status] in
     ret (respond 200 connection))
    (fun _ => respond 500 (msg "Failed to update connection status")).

(** GET /api/conversations *)
Definition get_api_conversations : handler := fun ps req =>
  try_catch
    (let* userId := lift (get (user req) "id") in
     let* conversations := call_storage getConversations [userId] in
     ret (respond 200 conversations))
    (fun _ => respond 500 (msg "Failed to fetch conversations")).

(** GET /api/messages/:userId *)
Definition get_api_messages_userId : handler := fun ps req =>
  try_catch
    (let* userId := lift (get (user req) "id") in
     let otherUserId := param ps "userId" in
     let* messages := call_storage getUserMessages [userId; otherUserId] in
     ret (respond 200 messages))
    (fun _ => respond 500 (msg "Failed to fetch messages")).

(** POST /api/messages *)
Definition post_api_messages : handler := fun ps req =>
  try_catch
    (let* userId := lift (get (user req) "id") in
     let* validatedData :=
       parse insertMessageSchema (extend (rbody req) [("senderId", userId)]) in
     let* message := call_storage createMessage [validatedData] in
     ret (respond 200 message))
    (fun _ => respond 500 (msg "Failed to create message")).

(** PUT /api/messages/:id/read *)
Definition put_api_messages_id_read : handler := fun ps req =>
  try_catch
    (let id := parseInt (param ps "id") in
     let* message := call_storage markMessageAsRead [VNum id] in
     ret (respond 200 message))
    (fun _ => respond 500 (msg "Failed to mark message as read")).

(** GET /api/groups *)
Definition get_api_groups : handler := fun ps req =>
  try_catch
    (let limit :=
       if truthy (query req "limit") then parseInt (query req "limit")
       else Int 20 in
     let* groups := call_storage getGroups [VNum limit] in
     ret (respond 200 groups))
    (fun _ => respond 500 (msg "Failed to fetch groups")).

(** GET /api/user/groups *)
Definition get_api_user_groups : handler := fun ps req =>
  try_catch
    (let* userId := lift (get (user req) "id") in
     let* groups := call_storage getUserGroups [userId] in
     ret (respond 200 groups))
    (fun _ => respond 500 (msg "Failed to fetch user groups")).

(** POST /api/groups *)
Definition post_api_groups : handler := fun ps req =>
  try_catch
    (let* userId := lift (get (user req) "id") in
     let* validatedData :=
       parse insertGroupSchema (extend (rbody req) [("createdBy", userId)]) in
     let* group := call_storage createGroup [validatedData] in
     ret (respond 200 group))
    (fun _ => respond 500 (msg "Failed to create group")).

(** POST /api/groups/:id/join *)
Definition post_api_groups_id_join : handler := fun ps req =>
  try_catch
    (let* userId := lift (get (user req) "id") in
     let groupId := parseInt (param ps "id") in
     let* _ := call_storage joinGroup [VNum groupId; userId] in
     ret (respond 200 (msg "Successfully joined group")))
    (fun _ => respond 500 (msg "Failed to join group")).

(** GET /api/search/:query *)
Definition get_api_search_query : handler := fun ps req =>
  try_catch
    (let q := param ps "query" in
     let limit :=
       if truthy (query req "limit") then parseInt (query req "limit")
       else Int 10 in
     let* short :=
       if negb (truthy q) then ret true
       else
         let* l := lift (get q "length") in ret (num_lt (to_number l) 2) in
     if short then ret (respond 200 empty_search)
     else
       let* (companies, jobs) :=
         promise_all2
           (call_storage searchCompanies [q; VNum limit])
           (call_storage searchJobs [q; VObj [("limit", VNum limit)]]) in
       let* nc := lift (opt_get companies "length") in
       let* nj := lift (opt_get jobs "length") in
       ret (respond 200
              (VObj [("companies", or_else companies (VArr []));
                     ("jobs", or_else jobs (VArr []));
                     ("total",
                      js_add (or_else nc (VNum (Int 0)))
                             (or_else nj (VNum (Int 0))))])))
    (fun _ =>
       respond 500 (VObj [("message", VStr "Failed to perform search");
                          ("companies", VArr []);
                          ("jobs", VArr [])])).

(** GET /api/clients/:id/vendors *)
Definition get_api_clients_id_vendors : handler := fun ps req =>
  try_catch
    (let clientId := parseInt (param ps "id") in
     let* vendors := call_storage getClientVendors [VNum clientId] in
     ret (respond 200 vendors))
    (fun _ => respond 500 (msg "Failed to fetch vendors")).

(** POST /api/vendors, second registration *)
Definition post_api_vendors_second : handler := fun ps req =>
  try_catch
    (let* validatedData := parse insertVendorSchema (rbody req) in
     let* userId := lift (get (user req) "id") in
     let* vendor :=
       call_storage addVendor [extend validatedData [("addedBy", userId)]] in
     ret (respond 201 vendor))
    (fun error =>
       if isZodError error then
         respond 400 (VObj [("message", VStr "Invalid vendor data");
                            ("errors", errors_of error)])
       else respond 500 (msg "Failed to add vendor")).

(** GET /api/countries, first registration *)
Definition get_api_countries : handler := fun ps req =>
  try_catch
    (let* countries := call_storage getCountries [] in
     ret (respond 200 countries))
    (fun _ => respond 500 (msg "Failed to fetch countries")).

(** GET /api/states/:countryId, first registration *)
Definition get_api_states_countryId : handler := fun ps req =>
  try_catch
    (let countryId := parseInt (param ps "countryId") in
     if isNaN countryId then ret (respond 400 (msg "Invalid country ID"))
     else
       let* states := call_storage getStatesByCountry [VNum countryId] in
       ret (respond 200 states))
    (fun _ => respond 500 (msg "Failed to fetch states")).

(** GET /api/cities/:stateId, first registration *)
Definition get_api_cities_stateId : handler := fun ps req =>
  try_catch
    (let stateId := parseInt (param ps "stateId") in
     if isNaN stateId then ret (respond 400 (msg "Invalid state ID"))
     else
       let* cities := call_storage getCitiesByState [VNum stateId] in
       ret (respond 200 cities))
    (fun _ => respond 500 (msg "Failed to fetch cities")).

(** GET /api/admin/vendors/pending *)
Definition get_api_admin_vendors_pending : handler := fun ps req =>
  try_catch
    (let* pendingVendors := call_storage getPendingVendors [] in
     ret (respond 200 pendingVendors))
    (fun _ => respond 500 (msg "Failed to fetch pending vendors")).

(** PATCH /api/admin/vendors/:id/status *)
Definition patch_api_admin_vendors_id_status : handler := fun ps req =>
  try_catch
    (let vendorId := parseInt (param ps "id") in
     let* status := lift (get (rbody req) "status") in
     let* userId := lift (get (user req) "id") in
     let* vendor :=
       call_storage updateVendorStatus [VNum vendorId; status; userId] in
     ret (respond 200 vendor))
    (fun _ => respond 500 (msg "Failed to update vendor status")).

(** PATCH /api/admin/jobs/:id *)
Definition patch_api_admin_jobs_id : handler := fun ps req =>
  try_catch
    (let jobId := parseInt (param ps "id") in
     let* validatedData := parse (partial insertJobSchema) (rbody req) in
     let* job := call_storage updateJob [VNum jobId; validatedData] in
     ret (respond 200 job))
    (fun error =>
       if isZodError error then
         respond 400 (VObj [("message", VStr "Invalid job data");
                            ("errors", errors_of error)])
       else respond 500 (msg "Failed to update job")).

(** PATCH /api/admin/companies/:id/status *)
Definition patch_api_admin_companies_id_status : handler := fun ps req =>
  try_catch
    (let companyId := parseInt (param ps "id") in
     let* status := lift (get (rbody req) "status") in
     let* company :=
       call_storage updateCompany [VNum companyId; VObj [("status", status)]] in
     ret (respond 200 company))
    (fun _ => respond 500 (msg "Failed to update company status")).

(** GET /api/categories *)
Definition get_api_categories : handler := fun ps req =>
  try_catch
    (let* categories := call_storage getCategories [] in
     ret (respond 200 categories))
    (fun _ => respond 500 (msg "Failed to fetch categories")).

(** POST /api/categories *)
Definition post_api_categories : handler := fun ps req =>
  try_catch
    (let* category := call_storage createCategory [rbody req] in
     ret (respond 201 category))
    (fun _ => respond 500 (msg "Failed to create category")).

(** GET /api/countries, second registration *)
Definition get_api_countries_second : handler := fun ps req =>
  try_catch
    (let* countries := call_storage getCountries [] in
     ret (respond 200 countries))
    (fun _ => respond 500 (msg "Failed to fetch countries")).

(** GET /api/states/:countryId, second registration *)
Definition get_api_states_countryId_second : handler := fun ps req =>
  try_catch
    (let countryId := param ps "countryId" in
     let* states := call_storage getStatesByCountry [VNum (parseInt countryId)] in
     ret (respond 200 states))
    (fun _ => respond 500 (msg "Failed to fetch states")).

(** GET /api/cities/:stateId, second registration *)
Definition get_api_cities_stateId_second : handler := fun ps req =>
  try_catch
    (let stateId := param ps "stateId" in
     let* cities := call_storage getCitiesByState [VNum (parseInt stateId)] in
     ret (respond 200 cities))
    (fun _ => respond 500 (msg "Failed to fetch cities")).

(** POST /api/upload/company-logo, second registration *)
Definition post_api_upload_company_logo_second : handler := fun ps req =>
  try_catch
    (match rupload req with
     | None => ret (respond 400 (msg "No file uploaded"))
     | Some f =>
         let logoUrl := "/uploads/" ++ filename f in
         ret (respond 200 (VObj [("logoUrl", VStr logoUrl)]))
     end)
    (fun _ => respond 500 (msg "Failed to upload logo")).

End Handlers.

(** ** The route table and the dispatcher *)

(** A path pattern is the string given to [app.get] and its siblings; a
    piece that starts with a colon is a parameter. *)
Inductive segment : Type :=
| Lit (s : string)
| Par (name : string).

(** The pieces of a string between its slashes. *)
Fixpoint split (s : string) : list string :=
  match s with
  | EmptyString => [EmptyString]
  | String c rest =>
      if Ascii.eqb c "/" then EmptyString :: split rest
      else
        match split rest with
        | [] => [String c EmptyString]
        | piece :: pieces => String c piece :: pieces
        end
  end.

Definition segment_of (piece : string) : segment :=
  match piece with
  | String ":" name => Par name
  | _ => Lit piece
  end.

Definition segments (pattern : string) : list segment :=
  map segment_of (tl (split pattern)).

(** Express matches a literal piece without regard to the case of ASCII
    letters (the literals of this file are in lower case) and a parameter
    against any non-empty piece, whose text becomes [req.params.name]. *)
Fixpoint match_path (pattern : list segment) (pieces : list string)
  : option params :=
  match pattern, pieces with
  | [], [] => Some []
  | Lit s :: pattern', x :: pieces' =>
      if String.eqb s (toLowerCase x) then match_path pattern' pieces'
      else None
  | Par name :: pattern', x :: pieces' =>
      match match_path pattern' pieces' with
      | None => None
      | Some ps =>
          match x with
          | EmptyString => None
          | String _ _ => Some ((name, x) :: ps)
          end
      end
  | _, _ => None
  end.

Definition http_method_eqb (a b : http_method) : bool :=
  match a, b with
  | GET, GET | POST, POST | PUT, PUT | PATCH, PATCH | DELETE, DELETE => true
  | _, _ => false
  end.

(** The middlewares a registration lists before its handler. *)
Inductive middleware : Type :=
| authenticated
| upload_single (u : uploader) (field : string).

Section Routes.
Context {W : Type} `{Collaborators W}.

Record route : Type := {
  verb : http_method;
  path : string;
  middlewares : list middleware;
  callback : handler (W := W)
}.

Definition app_get p ms h : route :=
  {| verb := GET; path := p; middlewares := ms; callback := h |}.
Definition app_post p ms h : route :=
  {| verb := POST; path := p; middlewares := ms; callback := h |}.
Definition app_put p ms h : route :=
  {| verb := PUT; path := p; middlewares := ms; callback := h |}.
Definition app_patch p ms h : route :=
  {| verb := PATCH; path := p; middlewares := ms; callback := h |}.
Definition app_delete p ms h : route :=
  {| verb := DELETE; path := p; middlewares := ms; callback := h |}.

(** The registrations of [registerRoutes], first to last. *)
Definition routes : list route := [
  app_get "/api/companies/:id/details" [] get_api_companies_id_details;
  app_get "/api/test-db-connection" [] get_api_test_db_connection;
  app_get "/api/search" [] get_api_search;
  app_get "/api/profile/:id" [] get_api_profile_id;
  app_put "/api/profile" [authenticated] put_api_profile;
  app_get "/api/experiences" [authenticated] get_api_experiences;
  app_post "/api/experiences" [authenticated] post_api_experiences;
  app_put "/api/experiences/:id" [authenticated] put_api_experiences_id;
  app_delete "/api/experiences/:id" [authenticated] delete_api_experiences_id;
  app_get "/api/education" [authenticated] get_api_education;
  app_post "/api/education" [authenticated] post_api_education;
  app_put "/api/education/:id" [authenticated] put_api_education_id;
  app_delete "/api/education/:id" [authenticated] delete_api_education_id;
  app_get "/api/skills" [authenticated] get_api_skills;
  app_post "/api/skills" [authenticated] post_api_skills;
  app_delete "/api/skills/:id" [authenticated] delete_api_skills_id;
  app_get "/api/companies/all" [] get_api_companies_all;
  app_get "/api/companies/all" [] get_api_companies_all_second;
  app_get "/api/companies" [] get_api_companies;
  app_get "/api/companies/pending" [] get_api_companies_pending;
  app_get "/api/companies/:id" [] get_api_companies_id;
  app_post "/api/upload/company-logo" [upload_single imageUpload "logo"]
    post_api_upload_company_logo;
  app_post "/api/companies" [] post_api_companies;
  app_patch "/api/companies/:id/status" [] patch_api_companies_id_status;
  app_put "/api/companies/:id/approve" [] put_api_companies_id_approve;
  app_put "/api/companies/:id/reject" [] put_api_companies_id_reject;
  app_get "/api/admin/stats" [authenticated] get_api_admin_stats;
  app_post "/api/vendors" [] post_api_vendors;
  app_get "/api/companies/:id/vendors" [] get_api_companies_id_vendors;
  app_put "/api/companies/:id" [authenticated] put_api_companies_id;
  app_get "/api/jobs/:id" [] get_api_jobs_id;
  app_get "/api/jobs" [] get_api_jobs;
  app_get "/api/jobs/:id" [] get_api_jobs_id_second;
  app_put "/api/jobs/:id" [authenticated] put_api_jobs_id;
  app_post "/api/jobs" [] post_api_jobs;
  app_put "/api/jobs/:id" [authenticated] put_api_jobs_id_second;
  app_delete "/api/jobs/:id" [authenticated] delete_api_jobs_id;
  app_get "/api/applications" [authenticated] get_api_applications;
  app_get "/api/jobs/:id/applications" [authenticated]
    get_api_jobs_id_applications;
  app_post "/api/applications" [authenticated; upload_single upload "resume"]
    post_api_applications;
  app_patch "/api/applications/:id/status" [] patch_api_applications_id_status;
  app_delete "/api/applications/:id" [] delete_api_applications_id;
  app_get "/api/connections" [authenticated] get_api_connections;
  app_get "/api/connection-requests" [authenticated]
    get_api_connection_requests;
  app_post "/api/connections" [authenticated] post_api_connections;
  app_put "/api/connections/:id/status" [authenticated]
    put_api_connections_id_status;
  app_get "/api/conversations" [authenticated] get_api_conversations;
  app_get "/api/messages/:userId" [authenticated] get_api_messages_userId;
  app_post "/api/messages" [authenticated] post_api_messages;
  app_put "/api/messages/:id/read" [authenticated] put_api_messages_id_read;
  app_get "/api/groups" [] get_api_groups;
  app_get "/api/user/groups" [authenticated] get_api_user_groups;
  app_post "/api/groups" [authenticated] post_api_groups;
  app_post "/api/groups/:id/join" [authenticated] post_api_groups_id_join;
  app_get "/api/search/:query" [] get_api_search_query;
  app_get "/api/clients/:id/vendors" [authenticated]
    get_api_clients_id_vendors;
  app_post "/api/vendors" [authenticated] post_api_vendors_second;
  app_get "/api/countries" [] get_api_countries;
  app_get "/api/states/:countryId" [] get_api_states_countryId;
  app_get "/api/cities/:stateId" [] get_api_cities_stateId;
  app_get "/api/admin/vendors/pending" [authenticated]
    get_api_admin_vendors_pending;
  app_patch "/api/admin/vendors/:id/status" [authenticated]
    patch_api_admin_vendors_id_status;
  app_patch "/api/admin/jobs/:id" [authenticated] patch_api_admin_jobs_id;
  app_patch "/api/admin/companies/:id/status" [authenticated]
    patch_api_admin_companies_id_status;
  app_get "/api/categories" [] get_api_categories;
  app_post "/api/categories" [authenticated] post_api_categories;
  app_get "/api/countries" [] get_api_countries_second;
  app_get "/api/states/:countryId" [] get_api_states_countryId_second;
  app_get "/api/cities/:stateId" [] get_api_cities_stateId_second;
  app_post "/api/upload/company-logo"
    [authenticated; upload_single imageUpload "logo"]
    post_api_upload_company_logo_second
].

(** Whether a registration matches the request, and with which
    parameters. *)
Definition matches (r : route) (req : request) : option params :=
  if http_method_eqb (verb r) (rmethod req)
  then match_path (segments (path r)) (rpath req)
  else None.

(** The first registration that matches: every handler of this file ends
    the request, so a later registration of the same path is never
    reached. *)
Fixpoint find_route (rs : list route) (req : request)
  : option (route * params) :=
  match rs with
  | [] => None
  | r :: rest =>
      match matches r req with
      | Some ps => Some (r, ps)
      | None => find_route rest req
      end
  end.

(** What a middleware chain decides before the handler runs. *)
Inductive verdict : Type :=
| proceed
| answered (r : response)
| failed (e : exn).

Fixpoint run_middlewares (ms : list middleware) (req : request) : verdict :=
  match ms with
  | [] => proceed
  | authenticated :: rest =>
      match isAuthenticated req with
      | Some r => answered r
      | None => run_middlewares rest req
      end
  | upload_single u field :: rest =>
      match single u field req with
      | inr e => failed e
      | inl _ => run_middlewares rest req
      end
  end.

(** How a request ends as far as this file decides: a response sent by a
    handler or by [isAuthenticated]; an error handed to [next], for the
    application's error handler; or no registration of this file matching
    (static files under [/uploads], the routes of [setupAuth], Express's
    own 404). *)
Inductive outcome : Type :=
| responded (r : response)
| next_error (e : exn)
| unmatched.

(** One registration serving a request it matches: its middlewares in
    order, then its handler. *)
Definition serve (r : route) (ps : params) (req : request) : M W outcome :=
  match run_middlewares (middlewares r) req with
  | answered resp => ret (responded resp)
  | failed e => ret (next_error e)
  | proceed => bind (callback r ps req) (fun resp => ret (responded resp))
  end.

Definition dispatch (req : request) : M W outcome :=
  match find_route routes req with
  | None => ret unmatched
  | Some (r, ps) => serve r ps req
  end.

End Routes.

(** ** A reference implementation of the collaborators *)

Module Sample.

(** Modelled from the spec: the data-access collaborator [./storage] and
    the schemas of [@shared/schema], neither of which is among the source
    files.  The spec's data model gives the store rows of companies, jobs
    and vendors with identifiers minted by the store, a company status
    drawn from pending/approved/rejected that an administrator's
    transition overwrites, and schemas that describe the shape of each
    entity and reject input that lacks a required field. *)
Record db : Type := {
  companies : list val;
  jobs : list val;
  vendors : list val;
  clock : Z
}.

(** Whether the row's field [k] is the integer [n]. *)
Definition field_is (k : string) (n : Z) (row : val) : bool :=
  match row with
  | VObj props =>
      match lookup k props with
      | VNum (Int z) => z =? n
      | _ => false
      end
  | _ => false
  end.

Definition find_row (id : Z) (rows : list val) : val :=
  match find (field_is "id" id) rows with
  | Some row => row
  | None => VUndef
  end.

Definition set_fields (fields : list (string * val)) (row : val) : val :=
  match row with
  | VObj props =>
      VObj (fold_left (fun ps kv => set (fst kv) (snd kv) ps) fields props)
  | _ => row
  end.

Definition update_row (id : Z) (fields : list (string * val))
    (rows : list val) : list val :=
  map (fun row => if field_is "id" id row then set_fields fields row else row)
      rows.

(** Whether a row's text field [k] contains [needle]. *)
Definition field_contains (k needle : string) (row : val) : bool :=
  match row with
  | VObj props =>
      match lookup k props with
      | VStr text =>
          match index 0 needle text with Some _ => true | None => false end
      | _ => false
      end
  | _ => false
  end.

Definition next_id (rows : list val) : Z := Z.of_nat (length rows) + 1.

(** Modelled from the spec: the methods of [storage] over this store.
    Lookups return the row or [undefined]; searches match the name of a
    company and the title of a job; [updateCompanyStatus] overwrites
    [status] and [approvedBy] of the company and returns its row;
    [createJob] stores the job under a fresh identifier.  Any other call
    is rejected. *)
Definition run_storage (m : method) (args : list val) (d : db)
  : result val * db :=
  match m, args with
  | getJob, [VNum (Int id)] => (inl (find_row id (jobs d)), d)
  | getCompany, [VNum (Int id)] => (inl (find_row id (companies d)), d)
  | getJobsByCompany, [VNum (Int id)] =>
      (inl (VArr (filter (field_is "companyId" id) (jobs d))), d)
  | getClientVendors, [VNum (Int id)] =>
      (inl (VArr (filter (field_is "clientId" id) (vendors d))), d)
  | getCompanies, [VNum (Int n)] =>
      (inl (VArr (firstn (Z.to_nat n) (companies d))), d)
  | searchCompanies, [VStr q; VNum (Int n)] =>
      (inl (VArr (firstn (Z.to_nat n)
                    (filter (field_contains "name" q) (companies d)))), d)
  | searchJobs, VStr q :: _ =>
      (inl (VArr (filter (field_contains "title" q) (jobs d))), d)
  | updateCompanyStatus, [VNum (Int id); status; approvedBy] =>
      let updated :=
        update_row id [("status", status); ("approvedBy", approvedBy)]
          (companies d) in
      (inl (find_row id updated),
       {| companies := updated; jobs := jobs d; vendors := vendors d;
          clock := clock d |})
  | createJob, [VObj props] =>
      let row := VObj (set "id" (VNum (Int (next_id (jobs d)))) props) in
      (inl row,
       {| companies := companies d; jobs := jobs d ++ [row];
          vendors := vendors d; clock := clock d |})
  | _, _ => (inr (Error "query failed"), d)
  end.

(** Modelled from the spec: the schemas of [@shared/schema], as the
    list of the fields each one requires. *)
Definition required (s : schema) : list string :=
  match s with
  | insertExperienceSchema => ["userId"; "title"; "company"]
  | insertEducationSchema => ["userId"; "institution"]
  | insertSkillSchema => ["userId"; "name"]
  | insertCompanySchema => ["userId"; "name"]
  | insertJobSchema => ["title"; "companyId"; "recruiterId"]
  | insertJobApplicationSchema => ["jobId"; "applicantId"]
  | insertConnectionSchema => ["requesterId"; "receiverId"]
  | insertMessageSchema => ["senderId"; "receiverId"; "content"]
  | insertGroupSchema => ["name"; "createdBy"]
  | insertVendorSchema => ["companyId"; "name"]
  | partial _ => []
  end.

Definition issue (field : string) : val :=
  VObj [("code", VStr "invalid_type");
        ("path", VArr [VStr field]);
        ("message", VStr "Required")].

Definition missing (props : list (string * val)) (fields : list string)
  : list string :=
  filter (fun k => nullish (lookup k props)) fields.

(** Modelled from the spec: [schema.parse], which returns an object that
    has every required field and throws a [ZodError] with one issue per
    missing field otherwise. *)
Definition run_parse (s : schema) (v : val) : result val :=
  match v with
  | VObj props =>
      match missing props (required s) with
      | [] => inl v
      | absent => inr (ZodError "Required" (VArr (map issue absent)))
      end
  | _ => inr (ZodError "Expected object" (VArr []))
  end.

#[global] Instance collaborators : Collaborators db := {
  storage := run_storage;
  schema_parse := run_parse;
  renameSync := fun _ _ d => (inl tt, d);
  date_now := clock
}.

(** A small database: two companies, one of them pending, and three jobs
    of the first company. *)
Definition acme : val :=
  VObj [("id", VNum (Int 1)); ("name", VStr "Acme Corp");
        ("status", VStr "approved")].

Definition globex : val :=
  VObj [("id", VNum (Int 2)); ("name", VStr "Globex");
        ("status", VStr "pending")].

Definition job (id : Z) (title : string) (active : val) : val :=
  VObj [("id", VNum (Int id)); ("companyId", VNum (Int 1));
        ("title", VStr title); ("isActive", active)].

Definition vendor1 : val :=
  VObj [("id", VNum (Int 1)); ("clientId", VNum (Int 1));
        ("name", VStr "Initech"); ("status", VStr "pending")].

Definition db0 : db :=
  {| companies := [acme; globex];
     jobs := [job 1 "Acme engineer" (VBool true);
              job 2 "Acme analyst" (VBool false);
              job 3 "Acme designer" VNull];
     vendors := [vendor1];
     clock := 1700000000000 |}.

Definition start : state db := {| world := db0; calls := [] |}.

Definition alice : val := VObj [("id", VStr "u1"); ("email", VStr "a@x.org")].

End Sample.

(** A request with nothing but a method and a path. *)
Definition bare (m : http_method) (pieces : list string) : request :=
  {| rmethod := m; rpath := pieces; rquery := []; rbody := VObj [];
     rsession_user := VUndef; rupload := None |}.

Definition with_query (q : list (string * qparam)) (req : request) : request :=
  {| rmethod := rmethod req; rpath := rpath req; rquery := q;
     rbody := rbody req; rsession_user := rsession_user req;
     rupload := rupload req |}.

Definition with_body (b : val) (req : request) : request :=
  {| rmethod := rmethod req; rpath := rpath req; rquery := rquery req;
     rbody := b; rsession_user := rsession_user req;
     rupload := rupload req |}.

Definition with_user (u : val) (req : request) : request :=
  {| rmethod := rmethod req; rpath := rpath req; rquery := rquery req;
     rbody := rbody req; rsession_user := u; rupload := rupload req |}.

(** The query of a request with every occurrence of the parameter [k]
    taken out. *)
Definition without_param (k : string) (req : request) : request :=
  with_query
    (filter (fun kv => negb (String.eqb k (fst kv))) (rquery req)) req.

(** ** The properties proved of the handlers *)

(** [post m Q]: whenever [m] returns a value, the value satisfies [Q]. *)
Definition post {W A} (m : M W A) (Q : A -> Prop) : Prop :=
  forall s a s', m s = (inl a, s') -> Q a.

(** [returns m]: from every state, [m] returns a value; it does not
    throw. *)
Definition returns {W A} (m : M W A) : Prop :=
  forall s, exists a s', m s = (inl a, s').

(** The two shapes of an error body: [{ message }], and
    [{ message, errors }] with status 400. *)
Definition error_form (r : response) : Prop :=
  (exists m, body r = msg m) \/
  (status r = 400 /\
   exists m errs, body r = VObj [("message", VStr m); ("errors", errs)]).

Definition error_ok (r : response) : Prop := 400 <= status r -> error_form r.

(** The registrations whose error bodies have another shape. *)
Definition other_error_shapes : list (http_method * string) :=
  [(GET, "/api/test-db-connection"); (GET, "/api/jobs/:id");
   (PUT, "/api/jobs/:id"); (POST, "/api/jobs"); (GET, "/api/search/:query")].

Definition excepted {W} (r : @route W) : bool :=
  existsb
    (fun k => http_method_eqb (fst k) (verb r) && String.eqb (snd k) (path r))
    other_error_shapes.

(** The registrations that put the text of the caught error in the
    response. *)
Definition exposing : list (http_method * string) :=
  [(GET, "/api/test-db-connection"); (POST, "/api/jobs")].

Definition exposes {W} (r : @route W) : bool :=
  existsb
    (fun k => http_method_eqb (fst k) (verb r) && String.eqb (snd k) (path r))
    exposing.

(** Two errors of the same class with the same [errors]: they may differ
    in their message only. *)
Definition same_class (e' e : exn) : Prop :=
  isZodError e' = isZodError e /\ errors_of e' = errors_of e.

Definition same_result {A} (r' r : result A) : Prop :=
  match r', r with
  | inl a', inl a => a' = a
  | inr e', inr e => same_class e' e
  | _, _ => False
  end.

(** Two implementations of the collaborators that behave alike but for
    the messages of the errors they throw. *)
Definition same_but_for_messages {W} (C' C : Collaborators W) : Prop :=
  (forall m args w,
     same_result (fst (@storage W C' m args w)) (fst (@storage W C m args w))
     /\ snd (@storage W C' m args w) = snd (@storage W C m args w)) /\
  (forall sc v,
     same_result (@schema_parse W C' sc v) (@schema_parse W C sc v)) /\
  (forall from to w,
     same_result (fst (@renameSync W C' from to w))
                 (fst (@renameSync W C from to w))
     /\ snd (@renameSync W C' from to w) = snd (@renameSync W C from to w)) /\
  (forall w, @date_now W C' w = @date_now W C w).

(** Two computations that end alike from every state. *)
Definition alike {W A} (m' m : M W A) : Prop :=
  forall s, same_result (fst (m' s)) (fst (m s)) /\ snd (m' s) = snd (m s).

(** Two registrations of the same path whose handlers end alike. *)
Definition route_alike {W} (rt' rt : @route W) : Prop :=
  verb rt' = verb rt /\ path rt' = path rt /\
  middlewares rt' = middlewares rt /\
  (exposes rt = false ->
   forall ps req, alike (callback rt' ps req) (callback rt ps req)).

(** Whether a job's [isActive] is the boolean [true]. *)
Definition isActive_is_true (job : val) : bool :=
  match get job "isActive" with
  | inl (VBool true) => true
  | _ => false
  end.

(** ** The order of the registrations *)

(** The place, counted from 0, of the first registration that matches. *)
Fixpoint position {W} (rs : list (@route W)) (req : request) : option nat :=
  match rs with
  | [] => None
  | r :: rest =>
      match matches r req with
      | Some _ => Some 0%nat
      | None => option_map S (position rest req)
      end
  end.

(** The places of the registrations that repeat the method and path of an
    earlier one: the second /api/companies/all, GET and PUT /api/jobs/:id,
    POST /api/vendors, /api/countries, /api/states/:countryId,
    /api/cities/:stateId and /api/upload/company-logo. *)
Definition repeated : list nat := [17; 32; 35; 56; 66; 67; 68; 69]%nat.

(** A request on the path of a registration, with "1" for each
    parameter. *)
Definition example_request {W} (rt : @route W) : request :=
  bare (verb rt)
       (map (fun seg => match seg with Lit s => s | Par _ => "1" end)
            (segments (path rt))).

(** Whether a registration lists [isAuthenticated]. *)
Definition guarded {W} (rt : @route W) : bool :=
  existsb (fun m => match m with authenticated => true | _ => false end)
          (middlewares rt).

(** ** What a computation does to the state *)

(** [adds n m]: [m] appends at most [n] calls to the log of the calls to
    storage, and takes none away. *)
Definition adds {W A} (n : nat) (m : M W A) : Prop :=
  forall s r s',
    m s = (r, s') ->
    exists l, calls s' = (calls s ++ l)%list /\ (length l <= n)%nat.

(** [still m]: [m] leaves the state as it found it. *)
Definition still {W A} (m : M W A) : Prop :=
  forall s r s', m s = (r, s') -> s' = s.

(** A response that turns the caller away. *)
Definition denies (r : response) : Prop := status r = 401 \/ status r = 403.

(** [quiet m]: when [m] turns the caller away, it has left the state as it
    found it. *)
Definition quiet {W} (m : M W response) : Prop :=
  forall s r s', m s = (inl r, s') -> denies r -> s' = s.

(** The status codes the file writes. *)
Definition statuses : list Z := [200; 201; 400; 401; 403; 404; 500].

(** Where [parseInt] stops reading a decimal number: at the end of the
    text or at a character that is no decimal digit; and the mark that
    makes a leading [0] the prefix of a hexadecimal number. *)
Definition ends_number (t : string) : bool :=
  match t with
  | EmptyString => true
  | String c _ =>
      match digit_of 10 c with
      | None => true
      | Some _ => false
      end
  end.

Definition hex_mark (t : string) : bool :=
  match t with
  | String "x" _ | String "X" _ => true
  | _ => false
  end.

(** The integers a JavaScript number holds exactly, the ones a job's [id]
    ranges over. *)
Definition safe_integer (z : Z) : Prop := Z.abs z < 2 ^ 53.

(** The entries of a search result, none when storage resolved with
    [null] or [undefined]. *)
Definition listed (v : val) : list val :=
  match v with
  | VArr l => l
  | _ => []
  end.

(** A job counted as active by the statistics: its [status] is not the
    text [closed]. *)
Definition open_job (job : val) : bool :=
  match get job "status" with
  | inl a => negb (is_str a "closed")
  | inr _ => false
  end.

(** The two addresses the statistics are shown to. *)
Definition admins : list string :=
  ["krupas@vedsoft.com"; "krupashankar@gmail.com"].


(** Modelled from the spec: a store that holds nothing but job postings,
    whose [getJobs(filters, limit)] returns the first [limit] of them and
    whose schemas accept every value.  It is the store on which the
    statistics are run. *)
Module Board.

Definition run_storage (m : method) (args : list val) (w : list val)
  : result val * list val :=
  match m, args with
  | getJobs, [_; VNum (Int n)] => (inl (VArr (firstn (Z.to_nat n) w)), w)
  | _, _ => (inr (Error "query failed"), w)
  end.

Definition collaborators : Collaborators (list val) :=
  {| storage := run_storage;
     schema_parse := fun _ v => inl v;
     renameSync := fun _ _ w => (inl tt, w);
     date_now := fun _ => 0 |}.

Definition posting (id : Z) (st : string) : val :=
  VObj [("id", VNum (Int id)); ("status", VStr st)].

Definition start : state (list val) :=
  {| world := [posting 1 "open"; posting 2 "closed"; posting 3 "draft"];
     calls := [] |}.

Definition admin : val :=
  VObj [("id", VStr "u9"); ("email", VStr "krupas@vedsoft.com")].

End Board.

(** The number of times a character occurs in a text. *)
Fixpoint occurrences (c : ascii) (s : string) : nat :=
  match s with
  | EmptyString => 0
  | String c' rest =>
      (if Ascii.eqb c' c then 1 else 0) + occurrences c rest
  end.

(** ** The job card of the client

    The pure parts of the [JobCard] component: the age of a posting, the
    skill badges and the line that shows where the job is. *)

Module JobCard.

(** [Math.ceil(n / d)] for a positive integer [d]. The quotient of two
    integers below 2^53 rounds to the right side of every integer, so the
    ceiling is the one of the exact quotient. *)
Definition num_ceil_div (n : num) (d : Z) : num :=
  match n with
  | NaN => NaN
  | Int z => Int (- ((- z) / d))
  end.

(** [n === k] *)
Definition num_eq (n : num) (k : Z) : bool :=
  match n with NaN => false | Int z => z =? k end.

(** [formatTimeAgo(date)], with [now] the reading of [new Date()] and
    [posted] the time of [new Date(date)], [NaN] for a date that does not
    parse. *)
Definition formatTimeAgo (now : Z) (posted : num) : string :=
  let diffTime :=
    match posted with
    | NaN => NaN
    | Int p => Int (Z.abs (now - p))
    end in
  let diffDays := num_ceil_div diffTime (1000 * 60 * 60 * 24) in
  if num_eq diffDays 1 then "1 day ago"
  else if num_lt diffDays 7 then num_to_string diffDays ++ " days ago"
  else if num_lt diffDays 30 then
    num_to_string (num_ceil_div diffDays 7) ++ " weeks ago"
  else num_to_string (num_ceil_div diffDays 30) ++ " months ago".

(** [s.split(sep)] for a separator of one character. *)
Fixpoint split_on (sep : ascii) (s : string) : list string :=
  match s with
  | EmptyString => [EmptyString]
  | String c rest =>
      if Ascii.eqb c sep then EmptyString :: split_on sep rest
      else
        match split_on sep rest with
        | [] => [String c EmptyString]
        | piece :: pieces => String c piece :: pieces
        end
  end.

(** [skillsArray]: the array itself, the trimmed pieces of a string
    between its commas, or nothing for a value that is falsy. *)
Definition skillsArray (skills : val) : result (list val) :=
  match skills with
  | VArr l => inl l
  | VStr s =>
      if truthy skills then
        inl (map (fun piece => VStr (trim piece)) (split_on "," s))
      else inl []
  | _ =>
      if truthy skills then inr (TypeError "split is not a function")
      else inl []
  end.

(** The badges shown, [skillsArray.slice(0, 5)], and the number on the
    badge "+n more", present when there are more than five skills. *)
Definition shown (skills : list val) : list val := firstn 5 skills.

Definition more (skills : list val) : option Z :=
  if 5 <? Z.of_nat (length skills)
  then Some (Z.of_nat (length skills) - 5)
  else None.

(** [l.join(sep)] *)
Fixpoint join (sep : string) (l : list val) : string :=
  match l with
  | [] => ""
  | x :: rest =>
      let sx := match x with
                | VUndef | VNull => ""
                | _ => to_string x
                end in
      match rest with
      | [] => sx
      | _ :: _ => sx ++ sep ++ join sep rest
      end
  end.

(** The location line:
    [[job.city, job.state, job.zipCode, job.country].filter(Boolean)
       .join(', ') || job.location]. *)
Definition locationLine (job : val) : result val :=
  match get job "city", get job "state", get job "zipCode",
        get job "country", get job "location" with
  | inl city, inl state, inl zipCode, inl country, inl location =>
      inl (or_else
             (VStr (join ", " (filter truthy [city; state; zipCode; country])))
             location)
  | inr e, _, _, _, _ | _, inr e, _, _, _ | _, _, inr e, _, _
  | _, _, _, inr e, _ | _, _, _, _, inr e => inr e
  end.

End JobCard.

(** ** Facts about strings and property lists *)

Lemma trimStart_length (s : string) :
  (String.length (trimStart s) <= String.length s)%nat.
Proof.
  induction s as [| c s IH]; simpl; [lia |].
  destruct (is_ws c); simpl; lia.
Qed.

Lemma trimEnd_length (s : string) :
  (String.length (trimEnd s) <= String.length s)%nat.
Proof.
  induction s as [| c s IH]; simpl; [lia |].
  destruct (trimEnd s) eqn:E.
  - destruct (is_ws c); simpl; lia.
  - simpl in *; lia.
Qed.

Lemma trim_length (s : string) :
  (String.length (trim s) <= String.length s)%nat.
Proof.
  unfold trim.
  pose proof (trimEnd_length (trimStart s)).
  pose proof (trimStart_length s). lia.
Qed.

Lemma own_set_same k v props : own k (set k v props) = Some v.
Proof.
  induction props as [| [k' v'] rest IH]; simpl.
  - now rewrite String.eqb_refl.
  - destruct (String.eqb k k') eqn:E; simpl; rewrite E; auto.
Qed.

Lemma own_set_other k k' v props :
  k <> k' -> own k (set k' v props) = own k props.
Proof.
  intros Hne. induction props as [| [k0 v0] rest IH]; simpl.
  - destruct (String.eqb_spec k k'); [contradiction | reflexivity].
  - destruct (String.eqb_spec k' k0); simpl.
    + subst k0. destruct (String.eqb_spec k k'); [contradiction | reflexivity].
    + destruct (String.eqb k k0); auto.
Qed.

Lemma set_own k v props : own k props = Some v -> set k v props = props.
Proof.
  induction props as [| [k' v'] rest IH]; simpl; [discriminate |].
  destruct (String.eqb k k') eqn:E.
  - intro Hv. inversion Hv; subst. reflexivity.
  - intro Hv. now rewrite IH.
Qed.

Lemma lookup_set_same k v props : lookup k (set k v props) = v.
Proof. unfold lookup. now rewrite own_set_same. Qed.

Lemma lookup_set_other k k' v props :
  k <> k' -> lookup k (set k' v props) = lookup k props.
Proof. intro Hne. unfold lookup. now rewrite own_set_other. Qed.

Lemma truthy_VStr (s : string) : s <> "" -> truthy (VStr s) = true.
Proof.
  intro Hne. simpl. destruct (String.eqb_spec s ""); [contradiction | reflexivity].
Qed.

(** ** Running the monad *)

Lemma bind_returns {W A B} (m : M W A) (k : A -> M W B)
    (s : state W) (a : A) (s1 : state W) :
  m s = (inl a, s1) -> bind m k s = k a s1.
Proof. intro E. unfold bind. now rewrite E. Qed.

Lemma bind_cong {W A B} (m m' : M W A) (k : A -> M W B) (s : state W) :
  m s = m' s -> bind m k s = bind m' k s.
Proof. intro E. unfold bind. now rewrite E. Qed.

Lemma try_catch_cong {W A} (m m' : M W A) (h : exn -> A) (s : state W) :
  m s = m' s -> try_catch m h s = try_catch m' h s.
Proof. intro E. unfold try_catch. now rewrite E. Qed.

Lemma serve_unguarded {W} (rt : @route W) (ps : params) (req : request) :
  middlewares rt = [] ->
  serve rt ps req
  = bind (callback rt ps req) (fun resp => ret (responded resp)).
Proof. intro E. unfold serve. now rewrite E. Qed.

(** ** Which registration serves a request *)

Section Routing.
Context {W : Type} `{Collaborators W}.

Lemma dispatch_found (req : request) (rt : @route W) (ps : params) :
  find_route routes req = Some (rt, ps) -> dispatch req = serve rt ps req.
Proof. intro E. unfold dispatch. now rewrite E. Qed.

Lemma find_route_In (rs : list (@route W)) (req : request) rt ps :
  find_route rs req = Some (rt, ps) -> In rt rs /\ matches rt req = Some ps.
Proof.
  induction rs as [| r rest IH]; simpl; [discriminate |].
  destruct (matches r req) as [ps' |] eqn:E.
  - intro F. inversion F; subst. auto.
  - intro F. destruct (IH F). auto.
Qed.

Ltac route_by_computation :=
  intros;
  match goal with req : request |- _ => destruct req end;
  simpl in *; subst; reflexivity.

Lemma route_get_search (req : request) :
  rmethod req = GET -> rpath req = ["api"; "search"] ->
  find_route routes req = Some (app_get "/api/search" [] get_api_search, []).
Proof. route_by_computation. Qed.

Lemma route_get_search_query (req : request) (c : ascii) (q : string) :
  rmethod req = GET -> rpath req = ["api"; "search"; String c q] ->
  find_route routes req
  = Some (app_get "/api/search/:query" [] get_api_search_query,
          [("query", String c q)]).
Proof. route_by_computation. Qed.

Lemma route_get_companies (req : request) :
  rmethod req = GET -> rpath req = ["api"; "companies"] ->
  find_route routes req
  = Some (app_get "/api/companies" [] get_api_companies, []).
Proof. route_by_computation. Qed.

Lemma route_get_companies_id_details (req : request) (c : ascii) (id : string) :
  rmethod req = GET ->
  rpath req = ["api"; "companies"; String c id; "details"] ->
  find_route routes req
  = Some (app_get "/api/companies/:id/details" []
            get_api_companies_id_details,
          [("id", String c id)]).
Proof. route_by_computation. Qed.

Lemma route_get_jobs_id (req : request) (c : ascii) (id : string) :
  rmethod req = GET -> rpath req = ["api"; "jobs"; String c id] ->
  find_route routes req
  = Some (app_get "/api/jobs/:id" [] get_api_jobs_id, [("id", String c id)]).
Proof. route_by_computation. Qed.

Lemma route_delete_applications_id (req : request) (c : ascii) (id : string) :
  rmethod req = DELETE -> rpath req = ["api"; "applications"; String c id] ->
  find_route routes req
  = Some (app_delete "/api/applications/:id" [] delete_api_applications_id,
          [("id", String c id)]).
Proof. route_by_computation. Qed.

Lemma route_post_jobs (req : request) :
  rmethod req = POST -> rpath req = ["api"; "jobs"] ->
  find_route routes req = Some (app_post "/api/jobs" [] post_api_jobs, []).
Proof. route_by_computation. Qed.

Lemma route_post_experiences (req : request) :
  rmethod req = POST -> rpath req = ["api"; "experiences"] ->
  find_route routes req
  = Some (app_post "/api/experiences" [authenticated] post_api_experiences,
          []).
Proof. route_by_computation. Qed.

Lemma route_post_companies (req : request) :
  rmethod req = POST -> rpath req = ["api"; "companies"] ->
  find_route routes req
  = Some (app_post "/api/companies" [] post_api_companies, []).
Proof. route_by_computation. Qed.

Lemma route_patch_companies_id_status (req : request) (c : ascii) (id : string) :
  rmethod req = PATCH ->
  rpath req = ["api"; "companies"; String c id; "status"] ->
  find_route routes req
  = Some (app_patch "/api/companies/:id/status" []
            patch_api_companies_id_status,
          [("id", String c id)]).
Proof. route_by_computation. Qed.

Lemma route_post_applications (req : request) :
  rmethod req = POST -> rpath req = ["api"; "applications"] ->
  find_route routes req
  = Some (app_post "/api/applications"
            [authenticated; upload_single upload "resume"]
            post_api_applications, []).
Proof. route_by_computation. Qed.

Lemma parseInt_nonempty (text : string) (n : Z) :
  parseInt (VStr text) = Int n -> exists c rest, text = String c rest.
Proof.
  destruct text as [| c rest]; [discriminate | eauto].
Qed.

End Routing.

(** ** Every request gets an outcome *)

Section Totality.
Context {W : Type} `{Collaborators W}.

Lemma returns_try_catch {A} (m : M W A) (h : exn -> A) :
  returns (try_catch m h).
Proof.
  intro s. unfold try_catch. destruct (m s) as [[a | e] s1]; eauto.
Qed.

Ltac head_of t :=
  lazymatch t with
  | ?f _ => head_of f
  | _ => t
  end.

(** Every handler is one [try]/[catch] whose [catch] answers: no handler
    throws, whatever the collaborators do. *)
Lemma callbacks_return (rt : route) :
  In rt routes -> forall ps req, returns (callback rt ps req).
Proof.
  intros Hin. simpl in Hin.
  repeat (destruct Hin as [<- | Hin];
          [ intros ps req;
            cbn [callback app_get app_post app_put app_patch app_delete];
            lazymatch goal with
            | |- returns ?t => let h := head_of t in unfold h
            end;
            apply returns_try_catch
          | ]).
  contradiction.
Qed.

Lemma dispatch_returns (req : request) : returns (dispatch req).
Proof.
  intro s. unfold dispatch.
  destruct (find_route routes req) as [[rt ps] |] eqn:Efind.
  - destruct (find_route_In _ _ _ _ Efind) as [Hin _]. unfold serve.
    destruct (run_middlewares (middlewares rt) req); try (eexists _, _; reflexivity).
    destruct (callbacks_return rt Hin ps req s) as (resp & s1 & E).
    unfold bind. rewrite E. eexists _, _; reflexivity.
  - eexists _, _; reflexivity.
Qed.

End Totality.

(** ** The search endpoint *)

Section Search.
Context {W : Type} `{Collaborators W}.

Lemma short_trimmed (q : string) :
  (String.length q < 3 \/ String.length (trim q) < 3)%nat ->
  (len (trim q) <? 3) = true.
Proof.
  intro Hs. pose proof (trim_length q). unfold len.
  apply Z.ltb_lt. lia.
Qed.

(** C5. A query string shorter than three characters, before or after
    trimming, makes GET /api/search answer [{companies: [], jobs: []}]
    and leave the state as it found it: the world untouched and no call
    to [storage] recorded. *)
Theorem C5_short_query_skips_storage :
  forall (req : request) (s : state W) (q : string),
    rmethod req = GET ->
    rpath req = ["api"; "search"] ->
    or_else (query req "q") (query req "query") = VStr q ->
    (String.length q < 3 \/ String.length (trim q) < 3)%nat ->
    dispatch req s = (inl (responded (respond 200 empty_search)), s).
Proof.
  intros req s q Hm Hp Hq Hshort.
  rewrite (dispatch_found req _ _ (route_get_search req Hm Hp)).
  rewrite serve_unguarded by reflexivity. cbn [callback app_get].
  unfold get_api_search, try_catch, bind. rewrite Hq.
  destruct (truthy (VStr q)); simpl.
  - unfold lift. simpl. rewrite (short_trimmed q Hshort). reflexivity.
  - reflexivity.
Qed.

(** The same short-circuit on GET /api/search/:query, whose threshold is
    two characters, untrimmed. *)
Lemma short_path_query_skips_storage :
  forall (req : request) (s : state W) (c : ascii),
    rmethod req = GET ->
    rpath req = ["api"; "search"; String c ""] ->
    dispatch req s = (inl (responded (respond 200 empty_search)), s).
Proof.
  intros req s c Hm Hp.
  rewrite (dispatch_found req _ _ (route_get_search_query req c "" Hm Hp)).
  reflexivity.
Qed.

Lemma long_trimmed (q : string) :
  (3 <= String.length (trim q))%nat ->
  truthy (VStr q) = true /\ (len (trim q) <? 3) = false.
Proof.
  intro Hl. split.
  - apply truthy_VStr. intro E. subst q. simpl in Hl. lia.
  - unfold len. apply Z.ltb_ge. lia.
Qed.

(** C6. For a query of at least three characters after trimming, when
    the company search resolves with the list [cs] and the job search,
    issued next, resolves with [js], GET /api/search answers
    [{companies: cs, jobs: js}]: companies first, each list as storage
    returned it, and nothing else was asked of storage. *)
Theorem C6_search_returns_both_results :
  forall (req : request) (s : state W) (q : string) (cs js : list val)
         (w1 w2 : W),
    rmethod req = GET ->
    rpath req = ["api"; "search"] ->
    or_else (query req "q") (query req "query") = VStr q ->
    (3 <= String.length (trim q))%nat ->
    storage searchCompanies [VStr q; VNum (Int 10)] (world s)
    = (inl (VArr cs), w1) ->
    storage searchJobs [VStr q; VObj []; VNum (Int 10)] w1
    = (inl (VArr js), w2) ->
    dispatch req s
    = (inl (responded
              (respond 200 (VObj [("companies", VArr cs); ("jobs", VArr js)]))),
       {| world := w2;
          calls := calls s
                   ++ [(searchCompanies, [VStr q; VNum (Int 10)]);
                       (searchJobs, [VStr q; VObj []; VNum (Int 10)])] |}).
Proof.
  intros req s q cs js w1 w2 Hm Hp Hq Hlong Hc Hj.
  destruct (long_trimmed q Hlong) as [Ht Hl].
  rewrite (dispatch_found req _ _ (route_get_search req Hm Hp)).
  rewrite serve_unguarded by reflexivity. cbn [callback app_get].
  unfold get_api_search, try_catch, bind. rewrite Hq, Ht. simpl.
  unfold lift. simpl. rewrite Hl.
  unfold promise_all2, call_storage. rewrite Hc. simpl. rewrite Hj. simpl.
  unfold ret. rewrite <- app_assoc. reflexivity.
Qed.

End Search.

(** ** The company listing and the company details *)

Section Companies.
Context {W : Type} `{Collaborators W}.

Lemma query_lookup_without (k k' : string) (q : list (string * qparam)) :
  query_lookup (filter (fun kv => negb (String.eqb k (fst kv))) q) k'
  = if String.eqb k' k then VUndef else query_lookup q k'.
Proof.
  induction q as [| [k0 v0] rest IH]; simpl.
  - now destruct (String.eqb k' k).
  - destruct (String.eqb_spec k k0) as [-> | Hne]; simpl.
    + rewrite IH. destruct (String.eqb_spec k' k0); reflexivity.
    + rewrite IH. destruct (String.eqb_spec k' k0) as [-> | Hne'].
      * destruct (String.eqb_spec k0 k); [congruence | reflexivity].
      * reflexivity.
Qed.

(** A query that reads "undefined" or is too short starts no search. *)
Lemma not_searching (q : string) :
  q = "undefined" \/ (String.length q < 2)%nat ->
  (if truthy (VStr q) && negb (is_str (VStr q) "undefined")
   then num_ge (Int (len q)) 2 else false) = false.
Proof.
  intros [-> | Hshort]; [reflexivity |].
  destruct (truthy (VStr q) && negb (is_str (VStr q) "undefined")); auto.
  unfold len. simpl. apply Z.leb_gt. lia.
Qed.

(** C9. When [q] is the text "undefined" or has fewer than two
    characters, GET /api/companies does exactly what it does for the same
    request without [q]: no company search, and one call
    [getCompanies(n)], where [n] is the limit of the query string when
    that is a positive number, cut down to 50000 when it is larger, and
    100 when there is no limit or none that is positive.  The response is
    what [getCompanies] resolves with; it is 500 when the call rejects,
    and when a positive limit was given and the result has no [length]
    to log. *)
Theorem C9_unusable_query_lists_companies :
  forall (req : request) (s : state W) (q : string),
    rmethod req = GET ->
    rpath req = ["api"; "companies"] ->
    query req "q" = VStr q ->
    q = "undefined" \/ (String.length q < 2)%nat ->
    let limit := if truthy (query req "limit")
                 then parseInt (query req "limit") else Int 0 in
    let n := if num_gt limit 0
             then (if num_ge limit 50000 then Int 50000 else limit)
             else Int 100 in
    dispatch req s = dispatch (without_param "q" req) s /\
    dispatch req s
    = let '(r, w) := storage getCompanies [VNum n] (world s) in
      (inl (responded
              match r with
              | inl companies =>
                  if num_gt limit 0 then
                    match get companies "length" with
                    | inl _ => respond 200 companies
                    | inr _ => respond 500 (msg "Failed to fetch companies")
                    end
                  else respond 200 companies
              | inr _ => respond 500 (msg "Failed to fetch companies")
              end),
       {| world := w; calls := calls s ++ [(getCompanies, [VNum n])] |}).
Proof.
  intros req s q Hm Hp Hq Hun limit n.
  assert (Hm' : rmethod (without_param "q" req) = GET) by exact Hm.
  assert (Hp' : rpath (without_param "q" req) = ["api"; "companies"])
    by exact Hp.
  rewrite (dispatch_found _ _ _ (route_get_companies req Hm Hp)).
  rewrite (dispatch_found _ _ _ (route_get_companies _ Hm' Hp')).
  rewrite !serve_unguarded by reflexivity.
  cbn [callback app_get]. unfold get_api_companies.
  assert (Hq' : query (without_param "q" req) "q" = VUndef).
  { unfold query, without_param, with_query; cbn [rquery].
    now rewrite query_lookup_without. }
  assert (Hl : query (without_param "q" req) "limit" = query req "limit").
  { unfold query, without_param, with_query; cbn [rquery].
    now rewrite query_lookup_without. }
  rewrite Hq, Hq', Hl. fold limit.
  set (listing := fun searching : bool => _).
  set (failure := fun _ : exn => _).
  set (finish := fun resp : response => _).
  assert (Hfirst :
    (if truthy (VStr q) && negb (is_str (VStr q) "undefined")
     then bind (lift (get (VStr q) "length"))
            (fun l => ret (num_ge (to_number l) 2))
     else ret false) s = (@inl bool exn false, s)).
  { pose proof (not_searching q Hun) as Hns.
    destruct (truthy (VStr q) && negb (is_str (VStr q) "undefined")).
    - unfold bind, lift, ret. simpl. simpl in Hns. now rewrite Hns.
    - reflexivity. }
  assert (Hsame :
    bind (try_catch
            (bind (if truthy (VStr q) && negb (is_str (VStr q) "undefined")
                   then bind (lift (get (VStr q) "length"))
                          (fun l => ret (num_ge (to_number l) 2))
                   else ret false) listing) failure) finish s
    = bind (try_catch (listing false) failure) finish s).
  { apply bind_cong, try_catch_cong, bind_returns, Hfirst. }
  rewrite Hsame. clear Hsame Hfirst.
  split; [reflexivity |].
  subst listing failure finish n. cbv beta iota.
  unfold bind, try_catch, call_storage, lift, ret.
  destruct (num_gt limit 0).
  - destruct (storage getCompanies
                [VNum (if num_ge limit 50000 then Int 50000 else limit)]
                (world s)) as [[v | e] w]; [| reflexivity].
    destruct (get v "length"); reflexivity.
  - destruct (storage getCompanies [VNum (Int 100)] (world s))
      as [[v | e] w]; reflexivity.
Qed.

Lemma filter_result_total (jobs : list val) :
  Forall (fun job => nullish job = false) jobs ->
  filter_result isActive_true jobs = inl (filter isActive_is_true jobs).
Proof.
  induction 1 as [| job rest Hjob Hrest IH]; simpl; [reflexivity |].
  rewrite IH. unfold isActive_true, isActive_is_true.
  destruct job; try discriminate; simpl.
  - reflexivity.
  - reflexivity.
  - reflexivity.
  - destruct (String.eqb "isActive" "length"); reflexivity.
  - destruct (lookup "isActive" props) as [| | [|] | | | |]; reflexivity.
Qed.

(** C10. When storage returns the company's jobs as a list of records,
    the [openJobs] of GET /api/companies/:id/details are those whose
    [isActive] is the boolean [true], in storage's order, and [vendors]
    is what [getClientVendors] returned, untouched. *)
Theorem C10_open_jobs_are_the_active_ones :
  forall (req : request) (s : state W) (idText : string) (id : Z)
         (jobs : list val) (vendors : val) (w1 w2 : W),
    rmethod req = GET ->
    rpath req = ["api"; "companies"; idText; "details"] ->
    parseInt (VStr idText) = Int id ->
    storage getJobsByCompany [VNum (Int id)] (world s)
    = (inl (VArr jobs), w1) ->
    Forall (fun job => nullish job = false) jobs ->
    storage getClientVendors [VNum (Int id)] w1 = (inl vendors, w2) ->
    (exists s',
       dispatch req s
       = (inl (responded
                 (respond 200
                    (VObj [("openJobs", VArr (filter isActive_is_true jobs));
                           ("vendors", vendors)]))),
          s'))
    /\ (forall job,
          In job (filter isActive_is_true jobs) <->
          In job jobs /\ get job "isActive" = inl (VBool true)).
Proof.
  intros req s idText id jobs vendors w1 w2 Hm Hp Hid Hjobs Hrec Hvend.
  split.
  - destruct (parseInt_nonempty idText id Hid) as (c & rest & ->).
    rewrite (dispatch_found _ _ _
               (route_get_companies_id_details req c rest Hm Hp)).
    rewrite serve_unguarded by reflexivity. cbn [callback app_get].
    unfold get_api_companies_id_details. simpl param. rewrite Hid.
    change (isNaN (Int id)) with false.
    unfold try_catch, bind, call_storage, lift, ret, array_filter.
    cbv beta iota. rewrite Hjobs. cbv beta iota.
    rewrite (filter_result_total jobs Hrec). cbn [world].
    rewrite Hvend. eexists. reflexivity.
  - intro job. rewrite filter_In. unfold isActive_is_true.
    split; intros [Hin Hact]; split; auto.
    + destruct (get job "isActive") as [[| | [|] | | | |] | e];
        try discriminate; reflexivity.
    + now rewrite Hact.
Qed.

End Companies.

(** ** Identifiers that do not parse, and jobs that do not exist *)

Section Jobs.
Context {W : Type} `{Collaborators W}.

Lemma nonempty_text (text : string) :
  text <> "" -> exists c rest, text = String c rest.
Proof. destruct text as [| c rest]; [congruence | eauto]. Qed.

(** What the first registration of GET /api/jobs/:id does with any
    identifier text: it asks storage for the job numbered by [parseInt],
    whether or not that is a number. *)
Lemma get_job_asks_storage (req : request) (s : state W) (idText : string) :
  rmethod req = GET -> rpath req = ["api"; "jobs"; idText] -> idText <> "" ->
  dispatch req s
  = bind (get_api_jobs_id [("id", idText)] req)
      (fun resp => ret (responded resp)) s.
Proof.
  intros Hm Hp Hne. destruct (nonempty_text idText Hne) as (c & rest & ->).
  rewrite (dispatch_found _ _ _ (route_get_jobs_id req c rest Hm Hp)).
  now rewrite serve_unguarded by reflexivity.
Qed.

(** C1. An identifier that [parseInt] cannot read is not rejected by
    GET /api/jobs/:id: the handler hands [NaN] to [storage.getJob], the
    response never has status 400, and it has status 500 whenever storage
    rejects the call. *)
Theorem C1_unparseable_job_id_reaches_storage :
  forall (req : request) (s : state W) (idText : string),
    rmethod req = GET ->
    rpath req = ["api"; "jobs"; idText] ->
    idText <> "" ->
    parseInt (VStr idText) = NaN ->
    exists r s',
      dispatch req s = (inl (responded r), s') /\
      status r <> 400 /\
      calls s' = (calls s ++ [(getJob, [VNum NaN])])%list /\
      (forall e w,
         storage getJob [VNum NaN] (world s) = (inr e, w) -> status r = 500).
Proof.
  intros req s idText Hm Hp Hne Hnan.
  rewrite (get_job_asks_storage req s idText Hm Hp Hne).
  unfold get_api_jobs_id. simpl param. rewrite Hnan.
  unfold try_catch, bind, call_storage, ret. cbv beta iota.
  destruct (storage getJob [VNum NaN] (world s)) as [[job | e] w] eqn:E.
  - destruct (truthy job); cbn [negb];
      do 2 eexists; (split; [reflexivity |]); cbn [status calls respond];
      (split; [lia |]); (split; [reflexivity |]); intros; discriminate.
  - do 2 eexists. split; [reflexivity |]. cbn [status calls respond].
    split; [lia |]. split; [reflexivity |]. reflexivity.
Qed.

(** DELETE /api/applications/:id has no check either: with storage
    accepting the call, an unparseable identifier is answered 200. *)
Lemma unparseable_application_id_reaches_storage :
  forall (req : request) (s : state W) (idText : string),
    rmethod req = DELETE ->
    rpath req = ["api"; "applications"; idText] ->
    idText <> "" ->
    parseInt (VStr idText) = NaN ->
    exists r s',
      dispatch req s = (inl (responded r), s') /\
      status r <> 400 /\
      calls s' = (calls s ++ [(deleteJobApplication, [VNum NaN])])%list.
Proof.
  intros req s idText Hm Hp Hne Hnan.
  destruct (nonempty_text idText Hne) as (c & rest & ->).
  rewrite (dispatch_found _ _ _
             (route_delete_applications_id req c rest Hm Hp)).
  rewrite serve_unguarded by reflexivity. cbn [callback app_delete].
  unfold delete_api_applications_id. simpl param. rewrite Hnan.
  unfold try_catch, bind, call_storage, ret. cbv beta iota.
  destruct (storage deleteJobApplication [VNum NaN] (world s))
    as [[v | e] w];
    do 2 eexists; (split; [reflexivity |]); cbn [status calls respond];
    (split; [lia | reflexivity]).
Qed.

(** On the reference store, which rejects the lookup of [NaN], the answer
    to GET /api/jobs/abc is 500. *)
Lemma unparseable_job_id_on_the_reference_store :
  dispatch (bare GET ["api"; "jobs"; "abc"]) Sample.start
  = (inl (responded
            (respond 500 (VObj [("error", VStr "Failed to fetch job")]))),
     {| world := Sample.db0; calls := [(getJob, [VNum NaN])] |}).
Proof. reflexivity. Qed.

(** The handlers that do check, such as GET /api/companies/:id, answer
    400 without asking storage. *)
Lemma unparseable_company_id_is_rejected :
  forall (ps : params) (req : request) (s : state W),
    parseInt (param ps "id") = NaN ->
    get_api_companies_id ps req s
    = (inl (respond 400 (msg "Invalid company ID")), s).
Proof.
  intros ps req s Hnan. unfold get_api_companies_id, try_catch.
  now rewrite Hnan.
Qed.

(** C4. When storage has no job for the identifier, GET /api/jobs/:id
    answers 404 with the body [{error: "Job not found"}]: the first
    registration of the path serves the request. *)
Theorem C4_missing_job_body_has_error_key :
  forall (req : request) (s : state W) (idText : string) (job : val) (w : W),
    rmethod req = GET ->
    rpath req = ["api"; "jobs"; idText] ->
    idText <> "" ->
    storage getJob [VNum (parseInt (VStr idText))] (world s) = (inl job, w) ->
    truthy job = false ->
    dispatch req s
    = (inl (responded
              (respond 404 (VObj [("error", VStr "Job not found")]))),
       {| world := w;
          calls := calls s ++ [(getJob, [VNum (parseInt (VStr idText))])] |}).
Proof.
  intros req s idText job w Hm Hp Hne Hjob Hfalsy.
  rewrite (get_job_asks_storage req s idText Hm Hp Hne).
  unfold get_api_jobs_id. simpl param.
  unfold try_catch, bind, call_storage, ret. cbv beta iota.
  rewrite Hjob. cbv beta iota. now rewrite Hfalsy.
Qed.

(** The second registration of the path, which Express never reaches,
    is the one that answers [{message: "Job not found"}]. *)
Lemma second_registration_has_message_key :
  forall (ps : params) (req : request) (s : state W) (job : val) (w : W),
    storage getJob [VNum (parseInt (param ps "id"))] (world s) = (inl job, w) ->
    truthy job = false ->
    fst (get_api_jobs_id_second ps req s)
    = inl (respond 404 (msg "Job not found")).
Proof.
  intros ps req s job w Hjob Hfalsy.
  unfold get_api_jobs_id_second, try_catch, bind, call_storage, ret.
  cbv beta iota. rewrite Hjob. cbv beta iota. now rewrite Hfalsy.
Qed.

End Jobs.

(** ** Creating records *)

Section Creation.
Context {W : Type} `{Collaborators W}.

Lemma serve_authenticated (h : @handler W) (p : string) (ps : params)
    (req : request) :
  truthy (rsession_user req) = true ->
  serve (app_post p [authenticated] h) ps req
  = bind (h ps req) (fun resp => ret (responded resp)).
Proof.
  intro Hu. unfold serve. cbn [middlewares app_post run_middlewares].
  unfold isAuthenticated. now rewrite Hu.
Qed.

(** C2. When the schema rejects the payload of POST /api/experiences,
    whatever the error it throws, the response is 500 with the body
    [{message: "Failed to add experience"}]: no status 400, no [errors]
    list, and storage is not asked anything. *)
Theorem C2_rejected_experience_answers_500 :
  forall (req : request) (s : state W) (userId : val) (e : exn),
    rmethod req = POST ->
    rpath req = ["api"; "experiences"] ->
    truthy (rsession_user req) = true ->
    get (rsession_user req) "id" = inl userId ->
    schema_parse insertExperienceSchema
      (extend (rbody req) [("userId", userId)]) = inr e ->
    dispatch req s
    = (inl (responded (respond 500 (msg "Failed to add experience"))), s).
Proof.
  intros req s userId e Hm Hp Hu Hid Hparse.
  rewrite (dispatch_found _ _ _ (route_post_experiences req Hm Hp)).
  rewrite (serve_authenticated _ _ _ _ Hu).
  unfold post_api_experiences, user, parse, try_catch, bind, lift.
  now rewrite Hid, Hparse.
Qed.

(** POST /api/companies treats a rejected payload the same way. *)
Lemma rejected_company_answers_500 :
  forall (req : request) (s : state W) (e : exn),
    rmethod req = POST ->
    rpath req = ["api"; "companies"] ->
    schema_parse insertCompanySchema
      (extend (rbody req) [("userId", VStr "admin-krupa")]) = inr e ->
    dispatch req s
    = (inl (responded (respond 500 (msg "Failed to create company"))), s).
Proof.
  intros req s e Hm Hp Hparse.
  rewrite (dispatch_found _ _ _ (route_post_companies req Hm Hp)).
  rewrite serve_unguarded by reflexivity. cbn [callback app_post].
  unfold post_api_companies, parse, try_catch, bind, lift.
  now rewrite Hparse.
Qed.

(** POST /api/applications is the create route that does answer 400
    with the issues of a [ZodError]. *)
Lemma rejected_application_answers_400 :
  forall (ps : params) (req : request) (s : state W) (userId jobId : val)
         (m : string) (issues : val),
    get (rsession_user req) "id" = inl userId ->
    get (rbody req) "jobId" = inl jobId ->
    schema_parse insertJobApplicationSchema
      (extend (rbody req)
         [("jobId", VNum (parseInt jobId)); ("applicantId", userId);
          ("resumeUrl",
           match rupload req with
           | Some f => VStr ("/uploads/" ++ filename f)
           | None => VNull
           end)])
    = inr (ZodError m issues) ->
    post_api_applications ps req s
    = (inl (respond 400
              (VObj [("message", VStr "Invalid application data");
                     ("errors", issues)])), s).
Proof.
  intros ps req s userId jobId m issues Hid Hjob Hparse.
  unfold post_api_applications, user, parse, try_catch, bind, lift.
  now rewrite Hid, Hjob, Hparse.
Qed.

(** A resume whose extension is not .pdf, .doc or .docx is refused by
    the upload middleware: the handler does not run and storage is not
    asked to create anything. *)
Lemma disallowed_resume_is_refused :
  forall (req : request) (s : state W) (f : file),
    rmethod req = POST ->
    rpath req = ["api"; "applications"] ->
    truthy (rsession_user req) = true ->
    rupload req = Some f ->
    fieldname f = "resume" ->
    existsb (String.eqb (toLowerCase (extname (originalname f))))
      allowed_documents = false ->
    dispatch req s
    = (inl (next_error (Error "Only PDF, DOC, and DOCX files are allowed")),
       s).
Proof.
  intros req s f Hm Hp Hu Hf Hfield Hext.
  rewrite (dispatch_found _ _ _ (route_post_applications req Hm Hp)).
  unfold serve. cbn [middlewares app_post run_middlewares].
  unfold isAuthenticated. rewrite Hu.
  unfold single, fileFilter. rewrite Hf, Hfield.
  cbn [String.eqb Ascii.eqb Bool.eqb negb allowedTypes upload rejection].
  simpl String.eqb. cbv iota. cbn [negb].
  now rewrite Hext.
Qed.

End Creation.

(** ** The location of a new job *)

Section Location.
Context {W : Type} `{Collaborators W}.

Lemma jobData_keeps (k : string) (props : list (string * val)) (jobType : val) :
  k <> "recruiterId" -> k <> "employmentType" ->
  lookup k (extend_props (VObj props)
              [("recruiterId", VStr "admin-krupa");
               ("employmentType", or_else jobType (VStr "full_time"))])
  = lookup k props.
Proof.
  intros Hr He. unfold extend_props. simpl.
  rewrite lookup_set_other by assumption.
  now rewrite lookup_set_other by assumption.
Qed.


End Location.

(** ** The shape of error bodies *)

Section ErrorBodies.
Context {W : Type} `{Collaborators W}.

Lemma post_ret {A} (a : A) (Q : A -> Prop) : Q a -> post (W := W) (ret a) Q.
Proof. intros HQ s a' s' E. inversion E; subst; exact HQ. Qed.

Lemma post_bind {A B} (m : M W A) (k : A -> M W B) (Q : B -> Prop) :
  (forall a, post (k a) Q) -> post (bind m k) Q.
Proof.
  intros Hk s b s' E. unfold bind in E.
  destruct (m s) as [[a | e] s1]; [eapply Hk; eassumption | discriminate].
Qed.

Lemma post_try_catch {A} (m : M W A) (h : exn -> A) (Q : A -> Prop) :
  post m Q -> (forall e, Q (h e)) -> post (try_catch m h) Q.
Proof.
  intros Hm Hh s a s' E. unfold try_catch in E.
  destruct (m s) as [[a0 | e] s1] eqn:Em; inversion E; subst.
  - eapply Hm; eassumption.
  - apply Hh.
Qed.

Ltac post_step :=
  lazymatch goal with
  | |- post (try_catch _ _) _ => apply post_try_catch; [| intros ?]
  | |- post (bind _ _) _ => apply post_bind; intros ?
  | |- post (ret _) _ => apply post_ret
  | |- post (if ?b then _ else _) _ => destruct b
  | |- post (match ?x with _ => _ end) _ => destruct x
  | |- post (let _ := _ in _) _ => cbv zeta
  end.

Ltac error_ok_done :=
  repeat match goal with
         | |- context [if ?b then _ else _] => destruct b
         end;
  unfold error_ok, error_form, respond, msg; simpl; intros;
  first [ lia
        | left; eexists; reflexivity
        | right; split; [reflexivity | do 2 eexists; reflexivity] ].

Ltac head_of t :=
  lazymatch t with
  | ?f _ => head_of f
  | _ => t
  end.

Ltac handler_error_ok :=
  lazymatch goal with
  | |- post ?t _ => let h := head_of t in unfold h
  end;
  repeat post_step; error_ok_done.

(** Every handler but those of [other_error_shapes] answers an error
    in one of the two shapes, whatever the collaborators do. *)
Lemma callbacks_error_ok (rt : route) :
  In rt routes -> excepted rt = false ->
  forall ps req, post (callback rt ps req) error_ok.
Proof.
  intros Hin. simpl in Hin.
  repeat (destruct Hin as [<- | Hin];
          [ intro Hex;
            first [ discriminate Hex
                  | intros ps req;
                    cbn [callback app_get app_post app_put app_patch
                           app_delete];
                    handler_error_ok ]
          | ]).
  contradiction.
Qed.

(** The only response a middleware sends is the 401 of
    [isAuthenticated]. *)
Lemma middlewares_error_ok (ms : list middleware) (req : request)
    (r : response) :
  run_middlewares ms req = answered r -> error_form r.
Proof.
  induction ms as [| [| u field] ms IH]; simpl; intro E.
  - discriminate.
  - unfold isAuthenticated in E. destruct (truthy (rsession_user req)).
    + auto.
    + inversion E; subst. left. eexists; reflexivity.
  - destruct (single u field req); [auto | discriminate].
Qed.

(** C3. For a request served by any registration other than
    GET /api/test-db-connection, GET and PUT /api/jobs/:id, POST /api/jobs
    and GET /api/search/:query, a response with status 400 or above has
    the body [{message}] or, with status 400, [{message, errors}]. *)
Theorem C3_error_bodies_carry_a_message :
  forall (req : request) (s s' : state W) (rt : route) (ps : params)
         (r : response),
    find_route routes req = Some (rt, ps) ->
    excepted rt = false ->
    dispatch req s = (inl (responded r), s') ->
    400 <= status r ->
    error_form r.
Proof.
  intros req s s' rt ps r Hfind Hex Hrun Hstatus.
  destruct (find_route_In _ _ _ _ Hfind) as [Hin _].
  rewrite (dispatch_found _ _ _ Hfind) in Hrun. unfold serve in Hrun.
  destruct (run_middlewares (middlewares rt) req) as [| early | e] eqn:Emw.
  - unfold bind in Hrun.
    destruct (callback rt ps req s) as [[resp | e] s1] eqn:Ecb;
      [| discriminate].
    inversion Hrun; subst.
    exact (callbacks_error_ok rt Hin Hex ps req s r s' Ecb Hstatus).
  - inversion Hrun; subst. eapply middlewares_error_ok; eassumption.
  - discriminate.
Qed.

End ErrorBodies.

(** ** The status transition on the reference store *)

Section StatusTransition.

Lemma set_fields_status_twice (st by_ : val) (props : list (string * val)) :
  let fields := [("status", st); ("approvedBy", by_)] in
  Sample.set_fields fields (Sample.set_fields fields (VObj props))
  = Sample.set_fields fields (VObj props).
Proof.
  simpl. f_equal.
  rewrite (set_own "status" st).
  - now rewrite (set_own "approvedBy" by_) by apply own_set_same.
  - rewrite own_set_other by discriminate. apply own_set_same.
Qed.

Lemma field_is_id_set_fields (id : Z) (st by_ : val) (row : val) :
  Sample.field_is "id" id
    (Sample.set_fields [("status", st); ("approvedBy", by_)] row)
  = Sample.field_is "id" id row.
Proof.
  destruct row; try reflexivity. simpl.
  now rewrite !lookup_set_other by discriminate.
Qed.

Lemma update_row_twice (id : Z) (st by_ : val) (rows : list val) :
  let fields := [("status", st); ("approvedBy", by_)] in
  Sample.update_row id fields (Sample.update_row id fields rows)
  = Sample.update_row id fields rows.
Proof.
  intro fields. unfold Sample.update_row. rewrite map_map.
  apply map_ext. intro row.
  destruct (Sample.field_is "id" id row) eqn:E; [| now rewrite E].
  subst fields. rewrite field_is_id_set_fields, E.
  destruct row; try reflexivity. apply set_fields_status_twice.
Qed.

Lemma find_row_update_row (id : Z) (st by_ : val) (rows : list val)
    (props : list (string * val)) :
  Sample.find_row id rows = VObj props ->
  Sample.find_row id
    (Sample.update_row id [("status", st); ("approvedBy", by_)] rows)
  = Sample.set_fields [("status", st); ("approvedBy", by_)] (VObj props).
Proof.
  unfold Sample.find_row, Sample.update_row.
  induction rows as [| row rest IH]; simpl; [discriminate |].
  destruct (Sample.field_is "id" id row) eqn:E.
  - rewrite field_is_id_set_fields, E. now intros ->.
  - rewrite E. exact IH.
Qed.

(** PATCH /api/companies/:id/status adds nothing of its own to what
    storage does: whatever the collaborators, its answer is the company
    [updateCompanyStatus] resolves with, and the world after it is the
    world storage leaves. *)
Lemma status_change_delegates {W : Type} `{Collaborators W}
    (req : request) (s : state W) (idText : string) (id : Z)
    (st approvedBy company : val) (w : W) :
  rmethod req = PATCH ->
  rpath req = ["api"; "companies"; idText; "status"] ->
  parseInt (VStr idText) = Int id ->
  get (rbody req) "status" = inl st ->
  get (rbody req) "approvedBy" = inl approvedBy ->
  storage updateCompanyStatus
    [VNum (Int id); st; or_else approvedBy (VStr "admin-krupa")] (world s)
  = (inl company, w) ->
  dispatch req s
  = (inl (responded (respond 200 company)),
     {| world := w;
        calls := calls s
                 ++ [(updateCompanyStatus,
                      [VNum (Int id); st;
                       or_else approvedBy (VStr "admin-krupa")])] |}).
Proof.
  intros Hm Hp Hid Hstatus Hby Hstore.
  destruct (parseInt_nonempty idText id Hid) as (c & rest & ->).
  rewrite (dispatch_found _ _ _
             (route_patch_companies_id_status req c rest Hm Hp)).
  rewrite serve_unguarded by reflexivity. cbn [callback app_patch].
  unfold patch_api_companies_id_status. simpl param.
  rewrite Hid, Hstatus, Hby. change (isNaN (Int id)) with false.
  unfold try_catch, bind, lift, call_storage, ret. cbv beta iota.
  now rewrite Hstore.
Qed.

(** One status change on the reference store. *)
Lemma status_change_once (d : Sample.db) (log : list call) (req : request)
    (idText : string) (id : Z) (st approvedBy : val)
    (props : list (string * val)) :
  rmethod req = PATCH ->
  rpath req = ["api"; "companies"; idText; "status"] ->
  parseInt (VStr idText) = Int id ->
  get (rbody req) "status" = inl st ->
  get (rbody req) "approvedBy" = inl approvedBy ->
  Sample.find_row id (Sample.companies d) = VObj props ->
  let by_ := or_else approvedBy (VStr "admin-krupa") in
  let fields := [("status", st); ("approvedBy", by_)] in
  dispatch req {| world := d; calls := log |}
  = (inl (responded (respond 200 (Sample.set_fields fields (VObj props)))),
     {| world :=
          {| Sample.companies :=
               Sample.update_row id fields (Sample.companies d);
             Sample.jobs := Sample.jobs d;
             Sample.vendors := Sample.vendors d;
             Sample.clock := Sample.clock d |};
        calls := log ++ [(updateCompanyStatus, [VNum (Int id); st; by_])] |}).
Proof.
  intros Hm Hp Hid Hstatus Hby Hrow by_ fields.
  apply (status_change_delegates req {| world := d; calls := log |}
           idText id st approvedBy); try assumption.
  cbn [world storage Sample.collaborators Sample.run_storage].
  subst fields by_.
  now rewrite (find_row_update_row id st _ _ props Hrow).
Qed.

(** C8. On the reference store, approving a pending company through
    PATCH /api/companies/:id/status and sending the same request again
    gives the same response both times, the approved company, and the
    second request leaves the store as the first one left it. *)
Theorem C8_repeated_approval_changes_nothing :
  forall (d : Sample.db) (log : list call) (req : request)
         (idText : string) (id : Z) (props : list (string * val)),
    rmethod req = PATCH ->
    rpath req = ["api"; "companies"; idText; "status"] ->
    parseInt (VStr idText) = Int id ->
    get (rbody req) "status" = inl (VStr "approved") ->
    Sample.find_row id (Sample.companies d) = VObj props ->
    lookup "status" props = VStr "pending" ->
    exists company s1 s2,
      dispatch req {| world := d; calls := log |}
      = (inl (responded (respond 200 company)), s1) /\
      get company "status" = inl (VStr "approved") /\
      dispatch req s1 = (inl (responded (respond 200 company)), s2) /\
      world s2 = world s1.
Proof.
  intros d log req idText id props Hm Hp Hid Hstatus Hrow Hpending.
  destruct (get (rbody req) "approvedBy") as [approvedBy | e] eqn:Eby.
  2:{ destruct (rbody req); simpl in Hstatus, Eby; discriminate. }
  pose proof (status_change_once d log req idText id _ approvedBy props
                Hm Hp Hid Hstatus Eby Hrow) as Hfirst.
  pose proof (find_row_update_row id (VStr "approved")
                (or_else approvedBy (VStr "admin-krupa")) _ props Hrow)
    as Hrow1.
  pose proof (status_change_once
                {| Sample.companies :=
                     Sample.update_row id
                       [("status", VStr "approved");
                        ("approvedBy",
                         or_else approvedBy (VStr "admin-krupa"))]
                       (Sample.companies d);
                   Sample.jobs := Sample.jobs d;
                   Sample.vendors := Sample.vendors d;
                   Sample.clock := Sample.clock d |}
                (log ++ [(updateCompanyStatus,
                          [VNum (Int id); VStr "approved";
                           or_else approvedBy (VStr "admin-krupa")])])
                req idText id _ approvedBy _
                Hm Hp Hid Hstatus Eby Hrow1) as Hsecond.
  cbv zeta in Hfirst, Hsecond.
  cbn [Sample.companies Sample.jobs Sample.vendors Sample.clock] in Hsecond.
  revert Hfirst Hsecond.
  generalize (or_else approvedBy (VStr "admin-krupa")). intros by_.
  change (VObj (fold_left _ _ props))
    with (Sample.set_fields
            [("status", VStr "approved"); ("approvedBy", by_)] (VObj props)).
  rewrite (set_fields_status_twice (VStr "approved") by_ props).
  rewrite (update_row_twice id (VStr "approved") by_).
  intros Hfirst Hsecond.
  do 3 eexists. split; [exact Hfirst |]. split.
  - simpl. rewrite lookup_set_other by discriminate.
    now rewrite lookup_set_same.
  - split; [exact Hsecond | reflexivity].
Qed.

End StatusTransition.

(** ** Error messages stay inside *)

Section Exposure.
Context {W : Type} (C' C : Collaborators W).
Hypothesis Hsame : same_but_for_messages C' C.

Lemma same_result_refl {A} (r : result A) : same_result r r.
Proof. destruct r; simpl; [reflexivity | split; reflexivity]. Qed.

Lemma alike_ret {A} (a : A) : alike (W := W) (ret a) (ret a).
Proof. intro s. split; reflexivity. Qed.

Lemma alike_lift {A} (r : result A) : alike (W := W) (lift r) (lift r).
Proof. intro s. split; [apply same_result_refl | reflexivity]. Qed.

Lemma alike_bind {A B} (m' m : M W A) (k' k : A -> M W B) :
  alike m' m -> (forall a, alike (k' a) (k a)) ->
  alike (bind m' k') (bind m k).
Proof.
  intros Hm Hk s. destruct (Hm s) as [Hr Hs]. unfold bind.
  destruct (m' s) as [[a' | e'] s1'], (m s) as [[a | e] s1];
    simpl in *; subst; try contradiction.
  - apply Hk.
  - split; [assumption | reflexivity].
Qed.

Lemma alike_try_catch {A} (m' m : M W A) (h' h : exn -> A) :
  alike m' m -> (forall e' e, same_class e' e -> h' e' = h e) ->
  alike (try_catch m' h') (try_catch m h).
Proof.
  intros Hm Hh s. destruct (Hm s) as [Hr Hs]. unfold try_catch.
  destruct (m' s) as [[a' | e'] s1'], (m s) as [[a | e] s1];
    simpl in *; subst; try contradiction.
  - split; reflexivity.
  - split; [apply Hh; assumption | reflexivity].
Qed.

Lemma alike_promise_all2 {A B} (p1' p1 : M W A) (p2' p2 : M W B) :
  alike p1' p1 -> alike p2' p2 ->
  alike (promise_all2 p1' p2') (promise_all2 p1 p2).
Proof.
  intros H1 H2 s. destruct (H1 s) as [Hr1 Hs1]. unfold promise_all2.
  destruct (p1' s) as [r1' s1'], (p1 s) as [r1 s1]; simpl in *; subst.
  destruct (H2 s1) as [Hr2 Hs2].
  destruct (p2' s1) as [r2' s2'], (p2 s1) as [r2 s2]; simpl in *; subst.
  destruct r1' as [a' | e1'], r1 as [a | e1]; simpl in *; try contradiction;
    destruct r2' as [b' | e2'], r2 as [b | e2]; simpl in *;
    try contradiction; subst; split; solve [reflexivity | assumption].
Qed.

Lemma alike_call_storage (m : method) (args : list val) :
  alike (@call_storage W C' m args) (@call_storage W C m args).
Proof.
  intro s. destruct Hsame as (Hst & _). destruct (Hst m args (world s)) as [Hr Hw].
  unfold call_storage.
  destruct (@storage W C' m args (world s)) as [r' w'],
           (@storage W C m args (world s)) as [r w]; simpl in *.
  subst. split; [assumption | reflexivity].
Qed.

Lemma alike_parse (sc : schema) (v : val) :
  alike (@parse W C' sc v) (@parse W C sc v).
Proof.
  intro s. destruct Hsame as (_ & Hp & _). unfold parse, lift. simpl.
  split; [apply Hp | reflexivity].
Qed.

Lemma alike_now : alike (@now W C') (@now W C).
Proof.
  intro s. destruct Hsame as (_ & _ & _ & Hn). unfold now. simpl.
  split; [apply Hn | reflexivity].
Qed.

Lemma alike_rename (from to : string) :
  alike (@rename W C' from to) (@rename W C from to).
Proof.
  intro s. destruct Hsame as (_ & _ & Hrn & _).
  destruct (Hrn from to (world s)) as [Hr Hw]. unfold rename.
  destruct (@renameSync W C' from to (world s)) as [r' w'],
           (@renameSync W C from to (world s)) as [r w]; simpl in *.
  subst. split; [assumption | reflexivity].
Qed.

Ltac alike_step :=
  lazymatch goal with
  | |- alike (try_catch _ _) (try_catch _ _) =>
      apply alike_try_catch; [| intros ? ? [? ?]]
  | |- alike (bind _ _) (bind _ _) => apply alike_bind; [| intros ?]
  | |- alike (ret _) (ret _) => apply alike_ret
  | |- alike (lift _) (lift _) => apply alike_lift
  | |- alike (call_storage _ _) (call_storage _ _) => apply alike_call_storage
  | |- alike (parse _ _) (parse _ _) => apply alike_parse
  | |- alike (promise_all2 _ _) (promise_all2 _ _) => apply alike_promise_all2
  | |- alike now now => apply alike_now
  | |- alike (rename _ _) (rename _ _) => apply alike_rename
  | |- alike (if ?b then _ else _) _ => destruct b
  | |- alike (match ?x with _ => _ end) _ => destruct x
  end.

Ltac same_answer :=
  try reflexivity;
  repeat match goal with
         | E : isZodError _ = isZodError _ |- _ => rewrite E; clear E
         | E : errors_of _ = errors_of _ |- _ => rewrite E; clear E
         end;
  reflexivity.

Ltac head_of t :=
  lazymatch t with
  | ?f _ => head_of f
  | _ => t
  end.

Ltac handlers_alike :=
  lazymatch goal with
  | |- alike ?t _ => let h := head_of t in unfold h
  end;
  repeat alike_step; same_answer.

Lemma routes_alike : Forall2 route_alike (@routes W C') (@routes W C).
Proof.
  unfold routes.
  repeat (apply Forall2_cons;
          [ split; [reflexivity |]; split; [reflexivity |];
            split; [reflexivity |];
            intro Hex;
            first [ discriminate Hex
                  | intros ps req;
                    cbn [callback app_get app_post app_put app_patch
                           app_delete];
                    handlers_alike ]
          | ]).
  apply Forall2_nil.
Qed.

Lemma find_route_alike (rs' rs : list (@route W)) (req : request) rt ps :
  Forall2 route_alike rs' rs ->
  find_route rs req = Some (rt, ps) ->
  exists rt', find_route rs' req = Some (rt', ps) /\ route_alike rt' rt.
Proof.
  induction 1 as [| r' r rest' rest Hr Hrest IH]; simpl; [discriminate |].
  assert (Hm : matches r' req = matches r req).
  { destruct Hr as (Hv & Hp & _). unfold matches. now rewrite Hv, Hp. }
  rewrite Hm. destruct (matches r req) as [ps0 |].
  - intro E. inversion E; subst. eauto.
  - exact IH.
Qed.

(** Apart from GET /api/test-db-connection and POST /api/jobs, what a
    request ends with does not depend on the messages of the errors the
    collaborators throw. *)
Lemma error_messages_stay_inside :
  forall (req : request) (s s' : state W) (rt : route) (ps : params)
         (out : outcome),
    find_route (@routes W C) req = Some (rt, ps) ->
    exposes rt = false ->
    @dispatch W C req s = (inl out, s') ->
    @dispatch W C' req s = (inl out, s').
Proof.
  intros req s s' rt ps out Hfind Hex Hrun.
  destruct (find_route_alike _ _ req rt ps routes_alike Hfind)
    as (rt' & Hfind' & _ & _ & Hmw & Hcb).
  unfold dispatch in *. rewrite Hfind in Hrun. rewrite Hfind'.
  unfold serve in *. rewrite Hmw.
  destruct (run_middlewares (middlewares rt) req); try exact Hrun.
  destruct (alike_bind _ _ _ _ (Hcb Hex ps req)
              (fun resp => alike_ret (responded resp)) s) as [Hr Hs].
  rewrite Hrun in Hr, Hs. simpl in Hr, Hs.
  destruct (bind (callback rt' ps req) (fun resp => ret (responded resp)) s)
    as [[out' | e'] s1']; simpl in *; [| contradiction].
  now subst.
Qed.

End Exposure.

(** ** The theorems at work on the reference store *)

(** C5 on the query "Ac". *)
Lemma C5_short_query_witness :
  (String.length "Ac" < 3 \/ String.length (trim "Ac") < 3)%nat /\
  dispatch (with_query [("q", QStr "Ac")] (bare GET ["api"; "search"]))
    Sample.start
  = (inl (responded (respond 200 empty_search)), Sample.start).
Proof.
  split; [left; simpl; lia |].
  apply (C5_short_query_skips_storage
           (with_query [("q", QStr "Ac")] (bare GET ["api"; "search"]))
           Sample.start "Ac");
    [reflexivity | reflexivity | reflexivity | left; simpl; lia].
Defined.

(** C6 on the query "Acme": one company, the three jobs. *)
Lemma C6_search_witness :
  storage searchCompanies [VStr "Acme"; VNum (Int 10)] Sample.db0
  = (inl (VArr [Sample.acme]), Sample.db0) /\
  dispatch (with_query [("q", QStr "Acme")] (bare GET ["api"; "search"]))
    Sample.start
  = (inl (responded
            (respond 200
               (VObj [("companies", VArr [Sample.acme]);
                      ("jobs", VArr (Sample.jobs Sample.db0))]))),
     {| world := Sample.db0;
        calls := [(searchCompanies, [VStr "Acme"; VNum (Int 10)]);
                  (searchJobs, [VStr "Acme"; VObj []; VNum (Int 10)])] |}).
Proof.
  split; [reflexivity |].
  apply (C6_search_returns_both_results
           (with_query [("q", QStr "Acme")] (bare GET ["api"; "search"]))
           Sample.start "Acme" [Sample.acme] (Sample.jobs Sample.db0)
           Sample.db0 Sample.db0);
    [reflexivity | reflexivity | reflexivity | simpl; lia
     | reflexivity | reflexivity].
Defined.

(** C9 on [?q=A&limit=1], against [?limit=1]: one company is asked
    for. *)
Lemma C9_listing_witness :
  query (with_query [("q", QStr "A"); ("limit", QStr "1")]
           (bare GET ["api"; "companies"])) "q" = VStr "A" /\
  dispatch (with_query [("q", QStr "A"); ("limit", QStr "1")]
              (bare GET ["api"; "companies"])) Sample.start
  = dispatch (with_query [("limit", QStr "1")]
                (bare GET ["api"; "companies"])) Sample.start /\
  dispatch (with_query [("q", QStr "A"); ("limit", QStr "1")]
              (bare GET ["api"; "companies"])) Sample.start
  = (inl (responded (respond 200 (VArr [Sample.acme]))),
     {| world := Sample.db0; calls := [(getCompanies, [VNum (Int 1)])] |}).
Proof.
  split; [reflexivity |].
  exact (C9_unusable_query_lists_companies
           (with_query [("q", QStr "A"); ("limit", QStr "1")]
              (bare GET ["api"; "companies"]))
           Sample.start "A" eq_refl eq_refl eq_refl
           (or_intror (le_n 2))).
Defined.

(** C10 on company 1, whose jobs have [isActive] true, false and null. *)
Lemma C10_open_jobs_witness :
  storage getJobsByCompany [VNum (Int 1)] Sample.db0
  = (inl (VArr (Sample.jobs Sample.db0)), Sample.db0) /\
  exists s',
    dispatch (bare GET ["api"; "companies"; "1"; "details"]) Sample.start
    = (inl (responded
              (respond 200
                 (VObj [("openJobs",
                         VArr [Sample.job 1 "Acme engineer" (VBool true)]);
                        ("vendors", VArr [Sample.vendor1])]))),
       s').
Proof.
  split; [reflexivity |].
  apply (C10_open_jobs_are_the_active_ones
           (bare GET ["api"; "companies"; "1"; "details"])
           Sample.start "1" 1 (Sample.jobs Sample.db0)
           (VArr [Sample.vendor1]) Sample.db0 Sample.db0);
    [reflexivity | reflexivity | reflexivity | reflexivity
     | repeat constructor | reflexivity].
Defined.

(** C1 on GET /api/jobs/abc. *)
Lemma C1_unparseable_job_id_witness :
  parseInt (VStr "abc") = NaN /\
  exists r s',
    dispatch (bare GET ["api"; "jobs"; "abc"]) Sample.start
    = (inl (responded r), s') /\
    status r <> 400 /\
    calls s' = (calls Sample.start ++ [(getJob, [VNum NaN])])%list /\
    (forall e w,
       storage getJob [VNum NaN] (world Sample.start) = (inr e, w) ->
       status r = 500).
Proof.
  split; [reflexivity |].
  apply (C1_unparseable_job_id_reaches_storage
           (bare GET ["api"; "jobs"; "abc"]) Sample.start "abc");
    [reflexivity | reflexivity | discriminate | reflexivity].
Defined.

(** C2 on an empty body, which lacks title and company. *)
Lemma C2_rejected_experience_witness :
  schema_parse insertExperienceSchema
    (extend (VObj []) [("userId", VStr "u1")])
  = inr (ZodError "Required"
           (VArr [Sample.issue "title"; Sample.issue "company"])) /\
  dispatch (with_user Sample.alice (bare POST ["api"; "experiences"]))
    Sample.start
  = (inl (responded (respond 500 (msg "Failed to add experience"))),
     Sample.start).
Proof.
  split; [reflexivity |].
  apply (C2_rejected_experience_answers_500
           (with_user Sample.alice (bare POST ["api"; "experiences"]))
           Sample.start (VStr "u1")
           (ZodError "Required"
              (VArr [Sample.issue "title"; Sample.issue "company"])));
    reflexivity.
Defined.

(** C4 on GET /api/jobs/99999. *)
Lemma C4_missing_job_witness :
  storage getJob [VNum (Int 99999)] Sample.db0 = (inl VUndef, Sample.db0) /\
  dispatch (bare GET ["api"; "jobs"; "99999"]) Sample.start
  = (inl (responded
            (respond 404 (VObj [("error", VStr "Job not found")]))),
     {| world := Sample.db0; calls := [(getJob, [VNum (Int 99999)])] |}).
Proof.
  split; [reflexivity |].
  apply (C4_missing_job_body_has_error_key
           (bare GET ["api"; "jobs"; "99999"]) Sample.start "99999"
           VUndef Sample.db0);
    [reflexivity | reflexivity | discriminate | reflexivity | reflexivity].
Defined.


(** On the reference store the claim reads as it is worded: a body with
    a title and a company whose city, state and country are truthy is
    stored as one more job, the response, whose location is
    "city, state, country". *)
Lemma reference_store_keeps_the_location :
  forall (req : request) (s : state Sample.db) (props : list (string * val)),
    rmethod req = POST ->
    rpath req = ["api"; "jobs"] ->
    rbody req = VObj props ->
    truthy (lookup "city" props) = true ->
    truthy (lookup "state" props) = true ->
    truthy (lookup "country" props) = true ->
    nullish (lookup "title" props) = false ->
    nullish (lookup "companyId" props) = false ->
    exists row s',
      dispatch req s = (inl (responded (respond 200 row)), s') /\
      Sample.jobs (world s') = (Sample.jobs (world s) ++ [row])%list /\
      get row "location"
      = inl (VStr (to_string (lookup "city" props) ++ ", "
                   ++ to_string (lookup "state" props) ++ ", "
                   ++ to_string (lookup "country" props))).
Proof.
  intros req s props Hm Hp Hb Hcity Hstate Hcountry Htitle Hcompany.
  rewrite (dispatch_found _ _ _ (route_post_jobs req Hm Hp)).
  rewrite serve_unguarded by reflexivity. cbn [callback app_post].
  unfold post_api_jobs. rewrite Hb. cbn [get].
  unfold parse, try_catch, bind, lift, call_storage, ret.
  cbv beta iota zeta.
  unfold jobData_of. rewrite !jobData_keeps by discriminate.
  rewrite Hcity, Hstate, Hcountry. cbn [andb].
  set (location := VStr _).
  set (data := extend_props _ _).
  assert (Hr : lookup "recruiterId" data = VStr "admin-krupa").
  { subst data. unfold extend_props. simpl.
    rewrite lookup_set_other by discriminate. apply lookup_set_same. }
  assert (Ht : lookup "title" data = lookup "title" props)
    by (subst data; now rewrite jobData_keeps).
  assert (Hc : lookup "companyId" data = lookup "companyId" props)
    by (subst data; now rewrite jobData_keeps).
  cbn [schema_parse storage Sample.collaborators].
  unfold Sample.run_parse, Sample.missing, Sample.required. cbn [filter].
  rewrite !lookup_set_other by discriminate.
  rewrite Ht, Hc, Hr, Htitle, Hcompany. cbn [nullish].
  cbn [Sample.run_storage].
  eexists _, _. split; [reflexivity |]. split; [reflexivity |].
  cbn [get]. rewrite lookup_set_other by discriminate.
  now rewrite lookup_set_same.
Qed.


(** C3 on GET /api/companies/pending, which the reference store rejects. *)
Lemma C3_pending_companies_witness :
  dispatch (bare GET ["api"; "companies"; "pending"]) Sample.start
  = (inl (responded
            (respond 500 (msg "Failed to fetch pending companies"))),
     {| world := Sample.db0; calls := [(getPendingCompanies, [])] |}) /\
  error_form (respond 500 (msg "Failed to fetch pending companies")).
Proof.
  split; [reflexivity |].
  apply (C3_error_bodies_carry_a_message
           (bare GET ["api"; "companies"; "pending"])
           Sample.start
           {| world := Sample.db0; calls := [(getPendingCompanies, [])] |}
           (app_get "/api/companies/pending" [] get_api_companies_pending)
           []
           (respond 500 (msg "Failed to fetch pending companies")));
    [reflexivity | reflexivity | reflexivity | simpl; lia].
Defined.

(** C8 on company 2, which is pending. *)
Lemma C8_approve_globex_witness :
  lookup "status" [("id", VNum (Int 2)); ("name", VStr "Globex");
                   ("status", VStr "pending")] = VStr "pending" /\
  exists company s1 s2,
    dispatch (with_body (VObj [("status", VStr "approved")])
                (bare PATCH ["api"; "companies"; "2"; "status"]))
      Sample.start
    = (inl (responded (respond 200 company)), s1) /\
    get company "status" = inl (VStr "approved") /\
    dispatch (with_body (VObj [("status", VStr "approved")])
                (bare PATCH ["api"; "companies"; "2"; "status"])) s1
    = (inl (responded (respond 200 company)), s2) /\
    world s2 = world s1.
Proof.
  split; [reflexivity |].
  apply (C8_repeated_approval_changes_nothing
           Sample.db0 []
           (with_body (VObj [("status", VStr "approved")])
              (bare PATCH ["api"; "companies"; "2"; "status"]))
           "2" 2
           [("id", VNum (Int 2)); ("name", VStr "Globex");
            ("status", VStr "pending")]);
    reflexivity.
Defined.

(** ** Where the code departs from the stated behaviour *)

(** C3, as stated, fails. When the lookup of GET /api/test-db-connection
    is rejected with the error "query failed", the response is 500 with
    the body [{status: "error", error: "query failed"}]: no [message]
    field, and the text of the internal error in its place. *)
Lemma C3_test_db_connection_exposes_error :
  exists r s',
    dispatch (bare GET ["api"; "test-db-connection"]) Sample.start
    = (inl (responded r), s') /\
    storage getUserByEmail [VStr "test@example.com"] Sample.db0
    = (inr (Error "query failed"), Sample.db0) /\
    status r = 500 /\
    body r = VObj [("status", VStr "error"); ("error", VStr "query failed")] /\
    ~ error_form r.
Proof.
  do 2 eexists. split; [reflexivity |].
  split; [reflexivity |]. split; [reflexivity |]. split; [reflexivity |].
  intros [[m E] | [E _]]; discriminate.
Qed.

(** C9, as stated, fails. With [?q=a&limit=60000] the query is too
    short to search and the listing branch is taken, but the call is
    [getCompanies(50000)], not [getCompanies] with the limit given. *)
Lemma C9_limit_above_50000_is_cut :
  query (with_query [("q", QStr "a"); ("limit", QStr "60000")]
           (bare GET ["api"; "companies"])) "q" = VStr "a" /\
  parseInt (query (with_query [("q", QStr "a"); ("limit", QStr "60000")]
                     (bare GET ["api"; "companies"])) "limit")
  = Int 60000 /\
  exists r w,
    dispatch (with_query [("q", QStr "a"); ("limit", QStr "60000")]
                (bare GET ["api"; "companies"])) Sample.start
    = (inl (responded r),
       {| world := w; calls := [(getCompanies, [VNum (Int 50000)])] |}) /\
    (getCompanies, [VNum (Int 50000)])
    <> (getCompanies, [VNum (Int 60000)]).
Proof.
  split; [reflexivity |]. split; [reflexivity |].
  do 2 eexists. split; [reflexivity | discriminate].
Qed.


(** ** Which registrations are ever reached *)

Section Order.
Context {W : Type} `{Collaborators W}.

Lemma position_find (rs : list (@route W)) (req : request) rt ps :
  find_route rs req = Some (rt, ps) ->
  exists i, position rs req = Some i /\ nth_error rs i = Some rt.
Proof.
  induction rs as [| r rest IH]; simpl; [discriminate |].
  destruct (matches r req) as [ps' |].
  - intro E. inversion E; subst. exists 0%nat. auto.
  - intro E. destruct (IH E) as (i & Hpos & Hnth).
    exists (S i). rewrite Hpos. auto.
Qed.

Lemma position_first (rs : list (@route W)) (req : request) (i : nat) :
  position rs req = Some i ->
  (exists r ps, nth_error rs i = Some r /\ matches r req = Some ps) /\
  (forall j r, (j < i)%nat -> nth_error rs j = Some r -> matches r req = None).
Proof.
  revert i. induction rs as [| r0 rest IH]; intros i; simpl;
    [discriminate |].
  destruct (matches r0 req) as [ps |] eqn:E0.
  - intro E. inversion E; subst. split.
    + exists r0, ps. split; [reflexivity | exact E0].
    + intros j r Hj. lia.
  - destruct (position rest req) as [k |]; simpl; [| discriminate].
    intro E. inversion E; subst. destruct (IH k eq_refl) as [Hhit Hmiss].
    split; [exact Hhit |].
    intros [| j] r Hj; simpl.
    + intro Er. inversion Er; subst. exact E0.
    + apply Hmiss. lia.
Qed.

(** A registration that repeats an earlier one matches exactly the
    requests the earlier one matches. *)
Ltac repeats_of i j :=
  match goal with
  | Hhit : nth_error routes i = Some ?r, Hm : matches ?r ?req = Some _,
    Hmiss : forall j r, (j < i)%nat -> nth_error routes j = Some r -> _ |- _ =>
      simpl in Hhit; inversion Hhit; subst;
      assert (Hj : (j < i)%nat) by lia;
      specialize (Hmiss j _ Hj eq_refl);
      unfold matches in Hm, Hmiss; simpl in Hm, Hmiss;
      rewrite Hmiss in Hm; discriminate
  end.

(** X1. The eight registrations that repeat the method and path of an
    earlier one never serve a request: whatever the request, the
    registration that serves it is not one of them. *)
Theorem repeated_registrations_never_serve :
  forall (req : request) (rt : route) (ps : params),
    find_route routes req = Some (rt, ps) ->
    exists i,
      position routes req = Some i /\
      nth_error routes i = Some rt /\
      ~ In i repeated.
Proof.
  intros req rt ps Hfind.
  destruct (position_find _ _ _ _ Hfind) as (i & Hpos & Hnth).
  exists i. split; [exact Hpos |]. split; [exact Hnth |].
  destruct (position_first _ _ _ Hpos) as [(r & ps' & Hhit & Hm) Hmiss].
  unfold repeated. simpl.
  intros [<- | [<- | [<- | [<- | [<- | [<- | [<- | [<- | []]]]]]]]].
  - repeats_of 17%nat 16%nat.
  - repeats_of 32%nat 30%nat.
  - repeats_of 35%nat 33%nat.
  - repeats_of 56%nat 27%nat.
  - repeats_of 66%nat 57%nat.
  - repeats_of 67%nat 58%nat.
  - repeats_of 68%nat 59%nat.
  - repeats_of 69%nat 21%nat.
Qed.

(** X2. Every other registration is reached: the request made of its
    method and its path, with "1" for each parameter, is served by it. *)
Theorem every_other_registration_serves :
  forall (i : nat) (rt : route),
    nth_error routes i = Some rt ->
    ~ In i repeated ->
    position routes (example_request rt) = Some i.
Proof.
  intros i rt Hnth Hlive.
  assert (Hi : (i < length (@routes W H))%nat).
  { apply nth_error_Some. rewrite Hnth. discriminate. }
  simpl in Hi.
  do 70 (destruct i as [| i];
         [ first [ exfalso; apply Hlive; unfold repeated; simpl; tauto
                 | simpl in Hnth; inversion Hnth; subst; reflexivity ]
         | ]).
  lia.
Qed.

End Order.

(** X1 on GET /api/jobs/7, served by the registration at place 30. *)
Lemma repeated_registrations_witness :
  exists i,
    position routes (bare GET ["api"; "jobs"; "7"]) = Some i /\
    nth_error routes i
    = Some (app_get (W := Sample.db) "/api/jobs/:id" [] get_api_jobs_id) /\
    ~ In i repeated.
Proof.
  apply (repeated_registrations_never_serve
           (bare GET ["api"; "jobs"; "7"])
           (app_get "/api/jobs/:id" [] get_api_jobs_id) [("id", "7")]).
  reflexivity.
Defined.

(** X2 on the registration of DELETE /api/jobs/:id, at place 36. *)
Lemma every_other_registration_witness :
  position routes
    (example_request
       (app_delete (W := Sample.db) "/api/jobs/:id" [authenticated]
          delete_api_jobs_id))
  = Some 36%nat.
Proof.
  apply (every_other_registration_serves 36%nat
           (app_delete "/api/jobs/:id" [authenticated] delete_api_jobs_id)).
  - reflexivity.
  - unfold repeated. simpl. intuition discriminate.
Defined.

(** ** Who may ask *)

Section Gate.
Context {W : Type} `{Collaborators W}.

Lemma find_route_with_user (rs : list (@route W)) (u : val) (req : request) :
  find_route rs (with_user u req) = find_route rs req.
Proof.
  induction rs as [| r rest IH]; simpl; [reflexivity |].
  change (matches r (with_user u req)) with (matches r req).
  now rewrite IH.
Qed.

(** X3. A request without a session user to a registration that lists
    [isAuthenticated] is answered 401 [{message: "Authentication
    required"}]; the handler does not run and the state is as it was. *)
Theorem guarded_routes_turn_strangers_away :
  forall (req : request) (s : state W) (rt : route) (ps : params),
    find_route routes req = Some (rt, ps) ->
    guarded rt = true ->
    truthy (rsession_user req) = false ->
    dispatch req s
    = (inl (responded (respond 401 (msg "Authentication required"))), s).
Proof.
  intros req s rt ps Hfind Hg Hu.
  destruct (find_route_In _ _ _ _ Hfind) as [Hin _].
  rewrite (dispatch_found _ _ _ Hfind). clear Hfind.
  revert Hg. simpl in Hin.
  repeat (destruct Hin as [<- | Hin];
          [ intro Hg;
            first [ discriminate Hg
                  | unfold serve;
                    cbn [middlewares app_get app_post app_put app_patch
                           app_delete run_middlewares];
                    unfold isAuthenticated; rewrite Hu; reflexivity ]
          | ]).
  contradiction.
Qed.

(** X4. A registration that does not list [isAuthenticated] never looks
    at the session: the same request from any user, or from none, has
    the same outcome. *)
Theorem open_routes_ignore_the_session :
  forall (req : request) (u : val) (s : state W) (rt : route) (ps : params),
    find_route routes req = Some (rt, ps) ->
    guarded rt = false ->
    dispatch (with_user u req) s = dispatch req s.
Proof.
  intros req u s rt ps Hfind Hg.
  destruct (find_route_In _ _ _ _ Hfind) as [Hin _].
  unfold dispatch. rewrite find_route_with_user, Hfind. clear Hfind.
  revert Hg. simpl in Hin.
  repeat (destruct Hin as [<- | Hin];
          [ intro Hg; first [ discriminate Hg | reflexivity ] | ]).
  contradiction.
Qed.

End Gate.

(** X3 on DELETE /api/jobs/7 sent without a session. *)
Lemma guarded_routes_witness :
  dispatch (bare DELETE ["api"; "jobs"; "7"]) Sample.start
  = (inl (responded (respond 401 (msg "Authentication required"))),
     Sample.start).
Proof.
  apply (guarded_routes_turn_strangers_away
           (bare DELETE ["api"; "jobs"; "7"]) Sample.start
           (app_delete "/api/jobs/:id" [authenticated] delete_api_jobs_id)
           [("id", "7")]);
    reflexivity.
Defined.

(** X4 on DELETE /api/applications/5, with and without a session. *)
Lemma open_routes_witness :
  dispatch (with_user Sample.alice (bare DELETE ["api"; "applications"; "5"]))
    Sample.start
  = dispatch (bare DELETE ["api"; "applications"; "5"]) Sample.start.
Proof.
  apply (open_routes_ignore_the_session
           (bare DELETE ["api"; "applications"; "5"]) Sample.alice
           Sample.start
           (app_delete "/api/applications/:id" [] delete_api_applications_id)
           [("id", "5")]);
    reflexivity.
Defined.

(** ** What every request does, and does not *)

Section Footprint.
Context {W : Type} `{Collaborators W}.

Ltac head_of t :=
  lazymatch t with
  | ?f _ => head_of f
  | _ => t
  end.

Ltac post_step :=
  lazymatch goal with
  | |- post (try_catch _ _) _ => apply post_try_catch; [| intros ?]
  | |- post (bind _ _) _ => apply post_bind; intros ?
  | |- post (ret _) _ => apply post_ret
  | |- post (if ?b then _ else _) _ => destruct b
  | |- post (match ?x with _ => _ end) _ => destruct x
  end.

Ltac status_listed :=
  repeat match goal with
         | |- context [if ?b then _ else _] => destruct b
         end;
  unfold statuses; simpl; tauto.

Lemma callbacks_use_listed_statuses (rt : route) :
  In rt routes ->
  forall ps req, post (callback rt ps req) (fun r => In (status r) statuses).
Proof.
  intros Hin. simpl in Hin.
  repeat (destruct Hin as [<- | Hin];
          [ intros ps req;
            cbn [callback app_get app_post app_put app_patch app_delete];
            lazymatch goal with
            | |- post ?t _ => let h := head_of t in unfold h
            end;
            repeat post_step; status_listed
          | ]).
  contradiction.
Qed.

(** X5. Whatever the request and whatever the collaborators do, the
    status of a response is one of 200, 201, 400, 401, 403, 404 and
    500. *)
Theorem responses_use_seven_statuses :
  forall (req : request) (s s' : state W) (r : response),
    dispatch req s = (inl (responded r), s') ->
    In (status r) statuses.
Proof.
  intros req s s' r Hrun. unfold dispatch in Hrun.
  destruct (find_route routes req) as [[rt ps] |] eqn:Hfind;
    [| discriminate].
  destruct (find_route_In _ _ _ _ Hfind) as [Hin _].
  unfold serve in Hrun.
  destruct (run_middlewares (middlewares rt) req) as [| early | e] eqn:Emw.
  - unfold bind in Hrun.
    destruct (callback rt ps req s) as [[resp | e] s1] eqn:Ecb;
      [| discriminate].
    inversion Hrun; subst.
    exact (callbacks_use_listed_statuses rt Hin ps req s r s' Ecb).
  - inversion Hrun; subst.
    destruct (middlewares_error_ok _ _ _ Emw) as [[m Em] | [E400 _]].
    + clear Em. revert Emw. generalize (middlewares rt).
      induction l as [| [| u field] ms IH]; simpl; [discriminate | |].
      * unfold isAuthenticated. destruct (truthy (rsession_user req)); auto.
        intro E. inversion E; subst. unfold statuses; simpl; tauto.
      * destruct (single u field req); [auto | discriminate].
    + rewrite E400. unfold statuses; simpl; tauto.
  - discriminate.
Qed.

(** The rules of [adds]. *)
Lemma adds_ret {A} (n : nat) (a : A) : adds (W := W) n (ret a).
Proof.
  intros s r s' E. inversion E; subst. exists []. rewrite app_nil_r.
  split; [reflexivity | simpl; lia].
Qed.

Lemma adds_lift {A} (n : nat) (r : result A) : adds (W := W) n (lift r).
Proof.
  intros s r0 s' E. inversion E; subst. exists []. rewrite app_nil_r.
  split; [reflexivity | simpl; lia].
Qed.

Lemma adds_parse (n : nat) (sc : schema) (v : val) : adds n (parse sc v).
Proof. apply adds_lift. Qed.

Lemma adds_now (n : nat) : adds n now.
Proof.
  intros s r s' E. inversion E; subst. exists []. rewrite app_nil_r.
  split; [reflexivity | simpl; lia].
Qed.

Lemma adds_rename (n : nat) (from to : string) : adds n (rename from to).
Proof.
  intros s r s' E. unfold rename in E.
  destruct (renameSync from to (world s)) as [r0 w]. inversion E; subst.
  exists []. rewrite app_nil_r. split; [reflexivity | simpl; lia].
Qed.

Lemma adds_call (n : nat) (m : method) (args : list val) :
  adds (S n) (call_storage m args).
Proof.
  intros s r s' E. unfold call_storage in E.
  destruct (storage m args (world s)) as [r0 w]. inversion E; subst.
  exists [(m, args)]. split; [reflexivity | simpl; lia].
Qed.

Lemma adds_bind {A B} (n1 n2 : nat) (m : M W A) (k : A -> M W B) :
  adds n1 m -> (forall a, adds n2 (k a)) -> adds (n1 + n2) (bind m k).
Proof.
  intros Hm Hk s r s' E. unfold bind in E.
  destruct (m s) as [[a | e] s1] eqn:Em.
  - destruct (Hm _ _ _ Em) as (l1 & E1 & L1).
    destruct (Hk a _ _ _ E) as (l2 & E2 & L2).
    exists (l1 ++ l2)%list. rewrite E2, E1, app_assoc, length_app.
    split; [reflexivity | lia].
  - inversion E; subst. destruct (Hm _ _ _ Em) as (l1 & E1 & L1).
    exists l1. split; [exact E1 | lia].
Qed.

Lemma adds_try_catch {A} (n : nat) (m : M W A) (h : exn -> A) :
  adds n m -> adds n (try_catch m h).
Proof.
  intros Hm s r s' E. unfold try_catch in E.
  destruct (m s) as [[a | e] s1] eqn:Em; inversion E; subst;
    exact (Hm _ _ _ Em).
Qed.

Lemma adds_promise_all2 {A B} (n1 n2 : nat) (p1 : M W A) (p2 : M W B) :
  adds n1 p1 -> adds n2 p2 -> adds (n1 + n2) (promise_all2 p1 p2).
Proof.
  intros H1 H2 s r s' E. unfold promise_all2 in E.
  destruct (p1 s) as [r1 s1] eqn:E1. destruct (p2 s1) as [r2 s2] eqn:E2.
  destruct (H1 _ _ _ E1) as (l1 & L1 & N1).
  destruct (H2 _ _ _ E2) as (l2 & L2 & N2).
  assert (Es : s' = s2) by (destruct r1, r2; inversion E; reflexivity).
  subst s'. exists (l1 ++ l2)%list. rewrite L2, L1, app_assoc, length_app.
  split; [reflexivity | lia].
Qed.

(** One step through a handler, the bound split between a computation
    and what follows it by what the computation is. *)
Ltac adds_step :=
  lazymatch goal with
  | |- adds _ (try_catch _ _) => apply adds_try_catch
  | |- adds (S ?n) (bind (call_storage _ _) _) =>
      apply (adds_bind 1 n); [apply adds_call | intros ?]
  | |- adds ?n (bind (promise_all2 _ _) _) =>
      apply (adds_bind 2 0);
      [ apply (adds_promise_all2 1 1); apply adds_call | intros ? ]
  | |- adds ?n (bind _ _) => apply (adds_bind 0 n); [| intros ?]
  | |- adds _ (ret _) => apply adds_ret
  | |- adds _ (lift _) => apply adds_lift
  | |- adds _ (parse _ _) => apply adds_parse
  | |- adds _ now => apply adds_now
  | |- adds _ (rename _ _) => apply adds_rename
  | |- adds (S _) (call_storage _ _) => apply adds_call
  | |- adds _ (if ?b then _ else _) => destruct b
  | |- adds _ (match ?x with _ => _ end) => destruct x
  end.

Lemma callbacks_add_two_calls (rt : route) :
  In rt routes -> forall ps req, adds 2 (callback rt ps req).
Proof.
  intros Hin. simpl in Hin.
  repeat (destruct Hin as [<- | Hin];
          [ intros ps req;
            cbn [callback app_get app_post app_put app_patch app_delete];
            lazymatch goal with
            | |- adds _ ?t => let h := head_of t in unfold h
            end;
            repeat adds_step
          | ]).
  contradiction.
Qed.

(** X6. No request makes more than two calls to storage, and what a
    request finds in the log of calls it leaves there: the log after is
    the log before with at most two calls appended. *)
Theorem requests_make_at_most_two_calls :
  forall (req : request) (s s' : state W) (r : result outcome),
    dispatch req s = (r, s') ->
    exists l, calls s' = (calls s ++ l)%list /\ (length l <= 2)%nat.
Proof.
  intros req s s' r Hrun. unfold dispatch in Hrun.
  destruct (find_route routes req) as [[rt ps] |] eqn:Hfind.
  - destruct (find_route_In _ _ _ _ Hfind) as [Hin _].
    unfold serve in Hrun.
    destruct (run_middlewares (middlewares rt) req).
    + exact (adds_bind 2 0 _ _ (callbacks_add_two_calls rt Hin ps req)
               (fun resp => adds_ret 0 (responded resp)) s r s' Hrun).
    + exact (adds_ret 2 _ s r s' Hrun).
    + exact (adds_ret 2 _ s r s' Hrun).
  - exact (adds_ret 2 _ s r s' Hrun).
Qed.

End Footprint.

(** X5 on GET /api/jobs/99999, answered 404. *)
Lemma seven_statuses_witness :
  In (status (respond 404 (VObj [("error", VStr "Job not found")]))) statuses.
Proof.
  apply (responses_use_seven_statuses
           (bare GET ["api"; "jobs"; "99999"]) Sample.start
           {| world := Sample.db0; calls := [(getJob, [VNum (Int 99999)])] |}
           (respond 404 (VObj [("error", VStr "Job not found")]))).
  reflexivity.
Defined.

(** X6 on GET /api/companies/1/details, which makes two calls. *)
Lemma two_calls_witness :
  exists l,
    calls {| world := Sample.db0;
             calls := [(getJobsByCompany, [VNum (Int 1)]);
                       (getClientVendors, [VNum (Int 1)])] |}
    = (calls Sample.start ++ l)%list /\ (length l <= 2)%nat.
Proof.
  apply (requests_make_at_most_two_calls
           (bare GET ["api"; "companies"; "1"; "details"]) Sample.start
           {| world := Sample.db0;
              calls := [(getJobsByCompany, [VNum (Int 1)]);
                        (getClientVendors, [VNum (Int 1)])] |}
           (inl (responded
                   (respond 200
                      (VObj [("openJobs",
                              VArr [Sample.job 1 "Acme engineer" (VBool true)]);
                             ("vendors", VArr [Sample.vendor1])]))))).
  reflexivity.
Defined.

Section Denials.
Context {W : Type} `{Collaborators W}.

Ltac head_of t :=
  lazymatch t with
  | ?f _ => head_of f
  | _ => t
  end.

Lemma still_ret {A} (a : A) : still (W := W) (ret a).
Proof. intros s r s' E. now inversion E. Qed.

Lemma still_lift {A} (r : result A) : still (W := W) (lift r).
Proof. intros s r0 s' E. now inversion E. Qed.

Lemma still_parse (sc : schema) (v : val) : still (parse sc v).
Proof. apply still_lift. Qed.

Lemma still_now : still now.
Proof. intros s r s' E. now inversion E. Qed.

Lemma still_bind {A B} (m : M W A) (k : A -> M W B) :
  still m -> (forall a, still (k a)) -> still (bind m k).
Proof.
  intros Hm Hk s r s' E. unfold bind in E.
  destruct (m s) as [[a | e] s1] eqn:Em.
  - rewrite (Hm _ _ _ Em) in E. exact (Hk a _ _ _ E).
  - inversion E; subst. exact (Hm _ _ _ Em).
Qed.

Lemma quiet_ret (r : response) : quiet (W := W) (ret r).
Proof. intros s r0 s' E _. now inversion E. Qed.

Lemma quiet_bind_still {A} (m : M W A) (k : A -> M W response) :
  still m -> (forall a, quiet (k a)) -> quiet (bind m k).
Proof.
  intros Hm Hk s r s' E Hd. unfold bind in E.
  destruct (m s) as [[a | e] s1] eqn:Em; [| discriminate].
  rewrite (Hm _ _ _ Em) in E. exact (Hk a _ _ _ E Hd).
Qed.

Lemma quiet_bind_after {A} (m : M W A) (k : A -> M W response) :
  (forall a, post (k a) (fun r => ~ denies r)) -> quiet (bind m k).
Proof.
  intros Hk s r s' E Hd. unfold bind in E.
  destruct (m s) as [[a | e] s1]; [| discriminate].
  destruct (Hk a _ _ _ E Hd).
Qed.

Lemma quiet_try_catch (m : M W response) (h : exn -> response) :
  quiet m -> (forall e, ~ denies (h e)) -> quiet (try_catch m h).
Proof.
  intros Hm Hh s r s' E Hd. unfold try_catch in E.
  destruct (m s) as [[a | e] s1] eqn:Em; inversion E; subst.
  - exact (Hm _ _ _ Em Hd).
  - destruct (Hh e Hd).
Qed.

Ltac not_denying :=
  repeat match goal with
         | |- context [if ?b then _ else _] => destruct b
         end;
  unfold denies; simpl; intros [E | E]; discriminate E.

Ltac post_step :=
  lazymatch goal with
  | |- post (try_catch _ _) _ => apply post_try_catch; [| intros ?]
  | |- post (bind _ _) _ => apply post_bind; intros ?
  | |- post (ret _) _ => apply post_ret
  | |- post (if ?b then _ else _) _ => destruct b
  | |- post (match ?x with _ => _ end) _ => destruct x
  end.

Ltac still_step :=
  lazymatch goal with
  | |- still (bind _ _) => apply still_bind; [| intros ?]
  | |- still (ret _) => apply still_ret
  | |- still (lift _) => apply still_lift
  | |- still (parse _ _) => apply still_parse
  | |- still now => apply still_now
  | |- still (if ?b then _ else _) => destruct b
  | |- still (match ?x with _ => _ end) => destruct x
  end.

(** One step through a handler: what follows a call to storage or to
    the file system must not turn the caller away; anything else must
    leave the state alone. *)
Ltac quiet_step :=
  lazymatch goal with
  | |- quiet (try_catch _ _) =>
      apply quiet_try_catch; [| intros ?; not_denying]
  | |- quiet (bind (call_storage _ _) _) =>
      apply quiet_bind_after; intros ?; repeat post_step; not_denying
  | |- quiet (bind (promise_all2 _ _) _) =>
      apply quiet_bind_after; intros ?; repeat post_step; not_denying
  | |- quiet (bind (rename _ _) _) =>
      apply quiet_bind_after; intros ?; repeat post_step; not_denying
  | |- quiet (bind _ _) =>
      apply quiet_bind_still; [repeat still_step | intros ?]
  | |- quiet (ret _) => apply quiet_ret
  | |- quiet (if ?b then _ else _) => destruct b
  | |- quiet (match ?x with _ => _ end) => destruct x
  end.

Lemma callbacks_are_quiet (rt : route) :
  In rt routes -> forall ps req, quiet (callback rt ps req).
Proof.
  intros Hin. simpl in Hin.
  repeat (destruct Hin as [<- | Hin];
          [ intros ps req;
            cbn [callback app_get app_post app_put app_patch app_delete];
            lazymatch goal with
            | |- quiet ?t => let h := head_of t in unfold h
            end;
            repeat quiet_step
          | ]).
  contradiction.
Qed.

(** X7. A request that is turned away, with status 401 or 403, has
    changed nothing: no call to storage was made and the world is as it
    was. *)
Theorem denied_requests_change_nothing :
  forall (req : request) (s s' : state W) (r : response),
    dispatch req s = (inl (responded r), s') ->
    denies r ->
    s' = s.
Proof.
  intros req s s' r Hrun Hd. unfold dispatch in Hrun.
  destruct (find_route routes req) as [[rt ps] |] eqn:Hfind;
    [| discriminate].
  destruct (find_route_In _ _ _ _ Hfind) as [Hin _].
  unfold serve in Hrun.
  destruct (run_middlewares (middlewares rt) req).
  - unfold bind in Hrun.
    destruct (callback rt ps req s) as [[resp | e] s1] eqn:Ecb;
      [| discriminate].
    inversion Hrun; subst.
    exact (callbacks_are_quiet rt Hin ps req s r s' Ecb Hd).
  - now inversion Hrun.
  - discriminate.
Qed.

End Denials.

(** X7 on GET /api/admin/stats asked by a user who is not an
    administrator. *)
Lemma denied_requests_witness :
  dispatch (with_user Sample.alice (bare GET ["api"; "admin"; "stats"]))
    Sample.start
  = (inl (responded (respond 403 (msg "Access denied"))), Sample.start) /\
  Sample.start = Sample.start.
Proof.
  split; [reflexivity |].
  apply (denied_requests_change_nothing
           (with_user Sample.alice (bare GET ["api"; "admin"; "stats"]))
           Sample.start Sample.start (respond 403 (msg "Access denied")));
    [reflexivity | right; reflexivity].
Defined.

(** ** Limits, totals and counts *)

Section Limits.
Context {W : Type} `{Collaborators W}.

Ltac bools_to_props :=
  repeat match goal with
         | E : (_ <? _) = true |- _ => apply Z.ltb_lt in E
         | E : (_ <? _) = false |- _ => apply Z.ltb_ge in E
         | E : (_ <=? _) = true |- _ => apply Z.leb_le in E
         | E : (_ <=? _) = false |- _ => apply Z.leb_gt in E
         end.

(** The limit a search is given, and the limit a listing is given. *)
Lemma search_limit_bounds (limit : num) :
  exists n,
    (if num_gt limit 100 then num_min limit 1000 else Int 100) = Int n /\
    100 <= n <= 1000.
Proof.
  destruct limit as [| z]; simpl.
  - exists 100. split; [reflexivity | lia].
  - destruct (100 <? z) eqn:E; bools_to_props.
    + exists (Z.min z 1000). split; [reflexivity | lia].
    + exists 100. split; [reflexivity | lia].
Qed.

Lemma listing_limit_bounds (limit : num) :
  exists n,
    (if num_gt limit 0
     then (if num_ge limit 50000 then Int 50000 else limit)
     else Int 100) = Int n /\
    1 <= n <= 50000.
Proof.
  destruct limit as [| z]; simpl.
  - exists 100. split; [reflexivity | lia].
  - destruct (0 <? z) eqn:E0; [| exists 100; split; [reflexivity | lia]].
    destruct (50000 <=? z) eqn:E1; bools_to_props.
    + exists 50000. split; [reflexivity | lia].
    + exists z. split; [reflexivity | lia].
Qed.

(** X8. GET /api/companies makes exactly one call to storage, whatever
    the query: a listing of at least 1 and at most 50000 companies, or a
    search for at least 100 and at most 1000. *)
Theorem company_listing_limits :
  forall (req : request) (s s' : state W) (r : result outcome),
    rmethod req = GET ->
    rpath req = ["api"; "companies"] ->
    dispatch req s = (r, s') ->
    exists c,
      calls s' = (calls s ++ [c])%list /\
      ((exists n, c = (getCompanies, [VNum (Int n)]) /\ 1 <= n <= 50000) \/
       (exists q n,
          c = (searchCompanies, [q; VNum (Int n)]) /\ 100 <= n <= 1000)).
Proof.
  intros req s s' r Hm Hp Hrun.
  rewrite (dispatch_found _ _ _ (route_get_companies req Hm Hp)) in Hrun.
  rewrite serve_unguarded in Hrun by reflexivity.
  cbn [callback app_get] in Hrun. unfold get_api_companies in Hrun.
  set (limit := if truthy (query req "limit")
                then parseInt (query req "limit") else Int 0) in Hrun.
  destruct (search_limit_bounds limit) as (ns & Ens & Hns).
  destruct (listing_limit_bounds limit) as (nl & Enl & Hnl).
  assert (Hsearch :
    exists b,
      (if truthy (query req "q") && negb (is_str (query req "q") "undefined")
       then bind (lift (get (query req "q") "length"))
              (fun l => ret (num_ge (to_number l) 2))
       else ret false) s = (@inl bool exn b, s)).
  { destruct (query req "q") as [| | b | n | q | l | props]; simpl;
      try (eexists; reflexivity).
    - destruct b; eexists; reflexivity.
    - destruct n as [| z]; simpl; [| destruct (z =? 0)]; eexists; reflexivity.
    - destruct (negb (q =? "")%string && negb (q =? "undefined")%string);
        eexists; reflexivity. }
  destruct Hsearch as (searching & Hsearch).
  unfold try_catch in Hrun. unfold bind at 1 2 in Hrun.
  rewrite Hsearch in Hrun.
  destruct searching.
  - rewrite Ens in Hrun. unfold bind, call_storage, lift, ret in Hrun.
    destruct (storage searchCompanies [query req "q"; VNum (Int ns)] (world s))
      as [[v | e] w]; simpl in Hrun;
      [destruct (get v "length") |]; inversion Hrun; subst;
      eexists; (split; [reflexivity |]); right; eauto.
  - destruct (num_gt limit 0) eqn:Egt.
    + assert (Enl' : (if num_ge limit 50000 then Int 50000 else limit)
                     = Int nl) by exact Enl.
      rewrite Enl' in Hrun. unfold bind, call_storage, lift, ret in Hrun.
      destruct (storage getCompanies [VNum (Int nl)] (world s))
        as [[v | e] w]; simpl in Hrun;
        [destruct (get v "length") |]; inversion Hrun; subst;
        eexists; (split; [reflexivity |]); left; eauto.
    + inversion Enl; subst nl.
      unfold bind, call_storage, lift, ret in Hrun.
      destruct (storage getCompanies [VNum (Int 100)] (world s))
        as [[v | e] w]; simpl in Hrun; inversion Hrun; subst;
        eexists; (split; [reflexivity |]); left; eauto.
Qed.

End Limits.

(** ** Identifiers, printed and read back *)

Section Identifiers.
Context {W : Type} `{Collaborators W}.

Lemma digits_some (radix acc : Z) (c : ascii) (d : Z) (rest : string) :
  digit_of radix c = Some d ->
  digits radix (Some acc) (String c rest)
  = digits radix (Some (radix * acc + d)) rest.
Proof. intro E. cbn [digits]. now rewrite E. Qed.

Lemma digits_none (radix : Z) (c : ascii) (d : Z) (rest : string) :
  digit_of radix c = Some d ->
  digits radix None (String c rest) = digits radix (Some (radix * 0 + d)) rest.
Proof. intro E. cbn [digits]. now rewrite E. Qed.

Lemma digits_stop (n : Z) (t : string) :
  ends_number t = true -> digits 10 (Some n) t = Some n.
Proof.
  destruct t as [| c t]; [reflexivity |]. cbn [ends_number digits].
  now destruct (digit_of 10 c).
Qed.

(** Reading the digits of a decimal numeral continues the number read so
    far, whatever follows the numeral. *)
Lemma digits_of_numeral (d a : Decimal.uint) (t : string) :
  digits 10 (Some (Z.of_N (DecimalPos.Unsigned.of_lu a)))
    (NilEmpty.string_of_uint d ++ t)
  = digits 10 (Some (Z.of_N (DecimalPos.Unsigned.of_lu (Decimal.revapp d a))))
      t.
Proof.
  revert a. induction d; intro a;
    cbn [NilEmpty.string_of_uint Decimal.revapp String.append];
    [reflexivity | ..];
    erewrite digits_some by (vm_compute; reflexivity);
    rewrite <- IHd; do 2 f_equal;
    cbn [DecimalPos.Unsigned.of_lu]; lia.
Qed.

Lemma digits_of_numeral_start (d : Decimal.uint) (t : string) :
  d <> Decimal.Nil ->
  ends_number t = true ->
  digits 10 None (NilEmpty.string_of_uint d ++ t)
  = Some (Z.of_N (DecimalPos.Unsigned.of_lu (Decimal.rev d))).
Proof.
  intros Hne Ht. rewrite <- (digits_stop _ t Ht). unfold Decimal.rev.
  destruct d; [contradiction | ..];
    cbn [NilEmpty.string_of_uint Decimal.revapp String.append];
    erewrite digits_none by (vm_compute; reflexivity);
    rewrite <- digits_of_numeral; do 2 f_equal;
    cbn [DecimalPos.Unsigned.of_lu]; lia.
Qed.

Ltac first_character :=
  repeat match goal with
         | |- context [is_ws ?c] =>
             let b := eval vm_compute in (is_ws c) in
             change (is_ws c) with b
         end;
  cbv beta iota.

Ltac read_digits :=
  match goal with
  | |- context [digits 10 None ?S] => destruct (digits 10 None S)
  end;
  first [reflexivity | f_equal; lia].

(** A decimal numeral has no sign in front, and no [0x] unless it is a
    lone [0] that an [x] follows. *)
Lemma numeral_is_read_in_base_ten (sign : Z) (d : Decimal.uint) (t : string) :
  d <> Decimal.Nil ->
  (d = Decimal.D0 Decimal.Nil -> hex_mark t = false) ->
  (let s1 := NilEmpty.string_of_uint d ++ t in
   let '(radix, s2) :=
     match s1 with
     | String "0" (String "x" rest) => (16, rest)
     | String "0" (String "X" rest) => (16, rest)
     | _ => (10, s1)
     end in
   match digits radix None s2 with
   | None => NaN
   | Some n => Int (sign * n)
   end)
  = match digits 10 None (NilEmpty.string_of_uint d ++ t) with
    | Some n => Int (sign * n)
    | None => NaN
    end.
Proof.
  intros Hne Hhex.
  destruct d as [| d | d | d | d | d | d | d | d | d | d];
    [contradiction | ..];
    try (destruct d;
         cbn [NilEmpty.string_of_uint String.append]; cbv beta iota zeta;
         try read_digits).
  specialize (Hhex eq_refl).
  destruct t as [| c t]; [cbv beta iota zeta; read_digits |].
  destruct c as [[] [] [] [] [] [] [] []];
    try discriminate Hhex; cbv beta iota zeta; read_digits.
Qed.

Lemma numeral_of_positive (p : positive) :
  NilZero.string_of_uint (Pos.to_uint p)
  = NilEmpty.string_of_uint (Pos.to_uint p)
  /\ Pos.to_uint p <> Decimal.Nil
  /\ Pos.to_uint p <> Decimal.D0 Decimal.Nil.
Proof.
  pose proof (DecimalPos.Unsigned.to_uint_nonnil p) as Hne.
  pose proof (DecimalPos.Unsigned.of_to p) as Hof.
  repeat split.
  - unfold NilZero.string_of_uint.
    destruct (Pos.to_uint p); [contradiction | reflexivity ..].
  - exact Hne.
  - intro E. rewrite E in Hof. discriminate Hof.
Qed.

(** [parseInt] reads a printed integer back, and stops at the first
    character after it that is no digit. *)
Lemma parseInt_reads_the_leading_integer (z : Z) (t : string) :
  ends_number t = true ->
  (z = 0 -> hex_mark t = false) ->
  parseInt_string (string_of_Z z ++ t) = Int z.
Proof.
  intros Ht Hhex. unfold string_of_Z.
  destruct z as [| p | p]; cbn [Z.to_int]; unfold NilZero.string_of_int.
  - change (NilZero.string_of_uint (Decimal.D0 Decimal.Nil))
      with (NilEmpty.string_of_uint (Decimal.D0 Decimal.Nil)).
    transitivity
      (match
         digits 10 None
           (NilEmpty.string_of_uint (Decimal.D0 Decimal.Nil) ++ t)
       with
       | Some n => Int (1 * n)
       | None => NaN
       end).
    + rewrite <- (numeral_is_read_in_base_ten 1) by (auto; discriminate).
      reflexivity.
    + rewrite digits_of_numeral_start by (auto; discriminate).
      reflexivity.
  - destruct (numeral_of_positive p) as (-> & Hne & Hne0).
    transitivity
      (match digits 10 None (NilEmpty.string_of_uint (Pos.to_uint p) ++ t) with
       | Some n => Int (1 * n)
       | None => NaN
       end).
    + rewrite <- (numeral_is_read_in_base_ten 1) by (auto; contradiction).
      unfold parseInt_string.
      destruct (Pos.to_uint p); [contradiction | ..];
        cbn [NilEmpty.string_of_uint String.append trimStart];
        first_character; reflexivity.
    + rewrite digits_of_numeral_start by assumption.
      rewrite <- DecimalPos.Unsigned.of_uint_alt, DecimalPos.Unsigned.of_to.
      reflexivity.
  - destruct (numeral_of_positive p) as (-> & Hne & Hne0).
    transitivity
      (match digits 10 None (NilEmpty.string_of_uint (Pos.to_uint p) ++ t) with
       | Some n => Int (-1 * n)
       | None => NaN
       end).
    + rewrite <- (numeral_is_read_in_base_ten (-1)) by (auto; contradiction).
      unfold parseInt_string.
      cbn [String.append trimStart]. first_character. reflexivity.
    + rewrite digits_of_numeral_start by assumption.
      rewrite <- DecimalPos.Unsigned.of_uint_alt, DecimalPos.Unsigned.of_to.
      reflexivity.
Qed.

Lemma parseInt_reads_back_what_is_printed (z : Z) :
  parseInt (VStr (string_of_Z z)) = Int z.
Proof.
  unfold parseInt. cbn [to_string].
  rewrite <- (parseInt_reads_the_leading_integer z "") by reflexivity.
  f_equal. induction (string_of_Z z) as [| c s IH]; [reflexivity |].
  cbn [String.append]. now rewrite <- IH.
Qed.

Lemma string_of_Z_nonempty (z : Z) :
  exists c rest, string_of_Z z = String c rest.
Proof.
  unfold string_of_Z.
  destruct z as [| p | p]; cbn [Z.to_int]; unfold NilZero.string_of_int.
  - now exists "0"%char, ""%string.
  - destruct (numeral_of_positive p) as (-> & Hne & _).
    destruct (Pos.to_uint p); [contradiction | ..];
      cbn [NilEmpty.string_of_uint]; eauto.
  - eauto.
Qed.

Lemma route_delete_jobs_id (req : request) (c : ascii) (id : string) :
  rmethod req = DELETE -> rpath req = ["api"; "jobs"; String c id] ->
  find_route routes req
  = Some (app_delete "/api/jobs/:id" [authenticated] delete_api_jobs_id,
          [("id", String c id)]).
Proof.
  intros; match goal with req : request |- _ => destruct req end;
    simpl in *; subst; reflexivity.
Qed.

(** X9. The job card's delete button reaches the store: the request
    DELETE /api/jobs/${job.id} the card sends for a job whose id is a safe
    integer, from a signed-in user, makes exactly one storage call,
    [deleteJob(id)] with that same integer, and answers 200 when the call
    resolves and 500 when it rejects. *)
Theorem card_delete_reaches_deleteJob :
  forall (req : request) (s : state W) (id : Z),
    safe_integer id ->
    rmethod req = DELETE ->
    rpath req = ["api"; "jobs"; string_of_Z id] ->
    truthy (rsession_user req) = true ->
    dispatch req s
    = let '(r, w) := storage deleteJob [VNum (Int id)] (world s) in
      (inl (responded
              match r with
              | inl _ => respond 200 (msg "Job deleted successfully")
              | inr _ => respond 500 (msg "Failed to delete job")
              end),
       {| world := w; calls := calls s ++ [(deleteJob, [VNum (Int id)])] |}).
Proof.
  intros req s id _ Hm Hp Hu.
  destruct (string_of_Z_nonempty id) as (c & rest & E).
  assert (Hp' : rpath req = ["api"; "jobs"; String c rest])
    by now rewrite Hp, E.
  rewrite (dispatch_found _ _ _ (route_delete_jobs_id req c rest Hm Hp')).
  unfold serve. cbn [middlewares app_delete run_middlewares].
  unfold isAuthenticated. rewrite Hu.
  cbn [callback app_delete]. unfold delete_api_jobs_id. simpl param.
  rewrite <- E, parseInt_reads_back_what_is_printed.
  unfold try_catch, bind, call_storage, ret.
  destruct (storage deleteJob [VNum (Int id)] (world s)) as [[v | e] w];
    reflexivity.
Qed.

(** X10. GET /api/jobs/:id reads the identifier up to its first character
    that is no digit: a path whose last piece is a safe integer [id]
    followed by nothing or by any text that does not start with a digit
    (nor, after a lone 0, with x or X) asks the store for exactly that
    job, and the response is the job, 404 when there is none and 500 when
    the store fails. *)
Theorem job_id_is_read_up_to_the_first_non_digit :
  forall (req : request) (s : state W) (id : Z) (t : string),
    safe_integer id ->
    ends_number t = true ->
    (id = 0 -> hex_mark t = false) ->
    rmethod req = GET ->
    rpath req = ["api"; "jobs"; string_of_Z id ++ t] ->
    dispatch req s
    = let '(r, w) := storage getJob [VNum (Int id)] (world s) in
      (inl (responded
              match r with
              | inl job =>
                  if truthy job then respond 200 job
                  else respond 404 (VObj [("error", VStr "Job not found")])
              | inr _ =>
                  respond 500 (VObj [("error", VStr "Failed to fetch job")])
              end),
       {| world := w; calls := calls s ++ [(getJob, [VNum (Int id)])] |}).
Proof.
  intros req s id t _ Ht Hhex Hm Hp.
  destruct (string_of_Z_nonempty id) as (c & rest & E).
  assert (Hp' : rpath req = ["api"; "jobs"; String c (rest ++ t)])
    by now rewrite Hp, E.
  rewrite (dispatch_found _ _ _ (route_get_jobs_id req c _ Hm Hp')).
  rewrite serve_unguarded by reflexivity.
  cbn [callback app_get]. unfold get_api_jobs_id. simpl param.
  change (String c (rest ++ t)) with (String c rest ++ t)%string.
  rewrite <- E. unfold parseInt. cbn [to_string].
  rewrite parseInt_reads_the_leading_integer by assumption.
  unfold try_catch, bind, call_storage, ret.
  destruct (storage getJob [VNum (Int id)] (world s)) as [[job | e] w];
    [destruct (truthy job) |]; reflexivity.
Qed.

End Identifiers.

(** X9 on the card of job 2, deleted by a signed-in user. *)
Lemma card_delete_witness :
  dispatch (with_user Sample.alice (bare DELETE ["api"; "jobs"; "2"]))
    Sample.start
  = let '(r, w) := storage deleteJob [VNum (Int 2)] (world Sample.start) in
    (inl (responded
            match r with
            | inl _ => respond 200 (msg "Job deleted successfully")
            | inr _ => respond 500 (msg "Failed to delete job")
            end),
     {| world := w;
        calls := calls Sample.start ++ [(deleteJob, [VNum (Int 2)])] |}).
Proof.
  apply (card_delete_reaches_deleteJob
           (with_user Sample.alice (bare DELETE ["api"; "jobs"; "2"]))
           Sample.start 2);
    reflexivity.
Defined.

(** X10 on GET /api/jobs/2-senior-engineer, which is answered as
    GET /api/jobs/2. *)
Lemma job_id_witness :
  dispatch (bare GET ["api"; "jobs"; "2-senior-engineer"]) Sample.start
  = let '(r, w) := storage getJob [VNum (Int 2)] (world Sample.start) in
    (inl (responded
            match r with
            | inl job =>
                if truthy job then respond 200 job
                else respond 404 (VObj [("error", VStr "Job not found")])
            | inr _ =>
                respond 500 (VObj [("error", VStr "Failed to fetch job")])
            end),
     {| world := w;
        calls := calls Sample.start ++ [(getJob, [VNum (Int 2)])] |}).
Proof.
  apply (job_id_is_read_up_to_the_first_non_digit
           (bare GET ["api"; "jobs"; "2-senior-engineer"]) Sample.start
           2 "-senior-engineer");
    [reflexivity | reflexivity | discriminate | reflexivity | reflexivity].
Defined.

(** X8 on GET /api/companies?limit=60000, which asks for 50000. *)
Lemma company_listing_witness :
  exists c,
    calls (snd (dispatch
                  (with_query [("limit", QStr "60000")]
                     (bare GET ["api"; "companies"]))
                  Sample.start))
    = (calls Sample.start ++ [c])%list /\
    ((exists n, c = (getCompanies, [VNum (Int n)]) /\ 1 <= n <= 50000) \/
     (exists q n,
        c = (searchCompanies, [q; VNum (Int n)]) /\ 100 <= n <= 1000)).
Proof.
  apply (company_listing_limits
           (with_query [("limit", QStr "60000")]
              (bare GET ["api"; "companies"]))
           Sample.start
           (snd (dispatch
                   (with_query [("limit", QStr "60000")]
                      (bare GET ["api"; "companies"]))
                   Sample.start))
           (fst (dispatch
                   (with_query [("limit", QStr "60000")]
                      (bare GET ["api"; "companies"]))
                   Sample.start)));
    vm_compute; reflexivity.
Defined.

(** ** Totals and counts *)

Section Totals.
Context {W : Type} `{Collaborators W}.

Lemma count_or_zero (l : list val) :
  or_else (VNum (Int (Z.of_nat (length l)))) (VNum (Int 0))
  = VNum (Int (Z.of_nat (length l))).
Proof.
  unfold or_else. cbn [truthy].
  destruct (Z.eqb_spec (Z.of_nat (length l)) 0) as [E | E]; cbn [negb];
    [now rewrite E | reflexivity].
Qed.

(** What the handler makes of one of the two search results: the list,
    and its length. *)
Lemma listed_result (v : val) :
  (exists l, v = VArr l) \/ nullish v = true ->
  or_else v (VArr []) = VArr (listed v) /\
  exists n,
    opt_get v "length" = inl n /\
    or_else n (VNum (Int 0)) = VNum (Int (Z.of_nat (length (listed v)))).
Proof.
  intros [[l ->] | Hn].
  - split; [reflexivity |]. eexists. split; [reflexivity |].
    apply count_or_zero.
  - destruct v; try discriminate Hn; split; try reflexivity;
      exists VUndef; split; reflexivity.
Qed.

(** X11. GET /api/search/:query with a query of two characters or more
    answers with both results and their total: when the two searches
    resolve, each with an array or with nothing, [companies] and [jobs]
    are the arrays (empty for nothing) and [total] is the sum of their
    lengths; the two searches are the only storage calls. *)
Theorem path_search_totals_both_results :
  forall (req : request) (s : state W) (q : string) (cv jv : val)
         (w1 w2 : W),
    let limit := if truthy (query req "limit")
                 then parseInt (query req "limit") else Int 10 in
    rmethod req = GET ->
    rpath req = ["api"; "search"; q] ->
    (2 <= String.length q)%nat ->
    storage searchCompanies [VStr q; VNum limit] (world s) = (inl cv, w1) ->
    storage searchJobs [VStr q; VObj [("limit", VNum limit)]] w1
    = (inl jv, w2) ->
    (exists l, cv = VArr l) \/ nullish cv = true ->
    (exists l, jv = VArr l) \/ nullish jv = true ->
    dispatch req s
    = (inl (responded
              (respond 200
                 (VObj [("companies", VArr (listed cv));
                        ("jobs", VArr (listed jv));
                        ("total",
                         VNum (Int (Z.of_nat (length (listed cv))
                                    + Z.of_nat (length (listed jv)))))]))),
       {| world := w2;
          calls := calls s
                   ++ [(searchCompanies, [VStr q; VNum limit]);
                       (searchJobs,
                        [VStr q; VObj [("limit", VNum limit)]])] |}).
Proof.
  intros req s q cv jv w1 w2 limit Hm Hp Hlong Hc Hj Hcv Hjv.
  destruct q as [| c rest]; [simpl in Hlong; lia |].
  rewrite (dispatch_found _ _ _ (route_get_search_query req c rest Hm Hp)).
  rewrite serve_unguarded by reflexivity. cbn [callback app_get].
  unfold get_api_search_query. simpl param. fold limit.
  assert (Hshort : num_lt (Int (len (String c rest))) 2 = false).
  { unfold num_lt, len. apply Z.ltb_ge. lia. }
  destruct (listed_result cv Hcv) as (Ecs & nc & Enc & Ec).
  destruct (listed_result jv Hjv) as (Ejs & nj & Enj & Ej).
  unfold try_catch, bind, promise_all2, call_storage, lift, ret.
  cbn [truthy negb get to_number String.eqb Ascii.eqb Bool.eqb].
  change (if ("length" =? "length")%string
          then VNum (Int (len (String c rest))) else VUndef)
    with (VNum (Int (len (String c rest)))).
  cbn [to_number]. rewrite Hshort. rewrite Hc. cbn [world]. rewrite Hj.
  rewrite Enc, Enj, Ecs, Ejs, Ec, Ej. cbn [js_add to_number num_add calls].
  rewrite <- app_assoc. reflexivity.
Qed.

Ltac route_by_computation :=
  intros;
  match goal with req : request |- _ => destruct req end;
  simpl in *; subst; reflexivity.

Lemma route_get_admin_stats (req : request) :
  rmethod req = GET -> rpath req = ["api"; "admin"; "stats"] ->
  find_route routes req
  = Some (app_get "/api/admin/stats" [authenticated] get_api_admin_stats, []).
Proof. route_by_computation. Qed.

Lemma route_get_jobs (req : request) :
  rmethod req = GET -> rpath req = ["api"; "jobs"] ->
  find_route routes req = Some (app_get "/api/jobs" [] get_api_jobs, []).
Proof. route_by_computation. Qed.

Lemma is_str_other (v : val) (lit : string) :
  v <> VStr lit -> is_str v lit = false.
Proof.
  intro Hne. destruct v; try reflexivity. cbn [is_str].
  destruct (String.eqb_spec s lit); [subst; contradiction | reflexivity].
Qed.

(** X12. The statistics are for the two administrators only: a signed-in
    user whose email is not one of the two addresses gets 403 "Access
    denied", and storage is not asked anything. *)
Theorem stats_are_for_the_administrators :
  forall (req : request) (s : state W) (email : val),
    rmethod req = GET ->
    rpath req = ["api"; "admin"; "stats"] ->
    truthy (rsession_user req) = true ->
    get (rsession_user req) "email" = inl email ->
    (forall a, In a admins -> email <> VStr a) ->
    dispatch req s
    = (inl (responded (respond 403 (msg "Access denied"))), s).
Proof.
  intros req s email Hm Hp Hu He Hno.
  rewrite (dispatch_found _ _ _ (route_get_admin_stats req Hm Hp)).
  unfold serve. cbn [middlewares app_get run_middlewares].
  unfold isAuthenticated. rewrite Hu.
  cbn [callback app_get]. unfold get_api_admin_stats, user.
  unfold try_catch, bind, lift, ret. rewrite He.
  rewrite !is_str_other by (apply Hno; simpl; auto).
  reflexivity.
Qed.

Lemma filter_not_closed (jobs : list val) :
  Forall (fun job => nullish job = false) jobs ->
  filter_result status_not_closed jobs = inl (filter open_job jobs).
Proof.
  induction 1 as [| job rest Hjob Hrest IH]; simpl; [reflexivity |].
  rewrite IH. unfold status_not_closed, open_job.
  destruct job; try discriminate; reflexivity.
Qed.

(** X13. For an administrator, [activeJobs] is the number of jobs, among
    the up to 1000 that [getJobs({}, 1000)] returns, whose status is not
    [closed]; the three other figures are always 0. *)
Theorem stats_count_the_jobs_not_closed :
  forall (req : request) (s : state W) (a : string) (jobs : list val)
         (w : W),
    rmethod req = GET ->
    rpath req = ["api"; "admin"; "stats"] ->
    truthy (rsession_user req) = true ->
    get (rsession_user req) "email" = inl (VStr a) ->
    In a admins ->
    storage getJobs [VObj []; VNum (Int 1000)] (world s)
    = (inl (VArr jobs), w) ->
    Forall (fun job => nullish job = false) jobs ->
    dispatch req s
    = (inl (responded
              (respond 200
                 (VObj [("activeJobs",
                         VNum (Int (Z.of_nat (length (filter open_job jobs)))));
                        ("totalUsers", VNum (Int 0));
                        ("revenue", VNum (Int 0));
                        ("activeSessions", VNum (Int 0))]))),
       {| world := w;
          calls := calls s ++ [(getJobs, [VObj []; VNum (Int 1000)])] |}).
Proof.
  intros req s a jobs w Hm Hp Hu He Ha Hjobs Hrec.
  rewrite (dispatch_found _ _ _ (route_get_admin_stats req Hm Hp)).
  unfold serve. cbn [middlewares app_get run_middlewares].
  unfold isAuthenticated. rewrite Hu.
  cbn [callback app_get]. unfold get_api_admin_stats, user.
  unfold try_catch, bind, lift, ret, call_storage, array_filter.
  rewrite He.
  assert (Hadmin :
    negb (is_str (VStr a) "krupas@vedsoft.com")
    && negb (is_str (VStr a) "krupashankar@gmail.com") = false).
  { destruct Ha as [<- | [<- | []]]; reflexivity. }
  rewrite Hadmin, Hjobs. rewrite (filter_not_closed jobs Hrec).
  reflexivity.
Qed.

(** X14. A job search takes no limit: when [search] is given,
    GET /api/jobs answers exactly as the same request without [limit].
    Its one storage call is [searchJobs(search, filters)], with no third
    argument, where [filters] holds the [jobType], [experienceLevel] and
    [location] of the query string and the [companyId] read by
    [parseInt], [undefined] without one; the response is what the search
    resolves with, and 500 when it rejects or resolves with a value that
    has no [length] to log. *)
Theorem job_search_ignores_the_limit :
  forall (req : request) (s : state W),
    rmethod req = GET ->
    rpath req = ["api"; "jobs"] ->
    truthy (query req "search") = true ->
    let filters :=
      VObj [("jobType", query req "jobType");
            ("experienceLevel", query req "experienceLevel");
            ("location", query req "location");
            ("companyId",
             if truthy (query req "companyId")
             then VNum (parseInt (query req "companyId"))
             else VUndef)] in
    dispatch req s = dispatch (without_param "limit" req) s /\
    dispatch req s
    = let '(r, w) :=
        storage searchJobs [query req "search"; filters] (world s) in
      (inl (responded
              match r with
              | inl jobs =>
                  match get jobs "length" with
                  | inl _ => respond 200 jobs
                  | inr _ => respond 500 (msg "Failed to fetch jobs")
                  end
              | inr _ => respond 500 (msg "Failed to fetch jobs")
              end),
       {| world := w;
          calls := calls s
                   ++ [(searchJobs, [query req "search"; filters])] |}).
Proof.
  intros req s Hm Hp Hs filters.
  assert (Hm' : rmethod (without_param "limit" req) = GET) by exact Hm.
  assert (Hp' : rpath (without_param "limit" req) = ["api"; "jobs"])
    by exact Hp.
  assert (Hq : forall k, String.eqb k "limit" = false ->
                 query (without_param "limit" req) k = query req k).
  { intros k Hk. unfold query, without_param, with_query; cbn [rquery].
    rewrite query_lookup_without. now rewrite Hk. }
  rewrite (dispatch_found _ _ _ (route_get_jobs req Hm Hp)).
  rewrite (dispatch_found _ _ _ (route_get_jobs _ Hm' Hp')).
  rewrite !serve_unguarded by reflexivity.
  cbn [callback app_get]. unfold get_api_jobs.
  rewrite !Hq by reflexivity. rewrite Hs. fold filters.
  split; [reflexivity |].
  unfold try_catch, bind, lift, ret, call_storage.
  destruct (storage searchJobs [query req "search"; filters] (world s))
    as [[jobs | e] w]; [| reflexivity].
  destruct (get jobs "length"); reflexivity.
Qed.

End Totals.

(** ** What a posted job is made of *)

Section Posting.
Context {W : Type} `{Collaborators W}.


End Posting.

(** X11 on GET /api/search/Ac: one company and three jobs, four in all. *)
Lemma path_search_witness :
  dispatch (bare GET ["api"; "search"; "Ac"]) Sample.start
  = (inl (responded
            (respond 200
               (VObj [("companies", VArr (listed (VArr [Sample.acme])));
                      ("jobs", VArr (listed (VArr (Sample.jobs Sample.db0))));
                      ("total",
                       VNum (Int (Z.of_nat
                                    (length (listed (VArr [Sample.acme])))
                                  + Z.of_nat
                                      (length
                                         (listed
                                            (VArr (Sample.jobs
                                                     Sample.db0)))))))]))),
     {| world := Sample.db0;
        calls := calls Sample.start
                 ++ [(searchCompanies, [VStr "Ac"; VNum (Int 10)]);
                     (searchJobs,
                      [VStr "Ac"; VObj [("limit", VNum (Int 10))]])] |}).
Proof.
  apply (path_search_totals_both_results
           (bare GET ["api"; "search"; "Ac"]) Sample.start "Ac"
           (VArr [Sample.acme]) (VArr (Sample.jobs Sample.db0))
           Sample.db0 Sample.db0);
    [reflexivity | reflexivity | simpl; lia | reflexivity | reflexivity
    | left; eexists; reflexivity | left; eexists; reflexivity].
Defined.

(** X12 on a signed-in user who is no administrator. *)
Lemma stats_refused_witness :
  dispatch (with_user Sample.alice (bare GET ["api"; "admin"; "stats"]))
    Sample.start
  = (inl (responded (respond 403 (msg "Access denied"))), Sample.start).
Proof.
  apply (stats_are_for_the_administrators
           (with_user Sample.alice (bare GET ["api"; "admin"; "stats"]))
           Sample.start (VStr "a@x.org"));
    [reflexivity | reflexivity | reflexivity | reflexivity |].
  intros a [<- | [<- | []]]; discriminate.
Defined.

(** X13 on a board of three postings, one of them closed. *)
Lemma stats_count_witness :
  @dispatch (list val) Board.collaborators
    (with_user Board.admin (bare GET ["api"; "admin"; "stats"])) Board.start
  = (inl (responded
            (respond 200
               (VObj [("activeJobs",
                       VNum (Int (Z.of_nat
                                    (length
                                       (filter open_job
                                          (world Board.start))))));
                      ("totalUsers", VNum (Int 0));
                      ("revenue", VNum (Int 0));
                      ("activeSessions", VNum (Int 0))]))),
     {| world := world Board.start;
        calls := calls Board.start
                 ++ [(getJobs, [VObj []; VNum (Int 1000)])] |}).
Proof.
  apply (@stats_count_the_jobs_not_closed (list val) Board.collaborators
           (with_user Board.admin (bare GET ["api"; "admin"; "stats"]))
           Board.start "krupas@vedsoft.com" (world Board.start)
           (world Board.start));
    [reflexivity | reflexivity | reflexivity | reflexivity
    | simpl; auto | reflexivity |].
  repeat constructor.
Defined.

(** X14 on GET /api/jobs?search=Acme&limit=1. *)
Lemma job_search_witness :
  dispatch (with_query [("search", QStr "Acme"); ("limit", QStr "1")]
              (bare GET ["api"; "jobs"]))
    Sample.start
  = dispatch (without_param "limit"
                (with_query [("search", QStr "Acme"); ("limit", QStr "1")]
                   (bare GET ["api"; "jobs"])))
      Sample.start /\
  dispatch (with_query [("search", QStr "Acme"); ("limit", QStr "1")]
              (bare GET ["api"; "jobs"]))
    Sample.start
  = (inl (responded (respond 200 (VArr (Sample.jobs Sample.db0)))),
     {| world := Sample.db0;
        calls := [(searchJobs,
                   [VStr "Acme";
                    VObj [("jobType", VUndef); ("experienceLevel", VUndef);
                          ("location", VUndef); ("companyId", VUndef)]])] |}).
Proof.
  exact (job_search_ignores_the_limit
           (with_query [("search", QStr "Acme"); ("limit", QStr "1")]
              (bare GET ["api"; "jobs"]))
           Sample.start eq_refl eq_refl eq_refl).
Defined.


(** ** The job card *)

Section Card.
Import JobCard.

Lemma ceil_div_bounds (a d : Z) :
  0 < d -> d * (- ((- a) / d) - 1) < a <= d * - ((- a) / d).
Proof.
  intro Hd.
  pose proof (Z.div_mod (- a) d ltac:(lia)) as E.
  pose proof (Z.mod_pos_bound (- a) d Hd) as B.
  nia.
Qed.

Lemma ceil_div_unique (a d c : Z) :
  0 < d -> d * (c - 1) < a <= d * c -> - ((- a) / d) = c.
Proof.
  intros Hd Hc. pose proof (ceil_div_bounds a d Hd). nia.
Qed.

(** X16. A posting at most a day away from now, before or after, reads
    "1 day ago". *)
Theorem posting_within_a_day_reads_one_day :
  forall now posted : Z,
    0 < Z.abs (now - posted) <= 86400000 ->
    formatTimeAgo now (Int posted) = "1 day ago".
Proof.
  intros now posted Hd. unfold formatTimeAgo, num_ceil_div.
  change (1000 * 60 * 60 * 24) with 86400000.
  rewrite (ceil_div_unique (Z.abs (now - posted)) 86400000 1) by lia.
  reflexivity.
Qed.

(** X17. Between six and twenty-nine days the age is told in weeks,
    rounded up: the label is "w weeks ago" with [w] from 1 to 5, the
    least number of weeks that covers the age. *)
Theorem posting_of_the_month_reads_in_weeks :
  forall now posted : Z,
    6 * 86400000 < Z.abs (now - posted) <= 29 * 86400000 ->
    exists w,
      1 <= w <= 5 /\
      formatTimeAgo now (Int posted) = string_of_Z w ++ " weeks ago" /\
      7 * 86400000 * (w - 1) < Z.abs (now - posted) <= 7 * 86400000 * w.
Proof.
  intros now posted Hd. unfold formatTimeAgo, num_ceil_div.
  change (1000 * 60 * 60 * 24) with 86400000.
  set (a := Z.abs (now - posted)) in *.
  pose proof (ceil_div_bounds a 86400000 ltac:(lia)) as Hdays.
  set (days := - ((- a) / 86400000)) in *.
  pose proof (ceil_div_bounds days 7 ltac:(lia)) as Hweeks.
  exists (- ((- days) / 7)).
  assert (Hrange : 7 <= days <= 29) by lia.
  repeat split; try lia.
  unfold num_eq, num_lt.
  destruct (Z.eqb_spec days 1); [lia |].
  destruct (Z.ltb_spec days 7); [lia |].
  destruct (Z.ltb_spec days 30); [| lia].
  reflexivity.
Qed.

Lemma split_on_length (sep : ascii) (s : string) :
  length (split_on sep s) = S (occurrences sep s).
Proof.
  induction s as [| c rest IH]; [reflexivity |]. cbn [split_on occurrences].
  destruct (Ascii.eqb c sep); cbn [length]; [now rewrite IH |].
  destruct (split_on sep rest); [discriminate IH | exact IH].
Qed.

Lemma trimEnd_idempotent (s : string) : trimEnd (trimEnd s) = trimEnd s.
Proof.
  induction s as [| c rest IH]; [reflexivity |]. cbn [trimEnd].
  destruct (trimEnd rest) as [| c' t] eqn:E.
  - destruct (is_ws c) eqn:Ec; [reflexivity |]. cbn [trimEnd]. now rewrite Ec.
  - change (trimEnd (String c (String c' t)))
      with (match trimEnd (String c' t) with
            | EmptyString => if is_ws c then EmptyString else String c EmptyString
            | String a b => String c (String a b)
            end).
    now rewrite IH.
Qed.

Lemma trimStart_starts (s : string) :
  trimStart s = EmptyString \/
  exists c rest, trimStart s = String c rest /\ is_ws c = false.
Proof.
  induction s as [| c rest IH]; [now left |]. cbn [trimStart].
  destruct (is_ws c) eqn:Ec; [exact IH | right; eauto].
Qed.

Lemma trimEnd_keeps_start (c : ascii) (rest : string) :
  is_ws c = false -> exists rest', trimEnd (String c rest) = String c rest'.
Proof.
  intro Ec. cbn [trimEnd]. destruct (trimEnd rest); [rewrite Ec |]; eauto.
Qed.

Lemma trim_idempotent (s : string) : trim (trim s) = trim s.
Proof.
  unfold trim.
  destruct (trimStart_starts s) as [-> | (c & rest & -> & Ec)];
    [reflexivity |].
  destruct (trimEnd_keeps_start c rest Ec) as (rest' & E).
  rewrite E at 1. cbn [trimStart]. rewrite Ec, <- E.
  apply trimEnd_idempotent.
Qed.

Lemma split_on_joins (sep : ascii) (s : string) :
  String.concat (String sep EmptyString) (split_on sep s) = s.
Proof.
  induction s as [| c rest IH]; [reflexivity |]. cbn [split_on].
  pose proof (split_on_length sep rest) as Hlen.
  destruct (Ascii.eqb_spec c sep) as [-> | Hne];
    destruct (split_on sep rest) as [| piece pieces];
    try discriminate Hlen.
  - rewrite <- IH. reflexivity.
  - rewrite <- IH. destruct pieces; reflexivity.
Qed.

Lemma split_on_pieces (sep : ascii) (s : string) :
  Forall (fun piece => occurrences sep piece = 0%nat) (split_on sep s).
Proof.
  induction s as [| c rest IH]; [repeat constructor |]. cbn [split_on].
  destruct (Ascii.eqb c sep) eqn:Ec; [constructor; [reflexivity | exact IH] |].
  destruct (split_on sep rest) as [| piece pieces];
    [repeat constructor; cbn [occurrences]; now rewrite Ec |].
  inversion IH as [| ? ? Hpiece Hpieces]; subst.
  constructor; [| exact Hpieces].
  cbn [occurrences]. now rewrite Ec.
Qed.

(** X18. A skills text is cut at its commas: the badges of a non-empty
    text are the trimmed pieces of the text, where the pieces are the
    texts without a comma which, put back together with commas between
    them, give the text.  There is one badge more than the text has
    commas, and no badge has white space around it. *)
Theorem skills_text_is_cut_at_commas :
  forall s : string,
    s <> "" ->
    exists pieces,
      String.concat "," pieces = s /\
      Forall (fun piece => occurrences "," piece = 0%nat) pieces /\
      skillsArray (VStr s) = inl (map (fun piece => VStr (trim piece)) pieces) /\
      length pieces = S (occurrences "," s) /\
      Forall (fun piece => trim (trim piece) = trim piece) pieces.
Proof.
  intros s Hs. exists (split_on "," s).
  split; [apply split_on_joins |].
  split; [apply split_on_pieces |].
  split; [unfold skillsArray; now rewrite truthy_VStr by assumption |].
  split; [apply split_on_length |].
  apply Forall_forall. intros piece _. apply trim_idempotent.
Qed.

(** X19. Every skill is on the card: the badges shown are the first
    skills, in order, and the "+n more" badge, there exactly when there
    are more than five, counts the rest. *)
Theorem every_skill_is_shown_or_counted :
  forall skills : list val,
    skills = (shown skills ++ skipn 5 skills)%list /\
    match more skills with
    | Some n => n = Z.of_nat (length (skipn 5 skills)) /\ 0 < n
    | None => skipn 5 skills = []
    end.
Proof.
  intro skills. unfold shown, more. split; [now rewrite firstn_skipn |].
  rewrite length_skipn.
  destruct (Z.ltb_spec 5 (Z.of_nat (length skills))); [lia |].
  apply skipn_all2. lia.
Qed.

(** X20. The card shows the location the server generated: for the job
    data POST /api/jobs builds from a body whose city, state and country
    are non-empty texts and which has no zip code, the location line of
    the card is that job's [location]. *)
Theorem card_shows_the_generated_location :
  forall (props : list (string * val)) (jobType : val)
         (city region country : string),
    lookup "city" props = VStr city ->
    lookup "state" props = VStr region ->
    lookup "country" props = VStr country ->
    city <> "" -> region <> "" -> country <> "" ->
    truthy (lookup "zipCode" props) = false ->
    locationLine (jobData_of (VObj props) jobType)
    = inl (VStr (city ++ ", " ++ region ++ ", " ++ country))
    /\ get (jobData_of (VObj props) jobType) "location"
       = inl (VStr (city ++ ", " ++ region ++ ", " ++ country)).
Proof.
  intros props jobType city region country Hcity Hstate Hcountry
         Hc Hr Hk Hzip.
  assert (Hdata :
    jobData_of (VObj props) jobType
    = VObj (set "location"
              (VStr (city ++ ", " ++ region ++ ", " ++ country))
              (extend_props (VObj props)
                 [("recruiterId", VStr "admin-krupa");
                  ("employmentType",
                   or_else jobType (VStr "full_time"))]))).
  { unfold jobData_of.
    rewrite !jobData_keeps by discriminate.
    rewrite Hcity, Hstate, Hcountry.
    rewrite !truthy_VStr by assumption. reflexivity. }
  rewrite Hdata. split; [| cbn [get]; now rewrite lookup_set_same].
  unfold locationLine. cbn [get].
  rewrite lookup_set_same.
  rewrite !lookup_set_other by discriminate.
  rewrite !jobData_keeps by discriminate.
  rewrite Hcity, Hstate, Hcountry. cbn [filter].
  rewrite Hzip, !truthy_VStr by assumption.
  cbn [join to_string]. unfold or_else.
  rewrite truthy_VStr; [reflexivity |].
  destruct city; [contradiction | discriminate].
Qed.

End Card.

(** X16 on a posting of twelve hours ago. *)
Lemma one_day_witness :
  JobCard.formatTimeAgo 1700000000000 (Int 1699956800000) = "1 day ago".
Proof.
  apply (posting_within_a_day_reads_one_day 1700000000000 1699956800000).
  simpl; lia.
Defined.

(** X17 on a posting of ten days ago, which reads "2 weeks ago". *)
Lemma weeks_witness :
  exists w,
    1 <= w <= 5 /\
    JobCard.formatTimeAgo 1700000000000 (Int 1699136000000)
    = string_of_Z w ++ " weeks ago" /\
    7 * 86400000 * (w - 1) < Z.abs (1700000000000 - 1699136000000)
    <= 7 * 86400000 * w.
Proof.
  apply (posting_of_the_month_reads_in_weeks 1700000000000 1699136000000).
  simpl; lia.
Defined.

(** X18 on the text "React, Node ,SQL": three badges. *)
Lemma skills_witness :
  exists pieces,
    String.concat "," pieces = "React, Node ,SQL" /\
    Forall (fun piece => occurrences "," piece = 0%nat) pieces /\
    JobCard.skillsArray (VStr "React, Node ,SQL")
    = inl (map (fun piece => VStr (trim piece)) pieces) /\
    length pieces = S (occurrences "," "React, Node ,SQL") /\
    Forall (fun piece => trim (trim piece) = trim piece) pieces.
Proof.
  apply (skills_text_is_cut_at_commas "React, Node ,SQL").
  discriminate.
Defined.

(** X20 on a job in Austin. *)
Lemma card_location_witness :
  JobCard.locationLine
    (jobData_of
       (VObj [("city", VStr "Austin"); ("state", VStr "TX");
              ("country", VStr "USA")])
       VUndef)
  = inl (VStr "Austin, TX, USA").
Proof.
  apply (card_shows_the_generated_location
           [("city", VStr "Austin"); ("state", VStr "TX");
            ("country", VStr "USA")]
           VUndef "Austin" "TX" "USA");
    first [reflexivity | discriminate].
Defined.

(** ** The upload filters *)

Section Uploads.

Lemma lower_ascii_keeps_marks (c : ascii) :
  Ascii.eqb (lower_ascii c) "/" = Ascii.eqb c "/" /\
  Ascii.eqb (lower_ascii c) "." = Ascii.eqb c "." /\
  lower_ascii (lower_ascii c) = lower_ascii c.
Proof. destruct c as [[] [] [] [] [] [] [] []]; repeat split. Qed.

Lemma toLowerCase_idempotent (s : string) :
  toLowerCase (toLowerCase s) = toLowerCase s.
Proof.
  induction s as [| c rest IH]; [reflexivity |]. cbn [toLowerCase].
  rewrite IH. now destruct (lower_ascii_keeps_marks c) as (_ & _ & ->).
Qed.

Lemma toLowerCase_length (s : string) :
  String.length (toLowerCase s) = String.length s.
Proof.
  induction s as [| c rest IH]; [reflexivity |]. cbn [toLowerCase String.length].
  now rewrite IH.
Qed.

Lemma drop_trailing_slashes_lower (s : string) :
  drop_trailing_slashes (toLowerCase s)
  = toLowerCase (drop_trailing_slashes s).
Proof.
  induction s as [| c rest IH]; [reflexivity |].
  cbn [toLowerCase drop_trailing_slashes]. rewrite IH.
  destruct (lower_ascii_keeps_marks c) as (-> & _ & _).
  destruct (drop_trailing_slashes rest); cbn [toLowerCase];
    [destruct (Ascii.eqb c "/") |]; reflexivity.
Qed.

Lemma basename_from_lower (cur s : string) :
  basename_from (toLowerCase cur) (toLowerCase s)
  = toLowerCase (basename_from cur s).
Proof.
  revert cur. induction s as [| c rest IH]; intro cur; [reflexivity |].
  cbn [toLowerCase basename_from].
  destruct (lower_ascii_keeps_marks c) as (-> & _ & _).
  destruct (Ascii.eqb c "/"); apply IH.
Qed.

Lemma last_dot_suffix_lower (s : string) :
  last_dot_suffix (toLowerCase s)
  = option_map toLowerCase (last_dot_suffix s).
Proof.
  induction s as [| c rest IH]; [reflexivity |].
  cbn [toLowerCase last_dot_suffix]. rewrite IH.
  destruct (lower_ascii_keeps_marks c) as (_ & -> & _).
  destruct (last_dot_suffix rest); cbn [option_map]; [reflexivity |].
  destruct (Ascii.eqb c "."); reflexivity.
Qed.

Lemma two_dots_lower (b : string) :
  String.eqb (toLowerCase b) ".." = String.eqb b "..".
Proof.
  destruct b as [| c1 [| c2 [| c3 rest]]]; try reflexivity;
    cbn [toLowerCase String.eqb];
    destruct (lower_ascii_keeps_marks c1) as (_ & -> & _);
    try destruct (lower_ascii_keeps_marks c2) as (_ & -> & _);
    reflexivity.
Qed.

Lemma extname_lower (p : string) :
  extname (toLowerCase p) = toLowerCase (extname p).
Proof.
  unfold extname, basename.
  rewrite drop_trailing_slashes_lower, basename_from_lower,
          last_dot_suffix_lower.
  set (b := basename_from _ _).
  destruct (last_dot_suffix b) as [ext |]; cbn [option_map];
    [| reflexivity].
  rewrite !toLowerCase_length, two_dots_lower.
  destruct (String.length ext =? String.length b)%nat; [reflexivity |].
  destruct (String.eqb b ".."); reflexivity.
Qed.

(** X21. The upload filters do not look at letter case: a file is
    accepted or refused exactly as the file of the same name in lower
    case, for resumes and for images alike. *)
Theorem upload_filters_ignore_letter_case :
  forall (u : uploader) (f : file),
    fileFilter (allowedTypes u) (rejection u) f
    = fileFilter (allowedTypes u) (rejection u)
        {| fieldname := fieldname f;
           originalname := toLowerCase (originalname f);
           size := size f;
           filename := filename f;
           fpath := fpath f |}.
Proof.
  intros u f. unfold fileFilter. cbn [originalname].
  now rewrite extname_lower, toLowerCase_idempotent.
Qed.

Lemma no_dot_in_basename (cur s : string) :
  last_dot_suffix cur = None -> last_dot_suffix s = None ->
  last_dot_suffix (basename_from cur s) = None.
Proof.
  revert cur. induction s as [| c rest IH]; intros cur Hcur Hs; [exact Hcur |].
  cbn [basename_from]. cbn [last_dot_suffix] in Hs.
  destruct (last_dot_suffix rest) eqn:E; [discriminate |].
  destruct (Ascii.eqb c "/"); now apply IH.
Qed.

Lemma no_dot_after_dropping (s : string) :
  last_dot_suffix s = None -> last_dot_suffix (drop_trailing_slashes s) = None.
Proof.
  induction s as [| c rest IH]; [reflexivity |].
  cbn [last_dot_suffix drop_trailing_slashes].
  destruct (last_dot_suffix rest) eqn:E; [discriminate |].
  specialize (IH eq_refl). intro Hc.
  destruct (Ascii.eqb c ".") eqn:Edot; [discriminate Hc |].
  destruct (drop_trailing_slashes rest) eqn:Ed.
  - destruct (Ascii.eqb c "/"); [reflexivity |].
    cbn [last_dot_suffix]. now rewrite Edot.
  - change (last_dot_suffix (String c (String a s)))
      with (match last_dot_suffix (String a s) with
            | Some t => Some t
            | None => if Ascii.eqb c "." then Some (String c (String a s))
                      else None
            end).
    now rewrite IH, Edot.
Qed.

(** X22. A file whose name has no dot is never stored: both uploaders
    hand their refusal to the error handler, whatever the size of the
    file. *)
Theorem names_without_a_dot_are_refused :
  forall (u : uploader) (field : string) (req : request) (f : file),
    u = upload \/ u = imageUpload ->
    rupload req = Some f ->
    fieldname f = field ->
    occurrences "." (originalname f) = 0%nat ->
    single u field req = inr (Error (rejection u)).
Proof.
  intros u field req f Hu Hf Hfield Hdot.
  assert (Hnone : last_dot_suffix (originalname f) = None).
  { clear - Hdot. induction (originalname f) as [| c rest IH]; [reflexivity |].
    cbn [occurrences] in Hdot. cbn [last_dot_suffix].
    destruct (Ascii.eqb c "."); [discriminate |].
    now rewrite IH. }
  assert (Hext : extname (originalname f) = "").
  { unfold extname, basename.
    now rewrite no_dot_in_basename by now apply no_dot_after_dropping. }
  unfold single, fileFilter. rewrite Hf, Hfield, String.eqb_refl, Hext.
  destruct Hu as [-> | ->]; reflexivity.
Qed.

End Uploads.

(** X22 on a resume called "resume". *)
Lemma dotless_name_witness :
  single upload "resume"
    {| rmethod := POST; rpath := ["api"; "applications"]; rquery := [];
       rbody := VObj []; rsession_user := Sample.alice;
       rupload := Some {| fieldname := "resume"; originalname := "resume";
                          size := 10; filename := "f1";
                          fpath := "uploads/f1" |} |}
  = inr (Error (rejection upload)).
Proof.
  apply (names_without_a_dot_are_refused upload "resume"
           {| rmethod := POST; rpath := ["api"; "applications"]; rquery := [];
              rbody := VObj []; rsession_user := Sample.alice;
              rupload := Some {| fieldname := "resume";
                                 originalname := "resume";
                                 size := 10; filename := "f1";
                                 fpath := "uploads/f1" |} |}
           {| fieldname := "resume"; originalname := "resume";
              size := 10; filename := "f1"; fpath := "uploads/f1" |});
    [left; reflexivity | reflexivity | reflexivity | reflexivity].
Defined.
